(** * Yellow Tea backend: order lifecycle, payment verification, webhooks, refunds

    A shallow embedding of the order/payment core of the backend:

    - [config/razorpay.config.js]   : [formatAmountForRazorpay], [formatAmountFromRazorpay]
    - [controllers/payment.controller.js] : [createRazorpayOrder], [verifyPayment], [processRefund]
    - [controllers/webhook.controller.js] : [handleRazorpayWebhook] and its event handlers
    - [models/order.model.js]             : the paths of the order schema that these touch
    - [controllers/order.controller.js]   : [updateOrderStatus], [cancelOrder], [processRefund],
                                            [markCodOrderAsPaid], [getOrderById], and
                                            [cleanPhone] of [createOrder]

    The Mongo collection of orders is a list of documents in natural order,
    [findOne] returns the first match, [save] rewrites the document with the
    same [_id].  A JavaScript [Number] is a binary64 float (Rocq's primitive
    [float]); [Date.now()] is an integer number of milliseconds supplied by
    the environment; the payment gateway is an oracle whose calls either
    return a value or throw ([None]). *)

From Stdlib Require Import ZArith List String Ascii Bool Lia.
From Stdlib Require Import Uint63 PrimFloat SpecFloat FloatOps FloatAxioms.
Import ListNotations.

Local Open Scope string_scope.
Local Open Scope Z_scope.

(** ** JavaScript values used by the controllers *)

(** A JavaScript [Number]. *)
Definition Number := PrimFloat.float.

(** [Date.now()]: milliseconds since the epoch. *)
Definition Time := Z.

(** Truthiness of a possibly absent string ([undefined], [null] and the
    empty string are falsy). *)
Definition truthy (v : option string) : bool :=
  match v with
  | Some s => negb (s =? "")%string
  | None => false
  end.

(** Truthiness of a possibly absent number ([undefined], [0], [-0] and
    [NaN] are falsy). *)
Definition truthy_num (v : option Number) : bool :=
  match v with
  | Some x => negb (PrimFloat.is_zero x || PrimFloat.is_nan x)
  | None => false
  end.

(** [a || b] on possibly absent strings. *)
Definition or_else (a b : option string) : option string :=
  if truthy a then a else b.

(** ** Data model ([models/order.model.js]) *)

Inductive OrderStatus :=
| pending | processing | shipped | delivered | cancelled | refunded.

Inductive PaymentMethod :=
| credit_card | debit_card | upi | cod | wallet | razorpay.

Inductive RefundStatus :=
| refund_pending | refund_processing | refund_completed | refund_failed.

Definition OrderStatus_eqb (a b : OrderStatus) : bool :=
  match a, b with
  | pending, pending | processing, processing | shipped, shipped
  | delivered, delivered | cancelled, cancelled | refunded, refunded => true
  | _, _ => false
  end.

Definition PaymentMethod_eqb (a b : PaymentMethod) : bool :=
  match a, b with
  | credit_card, credit_card | debit_card, debit_card | upi, upi
  | cod, cod | wallet, wallet | razorpay, razorpay => true
  | _, _ => false
  end.

Definition RefundStatus_eqb (a b : RefundStatus) : bool :=
  match a, b with
  | refund_pending, refund_pending | refund_processing, refund_processing
  | refund_completed, refund_completed | refund_failed, refund_failed => true
  | _, _ => false
  end.

(** The string a status is written as in requests and notifications. *)
Definition status_name (s : OrderStatus) : string :=
  match s with
  | pending => "pending" | processing => "processing" | shipped => "shipped"
  | delivered => "delivered" | cancelled => "cancelled" | refunded => "refunded"
  end.

Definition status_of_name (s : string) : option OrderStatus :=
  if (s =? "pending")%string then Some pending
  else if (s =? "processing")%string then Some processing
  else if (s =? "shipped")%string then Some shipped
  else if (s =? "delivered")%string then Some delivered
  else if (s =? "cancelled")%string then Some cancelled
  else if (s =? "refunded")%string then Some refunded
  else None.

(** The schema's [paymentResult] and [refundDetails] are nested paths and
    the schema is strict: a key of an assigned object literal that is not
    declared here ([error_code], [error_description], [method],
    [transactionId], [notes]) is dropped on assignment, and a property set
    on the document under an undeclared name ([cancellationReason],
    [cancelledAt]) is neither saved nor serialised.  The records below have
    the declared paths that the controllers touch. *)
Module PaymentResult.
Record t := mk {
  id : option string;
  status : option string;
  update_time : option Time;
  email_address : option string;
  razorpay_order_id : option string;
  razorpay_payment_id : option string
}.
End PaymentResult.

Module RefundDetails.
Record t := mk {
  amount : option Number;
  id : option string;
  status : option string;
  processedAt : option Time;
  processedBy : option string;
  reason : option string;
  razorpayRefundId : option string
}.
End RefundDetails.

Module Order.
Record t := mk {
  _id : string;
  user : string;
  orderNumber : string;
  paymentMethod : PaymentMethod;
  paymentResult : option PaymentResult.t;
  totalPrice : Number;
  isPaid : bool;
  paidAt : option Time;
  deliveredAt : option Time;
  status : OrderStatus;
  razorpayOrderId : option string;
  refundStatus : option RefundStatus;
  refundDetails : option RefundDetails.t
}.

(** Field assignments [order.f = v]. *)
Definition set_paymentMethod (v : PaymentMethod) (o : t) : t :=
  mk (_id o) (user o) (orderNumber o) v (paymentResult o) (totalPrice o)
     (isPaid o) (paidAt o) (deliveredAt o) (status o) (razorpayOrderId o)
     (refundStatus o) (refundDetails o).
Definition set_paymentResult (v : option PaymentResult.t) (o : t) : t :=
  mk (_id o) (user o) (orderNumber o) (paymentMethod o) v (totalPrice o)
     (isPaid o) (paidAt o) (deliveredAt o) (status o) (razorpayOrderId o)
     (refundStatus o) (refundDetails o).
Definition set_isPaid (v : bool) (o : t) : t :=
  mk (_id o) (user o) (orderNumber o) (paymentMethod o) (paymentResult o) (totalPrice o)
     v (paidAt o) (deliveredAt o) (status o) (razorpayOrderId o)
     (refundStatus o) (refundDetails o).
Definition set_paidAt (v : option Time) (o : t) : t :=
  mk (_id o) (user o) (orderNumber o) (paymentMethod o) (paymentResult o) (totalPrice o)
     (isPaid o) v (deliveredAt o) (status o) (razorpayOrderId o)
     (refundStatus o) (refundDetails o).
Definition set_deliveredAt (v : option Time) (o : t) : t :=
  mk (_id o) (user o) (orderNumber o) (paymentMethod o) (paymentResult o) (totalPrice o)
     (isPaid o) (paidAt o) v (status o) (razorpayOrderId o)
     (refundStatus o) (refundDetails o).
Definition set_status (v : OrderStatus) (o : t) : t :=
  mk (_id o) (user o) (orderNumber o) (paymentMethod o) (paymentResult o) (totalPrice o)
     (isPaid o) (paidAt o) (deliveredAt o) v (razorpayOrderId o)
     (refundStatus o) (refundDetails o).
Definition set_razorpayOrderId (v : option string) (o : t) : t :=
  mk (_id o) (user o) (orderNumber o) (paymentMethod o) (paymentResult o) (totalPrice o)
     (isPaid o) (paidAt o) (deliveredAt o) (status o) v
     (refundStatus o) (refundDetails o).
Definition set_refundStatus (v : option RefundStatus) (o : t) : t :=
  mk (_id o) (user o) (orderNumber o) (paymentMethod o) (paymentResult o) (totalPrice o)
     (isPaid o) (paidAt o) (deliveredAt o) (status o) (razorpayOrderId o)
     v (refundDetails o).
Definition set_refundDetails (v : option RefundDetails.t) (o : t) : t :=
  mk (_id o) (user o) (orderNumber o) (paymentMethod o) (paymentResult o) (totalPrice o)
     (isPaid o) (paidAt o) (deliveredAt o) (status o) (razorpayOrderId o)
     (refundStatus o) v.
End Order.

(** A notification pushed to a user's [notifications] array. *)
Module Notification.
Record t := mk {
  user : string;
  type : string;
  order : string
}.
End Notification.

(** The authenticated user that the [protect] middleware attaches to a request. *)
Module ReqUser.
Record t := mk {
  id : string;
  role : string;
  email : option string
}.
End ReqUser.

(** ** The document store and the notification log *)

Record World := mkWorld {
  orders : list Order.t;
  admins : list string;
  notifications : list Notification.t
}.

Definition has_id (i : string) (o : Order.t) : bool := (Order._id o =? i)%string.

Definition has_razorpayOrderId (rid : string) (o : Order.t) : bool :=
  match Order.razorpayOrderId o with
  | Some r => (r =? rid)%string
  | None => false
  end.

Definition has_razorpay_payment_id (pid : string) (o : Order.t) : bool :=
  match Order.paymentResult o with
  | Some pr =>
      match PaymentResult.razorpay_payment_id pr with
      | Some p => (p =? pid)%string
      | None => false
      end
  | None => false
  end.

(** [Order.findById(id)], for an [id] that casts to an ObjectId, as every
    stored [_id] does.  (For another string Mongoose throws a CastError,
    which the handlers pass to [next]: an error answer with nothing written,
    which the model does not tell apart from the 404 of an unknown order.) *)
Definition findById (i : string) (w : World) : option Order.t :=
  find (has_id i) (orders w).

(** [Order.findOne({ razorpayOrderId: rid })]. *)
Definition findOne_razorpayOrderId (rid : string) (w : World) : option Order.t :=
  find (has_razorpayOrderId rid) (orders w).

(** [Order.findOne({ 'paymentResult.razorpay_payment_id': pid })]. *)
Definition findOne_razorpay_payment_id (pid : string) (w : World) : option Order.t :=
  find (has_razorpay_payment_id pid) (orders w).

(** [order.save()]: the stored document with this [_id] takes the fields of [o]. *)
Definition save (o : Order.t) (w : World) : World :=
  mkWorld
    (map (fun d => if has_id (Order._id o) d then o else d) (orders w))
    (admins w)
    (notifications w).

(** Modelled from the spec: [sendUserNotification], which the controllers
    import from [utils/responseHandler.js] and whose definition is missing
    from the sources.  The spec's Notification Dispatcher is "told notify
    user X of event Y"; one call appends one entry to the log. *)
Definition sendUserNotification (u type order : string) (w : World) : World :=
  mkWorld (orders w) (admins w)
          (notifications w ++ [Notification.mk u type order]).

(** [User.findByIdAndUpdate(u, { $push: { notifications: {...} } })]. *)
Definition pushNotification (u type order : string) (w : World) : World :=
  mkWorld (orders w) (admins w)
          (notifications w ++ [Notification.mk u type order]).

(** ** Responses *)

(** What a handler hands to Express: [next(new ApiError(code, msg))],
    [next(error)] for an exception that was thrown, or
    [res.status(code).json(new ApiResponse(code, data, msg))]. *)
Inductive Response (A : Type) :=
| ApiError (statusCode : Z) (message : string)
| Thrown (what : string)
| ApiResponse (statusCode : Z) (data : A) (message : string).
Arguments ApiError {A}.
Arguments Thrown {A}.
Arguments ApiResponse {A}.

Definition is_rejected {A} (r : Response A) : bool :=
  match r with
  | ApiResponse _ _ _ => false
  | _ => true
  end.

(** ** [config/razorpay.config.js] *)

Module RazorpayConfig.

(** The integer [n], [|n| < 2^63], as a [Number]. *)
Definition Number_of_Z (n : Z) : Number :=
  if n <? 0 then PrimFloat.opp (PrimFloat.of_uint63 (Uint63.of_Z (- n)))
  else PrimFloat.of_uint63 (Uint63.of_Z n).

(** [Math.round(x)]: the integral Number closest to [x], ties towards
    [+Infinity]; [NaN], the infinities and the zeros are returned as they
    are, and a value in [[-0.5, 0)] rounds to [-0].  A finite [x] is
    [(-1)^s * m * 2^e]; when [e < 0] the result is
    [floor (x + 1/2) = floor ((2 * (+-m) + 2^(-e)) / 2^(1 - e))]. *)
Definition Math_round (x : Number) : Number :=
  match Prim2SF x with
  | S754_finite s m e =>
      if 0 <=? e then x
      else
        let k := Z.to_pos (- e) in
        let sm := if s then Z.neg m else Z.pos m in
        let n := (2 * sm + Z.pow_pos 2 k) / Z.pow_pos 2 (k + 1) in
        if n =? 0 then (if s then PrimFloat.neg_zero else PrimFloat.zero)
        else Number_of_Z n
  | _ => x
  end.

(** [RAZORPAY_CONFIG.currency]. *)
Definition currency : string := "INR".

(** [formatAmountForRazorpay]: rupees to paise. *)
Definition formatAmountForRazorpay (amount : Number) : Number :=
  Math_round (PrimFloat.mul amount 100%float).

(** [formatAmountFromRazorpay]: paise to rupees. *)
Definition formatAmountFromRazorpay (amount : Number) : Number :=
  PrimFloat.div amount 100%float.

(** The Number that a decimal amount with two places denotes: for [k]
    hundredths (paise), the double nearest to [k / 100], which is what the
    literal reads as and what dividing the integer [k] by 100 yields. *)
Definition amount_of_paise (k : Z) : Number :=
  PrimFloat.div (Number_of_Z k) 100%float.

End RazorpayConfig.

(** ** The payment gateway client ([razorpay.orders], [razorpay.payments]) *)

Module Gateway.

Record OrderRequest := mkOrderRequest {
  req_amount : Number;
  req_currency : string;
  req_receipt : string
}.

Record RazorpayOrder := mkRazorpayOrder {
  order_id : string;
  order_amount : Number;
  order_currency : string
}.

(** A payment entity, as [payments.fetch] returns it and as a webhook
    event carries it. *)
Record Payment := mkPayment {
  id : string;
  status : string;
  order_id_of : string;
  amount : Number;
  email : option string;
  payment_error_code : option string;
  payment_error_description : option string
}.

Record Refund := mkRefund {
  refund_id : string;
  refund_amount : Number;
  refund_status : string;
  refund_payment_id : string;
  refund_notes_reason : option string
}.

(** The client: each call returns a value or throws ([None]). *)
Record Client := mkClient {
  orders_create : OrderRequest -> option RazorpayOrder;
  payments_fetch : string -> option Payment;
  payments_refund : string -> Number -> option Refund
}.

End Gateway.

(** The process environment of one request: the configured secrets, the
    clock (every [Date.now()] of the request reads [Date_now]) and the
    gateway client. *)
Record Env := mkEnv {
  RAZORPAY_KEY_SECRET : option string;
  RAZORPAY_WEBHOOK_SECRET : option string;
  Date_now : Time;
  razorpay_client : Gateway.Client
}.

(** ** [controllers/payment.controller.js] *)

Module PaymentController.

Record CreateOrderReq := mkCreateOrderReq {
  co_orderId : option string;
  co_user : ReqUser.t
}.

Record VerifyReq := mkVerifyReq {
  razorpay_order_id : option string;
  razorpay_payment_id : option string;
  razorpay_signature : option string;
  orderId : option string;
  user : ReqUser.t
}.

Record RefundReq := mkRefundReq {
  rf_orderId : option string;
  rf_refundAmount : option Number;
  rf_reason : option string;
  rf_user : ReqUser.t
}.

(** [createRazorpayOrder]. *)
Definition createRazorpayOrder (env : Env) (req : CreateOrderReq) (w : World)
  : Response Gateway.RazorpayOrder * World :=
  match co_orderId req with
  | None => (ApiError 400 "Order ID is required", w)
  | Some oid =>
  if negb (truthy (Some oid)) then (ApiError 400 "Order ID is required", w) else
  match findById oid w with
  | None => (ApiError 404 "Order not found", w)
  | Some order =>
  if negb (Order.user order =? ReqUser.id (co_user req))%string
  then (ApiError 403 "Not authorized to access this order", w) else
  if Order.isPaid order
  then (ApiError 400 "Order is already paid", w) else
  if OrderStatus_eqb (Order.status order) cancelled
  then (ApiError 400 "Cannot process payment for cancelled order", w) else
  match Gateway.orders_create (razorpay_client env)
          (Gateway.mkOrderRequest
             (RazorpayConfig.formatAmountForRazorpay (Order.totalPrice order))
             RazorpayConfig.currency
             (Order.orderNumber order)) with
  | None => (Thrown "razorpay.orders.create", w)
  | Some razorpayOrder =>
      let order := Order.set_razorpayOrderId (Some (Gateway.order_id razorpayOrder)) order in
      let w := save order w in
      (ApiResponse 200 razorpayOrder "Razorpay order created successfully", w)
  end
  end
  end.

Section WithCrypto.

(** [crypto.createHmac("sha256", key).update(msg).digest("hex")]. *)
Variable hmac_sha256_hex : string -> string -> string.

(** The order document [verifyPayment] writes once the gateway reports
    the payment as captured. *)
Definition paid_order (env : Env) (req : VerifyReq) (pid : string)
           (payment : Gateway.Payment) (order : Order.t) : Order.t :=
  let order := Order.set_isPaid true order in
  let order := Order.set_paidAt (Some (Date_now env)) order in
  let order := Order.set_paymentMethod razorpay order in
  let order := Order.set_paymentResult (Some (PaymentResult.mk
                 (Some pid)
                 (Some "captured")
                 (Some (Date_now env))
                 (ReqUser.email (user req))
                 (or_else (razorpay_order_id req) (Some (Gateway.order_id_of payment)))
                 (Some pid))) order in
  Order.set_status processing order.

(** [actualOrderId]: the [orderId] of the request, or else the [_id] of the
    order bound to the request's [razorpay_order_id]. *)
Definition actualOrderId (req : VerifyReq) (w : World) : option string :=
  if truthy (orderId req) then orderId req
  else if truthy (razorpay_order_id req) then
    match razorpay_order_id req with
    | Some rid => option_map Order._id (findOne_razorpayOrderId rid w)
    | None => None
    end
  else None.

(** The signature check, made only when both [razorpay_order_id] and
    [razorpay_signature] are supplied: [Some r] when the request is
    answered with [r] at this point. *)
Definition signature_check (env : Env) (req : VerifyReq) (pid : string)
  : option (Response Order.t) :=
  match razorpay_order_id req, razorpay_signature req with
  | Some rid, Some sig =>
      if truthy (Some rid) && truthy (Some sig) then
        match RAZORPAY_KEY_SECRET env with
        | None => Some (Thrown "crypto.createHmac")
        | Some secret =>
            let body := rid ++ "|" ++ pid in
            let expectedSignature := hmac_sha256_hex secret body in
            if negb (expectedSignature =? sig)%string
            then Some (ApiError 400 "Invalid payment signature")
            else None
        end
      else None
  | _, _ => None
  end.

(** [verifyPayment]. *)
Definition verifyPayment (env : Env) (req : VerifyReq) (w : World)
  : Response Order.t * World :=
  match razorpay_payment_id req with
  | None => (ApiError 400 "Missing razorpay_payment_id", w)
  | Some pid =>
  if negb (truthy (Some pid)) then (ApiError 400 "Missing razorpay_payment_id", w) else
  match actualOrderId req w with
  | None =>
      (ApiError 400 "Order ID not found. Please provide orderId or valid razorpay_order_id", w)
  | Some oid =>
  match findById oid w with
  | None => (ApiError 404 "Order not found", w)
  | Some order =>
  if negb (Order.user order =? ReqUser.id (user req))%string
  then (ApiError 403 "Not authorized to verify this payment", w) else
  match signature_check env req pid with
  | Some rejection => (rejection, w)
  | None =>
  match Gateway.payments_fetch (razorpay_client env) pid with
  | None => (ApiError 400 "Failed to verify payment with Razorpay", w)
  | Some payment =>
      if negb (Gateway.status payment =? "captured")%string
      then (ApiError 400 "Payment not captured", w)
      else
        let order := paid_order env req pid payment order in
        let w := save order w in
        let w := sendUserNotification (Order.user order) "payment_successful"
                                      (Order._id order) w in
        (ApiResponse 200 order "Payment verified and order updated successfully", w)
  end
  end
  end
  end
  end.

End WithCrypto.

(** The refund document the gateway-backed [processRefund] writes. *)
Definition refund_details (env : Env) (req : RefundReq) (refund : Gateway.Refund)
  : RefundDetails.t :=
  RefundDetails.mk
    (Some (RazorpayConfig.formatAmountFromRazorpay (Gateway.refund_amount refund)))
    (Some (Gateway.refund_id refund))
    (Some (Gateway.refund_status refund))
    (Some (Date_now env))
    (Some (ReqUser.id (rf_user req)))
    (or_else (rf_reason req) (Some "Customer request"))
    (Some (Gateway.refund_id refund)).

(** [order.paymentResult?.razorpay_payment_id]. *)
Definition order_razorpay_payment_id (order : Order.t) : option string :=
  match Order.paymentResult order with
  | Some pr => PaymentResult.razorpay_payment_id pr
  | None => None
  end.

(** [processRefund] (POST /api/v1/payments/refund). *)
Definition processRefund (env : Env) (req : RefundReq) (w : World)
  : Response Order.t * World :=
  match rf_orderId req with
  | None => (ApiError 400 "Order ID is required", w)
  | Some oid =>
  if negb (truthy (Some oid)) then (ApiError 400 "Order ID is required", w) else
  match findById oid w with
  | None => (ApiError 404 "Order not found", w)
  | Some order =>
  if negb (Order.isPaid order)
  then (ApiError 400 "Order is not paid", w) else
  match order_razorpay_payment_id order with
  | None => (ApiError 400 "Order does not have Razorpay payment", w)
  | Some pid =>
  if negb (truthy (Some pid))
  then (ApiError 400 "Order does not have Razorpay payment", w) else
  let refundAmountInPaise :=
    match rf_refundAmount req with
    | Some a =>
        if truthy_num (Some a) then RazorpayConfig.formatAmountForRazorpay a
        else RazorpayConfig.formatAmountForRazorpay (Order.totalPrice order)
    | None => RazorpayConfig.formatAmountForRazorpay (Order.totalPrice order)
    end in
  match Gateway.payments_refund (razorpay_client env) pid refundAmountInPaise with
  | None => (Thrown "razorpay.payments.refund", w)
  | Some refund =>
      let order := Order.set_refundStatus (Some refund_completed) order in
      let order := Order.set_refundDetails (Some (refund_details env req refund)) order in
      let w := save order w in
      let w := sendUserNotification (Order.user order) "refund_processed"
                                    (Order._id order) w in
      (ApiResponse 200 order "Refund processed successfully", w)
  end
  end
  end
  end.

End PaymentController.

(** ** [controllers/webhook.controller.js] *)

Module WebhookController.

(** The parsed request body: the event name and what is under
    [payload.payment], [payload.refund] and [payload.order].  Each is [None]
    when the key (or [payload] itself) is missing, [Some None] when the
    object is there without an [entity], and [Some (Some e)] when it holds
    the entity [e] (of the order entity only [id] is read). *)
Record Event := mkEvent {
  event : string;
  payload_payment : option (option Gateway.Payment);
  payload_refund : option (option Gateway.Refund);
  payload_order : option (option string)
}.

(** [x.entity], when [x] is there and has one. *)
Definition entity {A : Type} (x : option (option A)) : option A :=
  match x with
  | Some (Some e) => Some e
  | _ => None
  end.

Definition payload_payment_entity (ev : Event) : option Gateway.Payment :=
  entity (payload_payment ev).
Definition payload_refund_entity (ev : Event) : option Gateway.Refund :=
  entity (payload_refund ev).
Definition payload_order_entity (ev : Event) : option string :=
  entity (payload_order ev).

Record Request := mkRequest {
  x_razorpay_signature : option string;
  body : Event
}.

(** The request as it arrives: the signature header and the bytes of the body. *)
Record RawRequest := mkRawRequest {
  raw_signature : option string;
  raw_body : string
}.

(** [handlePaymentCaptured].  The module does not import
    [sendUserNotification]: the call after [order.save()] raises a
    ReferenceError, which the handler's own [catch] logs, so the order is
    saved and no notification is delivered. *)
Definition handlePaymentCaptured (env : Env) (payment : Gateway.Payment) (w : World) : World :=
  match findOne_razorpayOrderId (Gateway.order_id_of payment) w with
  | None => w
  | Some order =>
      if negb (Order.isPaid order) then
        let order := Order.set_isPaid true order in
        let order := Order.set_paidAt (Some (Date_now env)) order in
        let order := Order.set_paymentMethod razorpay order in
        let order := Order.set_paymentResult (Some (PaymentResult.mk
                       (Some (Gateway.id payment))
                       (Some (Gateway.status payment))
                       (Some (Date_now env))
                       (Gateway.email payment)
                       (Some (Gateway.order_id_of payment))
                       (Some (Gateway.id payment)))) order in
        let order := Order.set_status processing order in
        save order w
      else w
  end.

(** [handlePaymentFailed].  The object assigned to [order.paymentResult]
    also has the keys [error_code] and [error_description], taken from the
    payment entity; the schema declares neither, so they are dropped and the
    stored [paymentResult] has the six declared paths only. *)
Definition handlePaymentFailed (env : Env) (payment : Gateway.Payment) (w : World) : World :=
  match findOne_razorpayOrderId (Gateway.order_id_of payment) w with
  | None => w
  | Some order =>
      let order := Order.set_status cancelled order in
      let order := Order.set_paymentResult (Some (PaymentResult.mk
                     (Some (Gateway.id payment))
                     (Some (Gateway.status payment))
                     (Some (Date_now env))
                     (Gateway.email payment)
                     (Some (Gateway.order_id_of payment))
                     (Some (Gateway.id payment)))) order in
      let w := save order w in
      pushNotification (Order.user order) "payment_failed" (Order._id order) w
  end.

(** [handleRefundProcessed]. *)
Definition handleRefundProcessed (env : Env) (refund : Gateway.Refund) (w : World) : World :=
  match findOne_razorpay_payment_id (Gateway.refund_payment_id refund) w with
  | None => w
  | Some order =>
      let order := Order.set_refundStatus (Some refund_completed) order in
      let order := Order.set_refundDetails (Some (RefundDetails.mk
                     (Some (PrimFloat.div (Gateway.refund_amount refund) 100%float))
                     (Some (Gateway.refund_id refund))
                     (Some (Gateway.refund_status refund))
                     (Some (Date_now env))
                     None
                     (or_else (Gateway.refund_notes_reason refund) (Some "Customer request"))
                     (Some (Gateway.refund_id refund)))) order in
      let w := save order w in
      pushNotification (Order.user order) "refund_processed" (Order._id order) w
  end.

(** [handleOrderPaid]. *)
Definition handleOrderPaid (env : Env) (orderEntity_id : string) (w : World) : World :=
  match findOne_razorpayOrderId orderEntity_id w with
  | None => w
  | Some order =>
      if negb (Order.isPaid order) then
        let order := Order.set_isPaid true order in
        let order := Order.set_paidAt (Some (Date_now env)) order in
        let order := Order.set_status processing order in
        save order w
      else w
  end.

Section WithCrypto.

(** [crypto.createHmac('sha256', key).update(msg).digest('hex')]. *)
Variable hmac_sha256_hex : string -> string -> string.

(** [JSON.stringify] of the parsed body. *)
Variable JSON_stringify : Event -> string.

(** One case of the switch, [await handler(x.entity)].  Reading [entity]
    of a missing [x] throws a TypeError in [handleRazorpayWebhook] itself
    ([None]).  A handler called with [undefined] fails on its first property
    access, inside its own [try]: it logs and returns, and nothing changes. *)
Definition on_entity {A : Type} (x : option (option A)) (handler : A -> World)
           (w : World) : option World :=
  match x with
  | None => None
  | Some None => Some w
  | Some (Some e) => Some (handler e)
  end.

(** The [switch (event.event)] of [handleRazorpayWebhook]. *)
Definition dispatch (env : Env) (ev : Event) (w : World) : option World :=
  if (event ev =? "payment.captured")%string then
    on_entity (payload_payment ev) (fun p => handlePaymentCaptured env p w) w
  else if (event ev =? "payment.failed")%string then
    on_entity (payload_payment ev) (fun p => handlePaymentFailed env p w) w
  else if (event ev =? "refund.processed")%string then
    on_entity (payload_refund ev) (fun r => handleRefundProcessed env r w) w
  else if (event ev =? "order.paid")%string then
    on_entity (payload_order ev) (fun i => handleOrderPaid env i w) w
  else Some w.

(** [handleRazorpayWebhook]. *)
Definition handleRazorpayWebhook (env : Env) (req : Request) (w : World)
  : Response unit * World :=
  match RAZORPAY_WEBHOOK_SECRET env with
  | None => (ApiError 500 "Webhook secret not configured", w)
  | Some webhookSecret =>
  if negb (truthy (Some webhookSecret))
  then (ApiError 500 "Webhook secret not configured", w) else
  match x_razorpay_signature req with
  | None => (ApiError 400 "Missing webhook signature", w)
  | Some signature =>
  if negb (truthy (Some signature))
  then (ApiError 400 "Missing webhook signature", w) else
  let expectedSignature := hmac_sha256_hex webhookSecret (JSON_stringify (body req)) in
  if negb (signature =? expectedSignature)%string
  then (ApiError 400 "Invalid webhook signature", w) else
  match dispatch env (body req) w with
  | None => (Thrown "TypeError", w)
  | Some w => (ApiResponse 200 tt "Webhook processed successfully", w)
  end
  end
  end.

(** [req.body] for a request whose body is the text [raw], as the
    middleware mounted in [app.js] before the routes leaves it:
    [express.json()] parses the text, [mongoSanitize()] and [xss()] rewrite
    the result.  [None] when the text does not parse: the body parser then
    answers the request itself. *)
Variable request_body : string -> option Event.

(** The route POST /api/v1/webhooks/razorpay, from the bytes received. *)
Definition razorpay_webhook_route (env : Env) (r : RawRequest) (w : World)
  : Response unit * World :=
  match request_body (raw_body r) with
  | None => (Thrown "SyntaxError", w)
  | Some ev => handleRazorpayWebhook env (mkRequest (raw_signature r) ev) w
  end.

End WithCrypto.

End WebhookController.

(** ** [controllers/order.controller.js] *)

Module OrderController.

Record StatusReq := mkStatusReq {
  st_id : string;
  st_status : option string
}.

Record CancelReq := mkCancelReq {
  cn_id : string;
  cn_reason : option string;
  cn_user : ReqUser.t
}.

Record RefundReq := mkRefundReq {
  rf_id : string;
  rf_refundAmount : option Number;
  rf_refundMethod : option string;
  rf_transactionId : option string;
  rf_notes : option string;
  rf_user : ReqUser.t
}.

Definition validStatuses : list string :=
  ["processing"; "shipped"; "delivered"; "cancelled"].

(** [validStatuses.includes(status)]. *)
Definition includes (l : list string) (s : string) : bool :=
  existsb (fun x => (x =? s)%string) l.

(** [updateOrderStatus]. *)
Definition updateOrderStatus (env : Env) (req : StatusReq) (w : World)
  : Response Order.t * World :=
  match st_status req with
  | None => (ApiError 400 "Please provide order status", w)
  | Some name =>
  if negb (truthy (Some name)) then (ApiError 400 "Please provide order status", w) else
  if negb (includes validStatuses name) then (ApiError 400 "Invalid order status", w) else
  match status_of_name name with
  | None => (Thrown "ValidationError", w)
  | Some status =>
  match findById (st_id req) w with
  | None => (ApiError 404 "Order not found", w)
  | Some order =>
      let order := Order.set_status status order in
      let order :=
        if OrderStatus_eqb status delivered
        then Order.set_deliveredAt (Some (Date_now env)) order else order in
      let order :=
        if OrderStatus_eqb status cancelled && Order.isPaid order
        then Order.set_refundStatus (Some refund_pending) order else order in
      let w := save order w in
      let w := sendUserNotification (Order.user order) ("order_" ++ name)
                                    (Order._id order) w in
      (ApiResponse 200 order ("Order status updated to " ++ name), w)
  end
  end
  end.

(** The [for (const admin of adminUsers)] loop of [cancelOrder]. *)
Definition notify_admins (order : Order.t) (w : World) : World :=
  fold_left (fun w a => pushNotification a "order_cancelled" (Order._id order) w)
            (admins w) w.

(** [cancelOrder].  The assignments [order.cancellationReason = reason ||
    'No reason provided'] and [order.cancelledAt = Date.now()] set
    properties that are not paths of the schema: they are neither saved nor
    part of the order sent back, so the document is left as it is by them. *)
Definition cancelOrder (env : Env) (req : CancelReq) (w : World)
  : Response Order.t * World :=
  match findById (cn_id req) w with
  | None => (ApiError 404 "Order not found", w)
  | Some order =>
  if negb (Order.user order =? ReqUser.id (cn_user req))%string
     && negb (ReqUser.role (cn_user req) =? "admin")%string
  then (ApiError 403 "Not authorized to cancel this order", w) else
  if OrderStatus_eqb (Order.status order) delivered
  then (ApiError 400 "Cannot cancel a delivered order", w) else
  if OrderStatus_eqb (Order.status order) cancelled
  then (ApiError 400 "Order is already cancelled", w) else
  let order := Order.set_status cancelled order in
  let order :=
    if Order.isPaid order
    then Order.set_refundStatus (Some refund_pending) order else order in
  let w := save order w in
  let w := sendUserNotification (Order.user order) "order_cancelled" (Order._id order) w in
  let w := notify_admins order w in
  (ApiResponse 200 order "Order cancelled successfully", w)
  end.

(** [refundAmount || order.totalPrice]. *)
Definition refund_amount (req : RefundReq) (order : Order.t) : Number :=
  match rf_refundAmount req with
  | Some a => if truthy_num (Some a) then a else Order.totalPrice order
  | None => Order.totalPrice order
  end.

(** [processRefund] (PUT /api/v1/orders/:id/refund).  Of the object assigned
    to [order.refundDetails], the keys [method], [transactionId] and [notes]
    (the request's [refundMethod], [transactionId] and [notes]) are not
    declared by the schema and are dropped. *)
Definition processRefund (env : Env) (req : RefundReq) (w : World)
  : Response Order.t * World :=
  match findById (rf_id req) w with
  | None => (ApiError 404 "Order not found", w)
  | Some order =>
  if negb (OrderStatus_eqb (Order.status order) cancelled)
  then (ApiError 400 "Only cancelled orders can be refunded", w) else
  if negb (Order.isPaid order)
  then (ApiError 400 "Order was not paid, no refund needed", w) else
  if match Order.refundStatus order with
     | Some s => RefundStatus_eqb s refund_completed
     | None => false
     end
  then (ApiError 400 "Refund has already been processed", w) else
  let order := Order.set_refundStatus (Some refund_completed) order in
  let order := Order.set_refundDetails (Some (RefundDetails.mk
                 (Some (refund_amount req order))
                 None None
                 (Some (Date_now env))
                 (Some (ReqUser.id (rf_user req)))
                 None None)) order in
  let w := save order w in
  let w := pushNotification (Order.user order) "refund_processed" (Order._id order) w in
  (ApiResponse 200 order "Refund processed successfully", w)
  end.

(** [markCodOrderAsPaid].  The key [method: 'cod'] of the object assigned to
    [order.paymentResult] is not declared by the schema and is dropped. *)
Definition markCodOrderAsPaid (env : Env) (id : string) (w : World)
  : Response Order.t * World :=
  match findById id w with
  | None => (ApiError 404 "Order not found", w)
  | Some order =>
  if negb (PaymentMethod_eqb (Order.paymentMethod order) cod)
  then (ApiError 400 "Order is not a COD order", w) else
  if Order.isPaid order
  then (ApiError 400 "Order is already marked as paid", w) else
  let order := Order.set_isPaid true order in
  let order := Order.set_paidAt (Some (Date_now env)) order in
  let order := Order.set_paymentResult (Some (PaymentResult.mk
                 (Some "COD")
                 (Some "paid")
                 (Some (Date_now env))
                 (Some "")
                 None None)) order in
  let w := save order w in
  let w := sendUserNotification (Order.user order) "payment_successful"
                                (Order._id order) w in
  (ApiResponse 200 order "COD order marked as paid", w)
  end.

End OrderController.

(** ** Concrete data

    A small shop state used to run the handlers: one customer, one admin,
    a gateway that captures payment [pay_1] for gateway order [order_A],
    and a keyed digest standing in for HMAC-SHA256. *)

Module Scenario.

Definition digest (key msg : string) : string := key ++ ":" ++ msg.

Definition stringify (ev : WebhookController.Event) : string :=
  "{event:" ++ WebhookController.event ev ++ ",order_id:"
  ++ match WebhookController.payload_payment_entity ev with
     | Some p => Gateway.order_id_of p
     | None => ""
     end ++ "}".

Definition customer : ReqUser.t := ReqUser.mk "u1" "user" (Some "asha@example.com").
Definition staff : ReqUser.t := ReqUser.mk "a1" "admin" (Some "ops@example.com").

(** 709.97, the double nearest to it. *)
Definition total_709_97 : Number := 0x1.62fc28f5c28f6p+9%float.

Definition captured_payment : Gateway.Payment :=
  Gateway.mkPayment "pay_1" "captured" "order_A" 70997%float
                    (Some "asha@example.com") None None.

Definition failed_payment : Gateway.Payment :=
  Gateway.mkPayment "pay_2" "failed" "order_A" 70997%float
                    (Some "asha@example.com")
                    (Some "BAD_REQUEST_ERROR") (Some "Payment failed").

Definition client : Gateway.Client :=
  Gateway.mkClient
    (fun r => Some (Gateway.mkRazorpayOrder "order_B" (Gateway.req_amount r)
                                            (Gateway.req_currency r)))
    (fun pid => if (pid =? "pay_1")%string then Some captured_payment else None)
    (fun pid amount => Some (Gateway.mkRefund "rfnd_1" amount "processed" pid None)).

Definition env_at (t : Time) : Env :=
  mkEnv (Some "key_secret") (Some "whsec") t client.

(** An unpaid order with a gateway order id bound, in a given status. *)
Definition unpaid_order (pm : PaymentMethod) (st : OrderStatus) : Order.t :=
  Order.mk "o1" "u1" "YT-20240101-0001" pm None total_709_97
           false None None st (Some "order_A") None None.

(** An order paid through a given payment result, in a given status. *)
Definition paid_order (pm : PaymentMethod) (pr : PaymentResult.t) (st : OrderStatus)
           (rs : option RefundStatus) : Order.t :=
  Order.mk "o1" "u1" "YT-20240101-0001" pm (Some pr) total_709_97
           true (Some 1000) None st (Some "order_A") rs None.

Definition gateway_result : PaymentResult.t :=
  PaymentResult.mk (Some "pay_1") (Some "captured") (Some 1000)
                   (Some "asha@example.com") (Some "order_A") (Some "pay_1").

Definition cod_result : PaymentResult.t :=
  PaymentResult.mk (Some "COD") (Some "paid") (Some 1000) (Some "")
                   None None.

Definition shop (o : Order.t) : World := mkWorld [o] ["a1"] [].

Definition verify_request : PaymentController.VerifyReq :=
  PaymentController.mkVerifyReq
    (Some "order_A") (Some "pay_1") (Some (digest "key_secret" "order_A|pay_1"))
    (Some "o1") customer.

(** The order as [verifyPayment] rewrites it at time [t]. *)
Definition confirmed (t : Time) (o : Order.t) : Order.t :=
  PaymentController.paid_order (env_at t) verify_request "pay_1" captured_payment o.

Definition payment_note : Notification.t :=
  Notification.mk "u1" "payment_successful" "o1".

Definition captured_event : WebhookController.Event :=
  WebhookController.mkEvent "payment.captured" (Some (Some captured_payment)) None None.

Definition failed_event : WebhookController.Event :=
  WebhookController.mkEvent "payment.failed" (Some (Some failed_payment)) None None.

Definition signed (secret : string) (ev : WebhookController.Event)
  : WebhookController.Request :=
  WebhookController.mkRequest (Some (digest secret (stringify ev))) ev.

(** White space between the tokens of a body, which a JSON parser skips. *)
Fixpoint without_spaces (s : string) : string :=
  match s with
  | EmptyString => EmptyString
  | String c r =>
      if (Ascii.eqb c " " || Ascii.eqb c "009" || Ascii.eqb c "010" || Ascii.eqb c "013")%bool
      then without_spaces r else String c (without_spaces r)
  end.

(** A body parser standing in for the middleware, for the bodies of this
    scenario: like [JSON.parse] it skips white space between tokens, and it
    reads the two events above from their serialisations. *)
Definition request_body (raw : string) : option WebhookController.Event :=
  let text := without_spaces raw in
  if (text =? stringify captured_event)%string then Some captured_event
  else if (text =? stringify failed_event)%string then Some failed_event
  else None.

End Scenario.

(** ** Binary64 rounding

    Notions used to follow the rounding of [amount * 100] and
    [amount / 100] through the Standard Library's specification of binary64
    arithmetic ([SpecFloat]), to which the primitive operations are tied by
    [FloatAxioms]. *)

(** The Number 100 as sign, mantissa and exponent: [25 * 2^48 * 2^(-46)]. *)
Definition hundred : spec_float := S754_finite false 7036874417766400 (-46).

(** [located T N m r s]: the exact quantity [N / T] lies in [[m, m + 1)],
    the round bit [r] tells whether it reaches the midpoint, and the sticky
    bit [s] whether it is neither [m] nor the midpoint. *)
Definition located (T N m : Z) (r s : bool) : Prop :=
  T * m <= N < T * (m + 1)
  /\ (r = true <-> T <= 2 * (N - T * m))
  /\ (s = true <-> N <> T * m /\ 2 * (N - T * m) <> T).

(** ** [controllers/order.controller.js]: reading an order, and the phone
    number sent to the shipping partner *)

Module OrderReads.

Record GetReq := mkGetReq {
  g_id : string;
  g_user : ReqUser.t
}.

(** [getOrderById]. *)
Definition getOrderById (req : GetReq) (w : World) : Response Order.t :=
  match findById (g_id req) w with
  | None => ApiError 404 "Order not found"
  | Some order =>
      if negb (Order.user order =? ReqUser.id (g_user req))%string
         && negb (ReqUser.role (g_user req) =? "admin")%string
      then ApiError 403 "Not authorized to access this order"
      else ApiResponse 200 order "Order retrieved successfully"
  end.

(** A character matched by the regular expression [\d]. *)
Definition is_digit (c : ascii) : bool :=
  (48 <=? nat_of_ascii c)%nat && (nat_of_ascii c <=? 57)%nat.

(** [s.replace(/\D/g, '')]. *)
Fixpoint remove_non_digits (s : string) : string :=
  match s with
  | EmptyString => EmptyString
  | String c r =>
      if is_digit c then String c (remove_non_digits r) else remove_non_digits r
  end.

Fixpoint drop (n : nat) (s : string) : string :=
  match n, s with
  | O, _ => s
  | S n, String _ r => drop n r
  | S _, EmptyString => EmptyString
  end.

(** [s.slice(-n)]: the last [n] characters, or all of [s] when it is shorter. *)
Definition slice_last (n : nat) (s : string) : string :=
  drop (String.length s - n) s.

(** [cleanPhone], the helper of [createOrder]:
    [(phone || '').replace(/\D/g, '').slice(-10)]. *)
Definition cleanPhone (phone : option string) : string :=
  let s := match phone with
           | Some s => if truthy phone then s else ""
           | None => ""
           end in
  slice_last 10 (remove_non_digits s).

Fixpoint all_digits (s : string) : bool :=
  match s with
  | EmptyString => true
  | String c r => is_digit c && all_digits r
  end.

End OrderReads.

(** ** The mutating endpoints, as one request type *)

Module Api.

Inductive Operation :=
| CreateRazorpayOrder (req : PaymentController.CreateOrderReq)
| VerifyPayment (req : PaymentController.VerifyReq)
| GatewayRefund (req : PaymentController.RefundReq)
| RazorpayWebhook (req : WebhookController.Request)
| UpdateOrderStatus (req : OrderController.StatusReq)
| CancelOrder (req : OrderController.CancelReq)
| AdminRefund (req : OrderController.RefundReq)
| MarkCodOrderAsPaid (id : string).

Section WithCrypto.

Variable hmac_sha256_hex : string -> string -> string.
Variable JSON_stringify : WebhookController.Event -> string.

(** The state a request leaves behind. *)
Definition run (env : Env) (op : Operation) (w : World) : World :=
  match op with
  | CreateRazorpayOrder req => snd (PaymentController.createRazorpayOrder env req w)
  | VerifyPayment req => snd (PaymentController.verifyPayment hmac_sha256_hex env req w)
  | GatewayRefund req => snd (PaymentController.processRefund env req w)
  | RazorpayWebhook req =>
      snd (WebhookController.handleRazorpayWebhook hmac_sha256_hex JSON_stringify env req w)
  | UpdateOrderStatus req => snd (OrderController.updateOrderStatus env req w)
  | CancelOrder req => snd (OrderController.cancelOrder env req w)
  | AdminRefund req => snd (OrderController.processRefund env req w)
  | MarkCodOrderAsPaid id => snd (OrderController.markCodOrderAsPaid env id w)
  end.

(** Whether the request is answered with an error. *)
Definition rejected (env : Env) (op : Operation) (w : World) : bool :=
  match op with
  | CreateRazorpayOrder req => is_rejected (fst (PaymentController.createRazorpayOrder env req w))
  | VerifyPayment req =>
      is_rejected (fst (PaymentController.verifyPayment hmac_sha256_hex env req w))
  | GatewayRefund req => is_rejected (fst (PaymentController.processRefund env req w))
  | RazorpayWebhook req =>
      is_rejected (fst (WebhookController.handleRazorpayWebhook
                          hmac_sha256_hex JSON_stringify env req w))
  | UpdateOrderStatus req => is_rejected (fst (OrderController.updateOrderStatus env req w))
  | CancelOrder req => is_rejected (fst (OrderController.cancelOrder env req w))
  | AdminRefund req => is_rejected (fst (OrderController.processRefund env req w))
  | MarkCodOrderAsPaid id => is_rejected (fst (OrderController.markCodOrderAsPaid env id w))
  end.

(** Requests served one after the other, each with its own environment. *)
Fixpoint run_all (reqs : list (Env * Operation)) (w : World) : World :=
  match reqs with
  | [] => w
  | (env, op) :: rest => run_all rest (run env op w)
  end.

End WithCrypto.

End Api.

(** ** Invariants of the store *)

(** The [_id]s of the stored orders, in order. *)
Definition order_ids (w : World) : list string := map Order._id (orders w).

(** What stays of an order when it is rewritten: its identity, owner,
    number and total, the fact of being paid, and the fact of having left
    the [pending] status. *)
Definition keeps_identity (a b : Order.t) : Prop :=
  Order._id b = Order._id a
  /\ Order.user b = Order.user a
  /\ Order.orderNumber b = Order.orderNumber a
  /\ Order.totalPrice b = Order.totalPrice a
  /\ (Order.isPaid a = true -> Order.isPaid b = true)
  /\ (Order.status a <> pending -> Order.status b <> pending).

(** [paidAt] is set only on a paid order. *)
Definition paidAt_consistent (o : Order.t) : Prop :=
  Order.isPaid o = false -> Order.paidAt o = None.

(** One request's effect on the store: nothing, or one document rewritten
    (identity kept) and notifications appended. *)
Definition rewrites_one (w w' : World) : Prop :=
  w' = w
  \/ exists order o' l,
       In order (orders w)
       /\ keeps_identity order o'
       /\ (paidAt_consistent order -> paidAt_consistent o')
       /\ orders w' = orders (save o' w)
       /\ admins w' = admins w
       /\ notifications w' = (notifications w ++ l)%list.

(** What a run of requests may do to the store: every document keeps its
    place and its identity, the administrators are the same, and the
    notification log has only grown. *)
Definition stable (w w' : World) : Prop :=
  Forall2 keeps_identity (orders w) (orders w')
  /\ admins w' = admins w
  /\ exists l, notifications w' = (notifications w ++ l)%list.

(** * Properties *)

(** ** The document store *)

Section Store.

Lemma find_has_id_In (i : string) (l : list Order.t) (o : Order.t) :
  find (has_id i) l = Some o -> In o l /\ Order._id o = i.
Proof.
  intros H. apply find_some in H. destruct H as [Hin Hid].
  split; [exact Hin | now apply String.eqb_eq].
Qed.

Lemma In_find_has_id (l : list Order.t) (o : Order.t) :
  In o l -> exists d, find (has_id (Order._id o)) l = Some d.
Proof.
  induction l as [|d l IH]; simpl; [tauto|].
  intros [->|Hin].
  - unfold has_id at 1. rewrite String.eqb_refl. eauto.
  - destruct (has_id (Order._id o) d); eauto.
Qed.

(** Reading back a saved document. *)
Lemma find_has_id_map_save (i : string) (l : list Order.t) (d o : Order.t) :
  find (has_id i) l = Some d ->
  Order._id o = i ->
  find (has_id i) (map (fun d => if has_id (Order._id o) d then o else d) l) = Some o.
Proof.
  intros Hfind Hid. subst i.
  induction l as [|x l IH]; simpl in *; [discriminate|].
  destruct (has_id (Order._id o) x) eqn:Hx.
  - unfold has_id at 1. now rewrite String.eqb_refl.
  - rewrite Hx. auto.
Qed.

Lemma findById_save (i : string) (w : World) (d o : Order.t) :
  findById i w = Some d ->
  Order._id o = i ->
  findById i (save o w) = Some o.
Proof. unfold findById, save; simpl. apply find_has_id_map_save. Qed.

Lemma findById_id (i : string) (w : World) (o : Order.t) :
  findById i w = Some o -> Order._id o = i.
Proof. intros H. now apply find_has_id_In in H. Qed.

Lemma findOne_razorpayOrderId_In (rid : string) (w : World) (o : Order.t) :
  findOne_razorpayOrderId rid w = Some o ->
  In o (orders w) /\ Order.razorpayOrderId o = Some rid.
Proof.
  unfold findOne_razorpayOrderId. intros H. apply find_some in H.
  destruct H as [Hin Hr]. split; [exact Hin|].
  unfold has_razorpayOrderId in Hr.
  destruct (Order.razorpayOrderId o) as [r|]; [|discriminate].
  apply String.eqb_eq in Hr. now subst.
Qed.

(** A document found by any query can be read back by its [_id] after a save. *)
Lemma findById_save_In (w : World) (d o : Order.t) :
  In d (orders w) ->
  Order._id o = Order._id d ->
  findById (Order._id d) (save o w) = Some o.
Proof.
  intros Hin Hid. destruct (In_find_has_id _ _ Hin) as [x Hx].
  eapply findById_save; eauto.
Qed.

End Store.

(** ** Webhook: signature verification *)

Section WebhookSignature.

Import WebhookController.

Variable hmac_sha256_hex : string -> string -> string.
Variable JSON_stringify : Event -> string.

(** C2 (amended).  A webhook request whose signature header is not the
    HMAC-SHA256, under the configured webhook secret, of [JSON.stringify] of
    the parsed body [req.body] (the handler never sees the bytes that were
    sent) is answered with an error (400, or 500 when no secret is
    configured) before the event is dispatched, whatever the event in the
    body, and the store and the notification log are returned untouched. *)
Theorem webhook_rejects_signature_mismatch (env : Env) (req : Request) (w : World) :
  (forall secret,
      RAZORPAY_WEBHOOK_SECRET env = Some secret ->
      x_razorpay_signature req
      <> Some (hmac_sha256_hex secret (JSON_stringify (body req)))) ->
  exists code msg,
    handleRazorpayWebhook hmac_sha256_hex JSON_stringify env req w = (ApiError code msg, w)
    /\ 400 <= code.
Proof.
  intros Hmismatch. unfold handleRazorpayWebhook.
  destruct (RAZORPAY_WEBHOOK_SECRET env) as [secret|] eqn:Hsecret.
  2:{ do 2 eexists. split; [reflexivity | lia]. }
  destruct (negb (truthy (Some secret))).
  { do 2 eexists. split; [reflexivity | lia]. }
  specialize (Hmismatch secret eq_refl).
  destruct (x_razorpay_signature req) as [sig|].
  2:{ do 2 eexists. split; [reflexivity | lia]. }
  destruct (negb (truthy (Some sig))).
  { do 2 eexists. split; [reflexivity | lia]. }
  destruct (sig =? _)%string eqn:Heq.
  - apply String.eqb_eq in Heq. subst sig. now elim Hmismatch.
  - do 2 eexists. split; [reflexivity | lia].
Qed.

(** The check does not reject everything: a request signed under the
    configured secret reaches the event dispatch. *)
Lemma webhook_accepts_matching_signature (env : Env) (req : Request) (w : World) secret :
  RAZORPAY_WEBHOOK_SECRET env = Some secret ->
  truthy (Some secret) = true ->
  truthy (x_razorpay_signature req) = true ->
  x_razorpay_signature req = Some (hmac_sha256_hex secret (JSON_stringify (body req))) ->
  handleRazorpayWebhook hmac_sha256_hex JSON_stringify env req w
  = match dispatch env (body req) w with
    | None => (Thrown "TypeError", w)
    | Some w' => (ApiResponse 200 tt "Webhook processed successfully", w')
    end.
Proof.
  intros Hsecret Hs Htruthy Hsig. unfold handleRazorpayWebhook.
  rewrite Hsecret, Hs.
  destruct (x_razorpay_signature req) as [sig|]; [|discriminate].
  rewrite Htruthy. injection Hsig as ->. now rewrite String.eqb_refl.
Qed.

End WebhookSignature.

(** What [entity] returns is the entity of an object that is there. *)
Lemma entity_Some {A : Type} (x : option (option A)) (e : A) :
  WebhookController.entity x = Some e -> x = Some (Some e).
Proof. destruct x as [[a|]|]; cbn; congruence. Qed.

(** The route hands the handler the parsed body only: two requests with
    the same signature header whose bodies parse to the same object are
    answered alike. *)
Lemma razorpay_webhook_route_reads_parsed_body
      (hmac_sha256_hex : string -> string -> string)
      (JSON_stringify : WebhookController.Event -> string)
      (request_body : string -> option WebhookController.Event)
      (env : Env) (r r' : WebhookController.RawRequest) (w : World) :
  WebhookController.raw_signature r' = WebhookController.raw_signature r ->
  request_body (WebhookController.raw_body r')
  = request_body (WebhookController.raw_body r) ->
  WebhookController.razorpay_webhook_route hmac_sha256_hex JSON_stringify request_body
    env r' w
  = WebhookController.razorpay_webhook_route hmac_sha256_hex JSON_stringify request_body
      env r w.
Proof.
  intros Hsig Hbody. unfold WebhookController.razorpay_webhook_route.
  now rewrite Hsig, Hbody.
Qed.

(** Witness of C2: a capture event for an unpaid order whose signature was
    computed under another secret; the order stays unpaid. *)
Lemma webhook_rejects_signature_mismatch_witness :
  exists code msg,
    WebhookController.handleRazorpayWebhook Scenario.digest Scenario.stringify
      (Scenario.env_at 2000) (Scenario.signed "guess" Scenario.captured_event)
      (Scenario.shop (Scenario.unpaid_order razorpay pending))
    = (ApiError code msg, Scenario.shop (Scenario.unpaid_order razorpay pending))
    /\ 400 <= code.
Proof.
  apply (webhook_rejects_signature_mismatch Scenario.digest Scenario.stringify).
  intros secret Hsecret. injection Hsecret as <-. discriminate.
Defined.

(** Counterexample to C2 as stated: the body that was signed, with one
    byte (a line feed) added at its end.  The signature header is not the
    digest of the bytes received, yet the body parses to the same event, the
    handler re-serialises that and finds the header to match: the request is
    answered with 200 and the unpaid order is paid. *)
Lemma webhook_accepts_altered_body :
  let signed_body := Scenario.stringify Scenario.captured_event in
  let received := (signed_body ++ String "010" EmptyString)%string in
  let header := Scenario.digest "whsec" signed_body in
  let w := Scenario.shop (Scenario.unpaid_order razorpay pending) in
  let answer :=
    WebhookController.razorpay_webhook_route Scenario.digest Scenario.stringify
      Scenario.request_body (Scenario.env_at 2000)
      (WebhookController.mkRawRequest (Some header) received) w in
  received <> signed_body
  /\ header <> Scenario.digest "whsec" received
  /\ fst answer = ApiResponse 200 tt "Webhook processed successfully"
  /\ option_map Order.isPaid (findById "o1" w) = Some false
  /\ option_map Order.isPaid (findById "o1" (snd answer)) = Some true.
Proof.
  cbv zeta. split; [discriminate|]. split; [discriminate|].
  split; [vm_compute; reflexivity|]. split; vm_compute; reflexivity.
Qed.

(** A body whose parsed content was changed after signing is rejected. *)
Example webhook_rejects_tampered_body :
  WebhookController.handleRazorpayWebhook Scenario.digest Scenario.stringify
    (Scenario.env_at 2000)
    (WebhookController.mkRequest
       (Some (Scenario.digest "whsec" (Scenario.stringify Scenario.failed_event)))
       (WebhookController.mkEvent "payment.failee" (Some (Some Scenario.failed_payment)) None None))
    (Scenario.shop (Scenario.unpaid_order razorpay pending))
  = (ApiError 400 "Invalid webhook signature",
     Scenario.shop (Scenario.unpaid_order razorpay pending)).
Proof. reflexivity. Qed.

(** ** Webhook: [payment.captured] on a paid order, [payment.failed] *)

Section WebhookEvents.

Import WebhookController.

Variable hmac_sha256_hex : string -> string -> string.
Variable JSON_stringify : Event -> string.

(** C5.  When the order a [payment.captured] event resolves to is already
    paid, handling the event leaves the whole store (hence every field of
    the order: isPaid, paidAt, paymentResult, status, refundStatus) and the
    notification log as they were; the webhook endpoint, given such an
    event under a valid signature, acknowledges it with 200 and the same
    unchanged state. *)
Theorem payment_captured_on_paid_order_is_noop
    (env : Env) (payment : Gateway.Payment) (w : World) (order : Order.t) :
  findOne_razorpayOrderId (Gateway.order_id_of payment) w = Some order ->
  Order.isPaid order = true ->
  handlePaymentCaptured env payment w = w
  /\ forall req secret,
       RAZORPAY_WEBHOOK_SECRET env = Some secret ->
       truthy (Some secret) = true ->
       truthy (x_razorpay_signature req) = true ->
       x_razorpay_signature req
       = Some (hmac_sha256_hex secret (JSON_stringify (body req))) ->
       event (body req) = "payment.captured" ->
       payload_payment_entity (body req) = Some payment ->
       handleRazorpayWebhook hmac_sha256_hex JSON_stringify env req w
       = (ApiResponse 200 tt "Webhook processed successfully", w).
Proof.
  intros Hfind Hpaid.
  assert (Hnoop : handlePaymentCaptured env payment w = w).
  { unfold handlePaymentCaptured. now rewrite Hfind, Hpaid. }
  split; [exact Hnoop|].
  intros req secret Hsecret Hs Hsig_truthy Hsig Hev Hent.
  rewrite (webhook_accepts_matching_signature hmac_sha256_hex JSON_stringify
             env req w secret Hsecret Hs Hsig_truthy Hsig).
  apply entity_Some in Hent.
  unfold dispatch. rewrite Hev, Hent. simpl. now rewrite Hnoop.
Qed.

(** What [handlePaymentFailed] does store.  When a [payment.failed] event
    resolves to an order that was never confirmed paid, the stored order
    afterwards has status cancelled and a paymentResult carrying the payment
    id, the payment status and the gateway order id of the event, isPaid is
    still false and paidAt still unset; the webhook endpoint, given such an
    event under a valid signature, acknowledges it with 200 and leaves
    exactly that state. *)
Lemma payment_failed_cancels_order
    (env : Env) (payment : Gateway.Payment) (w : World) (order : Order.t) :
  findOne_razorpayOrderId (Gateway.order_id_of payment) w = Some order ->
  Order.isPaid order = false ->
  Order.paidAt order = None ->
  (exists order' pr,
      findById (Order._id order) (handlePaymentFailed env payment w) = Some order'
      /\ Order.status order' = cancelled
      /\ Order.paymentResult order' = Some pr
      /\ PaymentResult.id pr = Some (Gateway.id payment)
      /\ PaymentResult.status pr = Some (Gateway.status payment)
      /\ PaymentResult.razorpay_order_id pr = Some (Gateway.order_id_of payment)
      /\ Order.isPaid order' = false
      /\ Order.paidAt order' = None)
  /\ forall req secret,
       RAZORPAY_WEBHOOK_SECRET env = Some secret ->
       truthy (Some secret) = true ->
       truthy (x_razorpay_signature req) = true ->
       x_razorpay_signature req
       = Some (hmac_sha256_hex secret (JSON_stringify (body req))) ->
       event (body req) = "payment.failed" ->
       payload_payment_entity (body req) = Some payment ->
       handleRazorpayWebhook hmac_sha256_hex JSON_stringify env req w
       = (ApiResponse 200 tt "Webhook processed successfully",
          handlePaymentFailed env payment w).
Proof.
  intros Hfind Hpaid HpaidAt. split.
  - unfold handlePaymentFailed. rewrite Hfind.
    destruct (findOne_razorpayOrderId_In _ _ _ Hfind) as [Hin _].
    eexists; eexists. split.
    + unfold pushNotification, findById; simpl.
      change (map _ (orders w)) with (orders (save
        (Order.set_paymentResult (Some (PaymentResult.mk
           (Some (Gateway.id payment)) (Some (Gateway.status payment))
           (Some (Date_now env)) (Gateway.email payment)
           (Some (Gateway.order_id_of payment)) (Some (Gateway.id payment))))
           (Order.set_status cancelled order)) w)).
      apply (findById_save_In w order); [exact Hin | reflexivity].
    + simpl. repeat split; assumption.
  - intros req secret Hsecret Hs Hsig_truthy Hsig Hev Hent.
    rewrite (webhook_accepts_matching_signature hmac_sha256_hex JSON_stringify
               env req w secret Hsecret Hs Hsig_truthy Hsig).
    apply entity_Some in Hent.
    unfold dispatch. rewrite Hev, Hent. reflexivity.
Qed.

(** The failure reason leaves no trace: the state after a [payment.failed]
    event is the same whatever error code and description the payment
    entity carries. *)
Lemma handlePaymentFailed_ignores_failure_reason
      (env : Env) (payment : Gateway.Payment) (code description : option string)
      (w : World) :
  handlePaymentFailed env
    (Gateway.mkPayment (Gateway.id payment) (Gateway.status payment)
       (Gateway.order_id_of payment) (Gateway.amount payment) (Gateway.email payment)
       code description) w
  = handlePaymentFailed env payment w.
Proof. reflexivity. Qed.

End WebhookEvents.

(** Witness of C5: a captured event, validly signed, for an order that the
    client confirmation already marked paid. *)
Lemma payment_captured_on_paid_order_is_noop_witness :
  WebhookController.handlePaymentCaptured (Scenario.env_at 2000) Scenario.captured_payment
    (Scenario.shop (Scenario.paid_order razorpay Scenario.gateway_result processing None))
  = Scenario.shop (Scenario.paid_order razorpay Scenario.gateway_result processing None)
  /\ WebhookController.handleRazorpayWebhook Scenario.digest Scenario.stringify
       (Scenario.env_at 2000) (Scenario.signed "whsec" Scenario.captured_event)
       (Scenario.shop (Scenario.paid_order razorpay Scenario.gateway_result processing None))
     = (ApiResponse 200 tt "Webhook processed successfully",
        Scenario.shop (Scenario.paid_order razorpay Scenario.gateway_result processing None)).
Proof.
  destruct (payment_captured_on_paid_order_is_noop Scenario.digest Scenario.stringify
              (Scenario.env_at 2000) Scenario.captured_payment
              (Scenario.shop (Scenario.paid_order razorpay Scenario.gateway_result processing None))
              _ eq_refl eq_refl) as [Hhandler Hendpoint].
  split; [exact Hhandler|].
  apply (Hendpoint (Scenario.signed "whsec" Scenario.captured_event) "whsec"); reflexivity.
Defined.

(** C8.  A [payment.failed] event, validly signed, with error code
    [BAD_REQUEST_ERROR] and description [Payment failed], for an order the
    client never confirmed: the endpoint answers 200 and the order is stored
    as cancelled, still unpaid and without paidAt, but its paymentResult
    holds the payment id, the status, the time, the email and the gateway
    order id only.  The schema has no place for the error code and the
    description that the handler assigns, so the failure reason is not
    recorded: an event with any other reason, or none, leaves the very same
    state. *)
Theorem payment_failed_drops_failure_reason :
  let w := Scenario.shop (Scenario.unpaid_order razorpay pending) in
  let env := Scenario.env_at 2000 in
  let w' := WebhookController.handlePaymentFailed env Scenario.failed_payment w in
  Gateway.payment_error_code Scenario.failed_payment = Some "BAD_REQUEST_ERROR"
  /\ Gateway.payment_error_description Scenario.failed_payment = Some "Payment failed"
  /\ WebhookController.handleRazorpayWebhook Scenario.digest Scenario.stringify env
       (Scenario.signed "whsec" Scenario.failed_event) w
     = (ApiResponse 200 tt "Webhook processed successfully", w')
  /\ findById "o1" w'
     = Some (Order.mk "o1" "u1" "YT-20240101-0001" razorpay
               (Some (PaymentResult.mk (Some "pay_2") (Some "failed") (Some 2000)
                                       (Some "asha@example.com") (Some "order_A")
                                       (Some "pay_2")))
               Scenario.total_709_97 false None None cancelled (Some "order_A")
               None None)
  /\ forall code description,
       WebhookController.handlePaymentFailed env
         (Gateway.mkPayment "pay_2" "failed" "order_A" 70997%float
                            (Some "asha@example.com") code description) w
       = w'.
Proof.
  cbv zeta. split; [reflexivity|]. split; [reflexivity|].
  split; [vm_compute; reflexivity|]. split; [vm_compute; reflexivity|].
  intros code description. reflexivity.
Qed.

(** ** Cash on delivery *)

Section CashOnDelivery.

Import OrderController.

(** C10.  [markCodOrderAsPaid] takes effect at most once per order.  For a
    stored order: if its payment method is not cod, or it is already paid,
    the call is rejected (400) and nothing changes; if it is an unpaid cod
    order the call succeeds, the stored order becomes paid with paidAt the
    current time and a paymentResult whose id is the literal COD, and any
    later call for the same order is rejected with nothing changed. *)
Theorem markCodOrderAsPaid_at_most_once
    (env env' : Env) (id : string) (w : World) (order : Order.t) :
  findById id w = Some order ->
  ((Order.paymentMethod order <> cod \/ Order.isPaid order = true) ->
   exists msg, markCodOrderAsPaid env id w = (ApiError 400 msg, w))
  /\ (Order.paymentMethod order = cod -> Order.isPaid order = false ->
      exists order' pr msg w',
        markCodOrderAsPaid env id w = (ApiResponse 200 order' msg, w')
        /\ findById id w' = Some order'
        /\ Order.isPaid order' = true
        /\ Order.paidAt order' = Some (Date_now env)
        /\ Order.paymentResult order' = Some pr
        /\ PaymentResult.id pr = Some "COD"
        /\ Order.paymentMethod order' = cod
        /\ exists msg', markCodOrderAsPaid env' id w' = (ApiError 400 msg', w')).
Proof.
  intros Hfind. split.
  - intros Hbad. unfold markCodOrderAsPaid. rewrite Hfind.
    destruct (PaymentMethod_eqb (Order.paymentMethod order) cod) eqn:Hcod; simpl.
    + destruct Hbad as [Hnot|Hpaid].
      * destruct (Order.paymentMethod order); try discriminate. now elim Hnot.
      * rewrite Hpaid. eauto.
    + eauto.
  - intros Hcod Hunpaid.
    pose proof (findById_id _ _ _ Hfind) as Hid.
    set (pr := PaymentResult.mk (Some "COD") (Some "paid") (Some (Date_now env)) (Some "")
                                None None).
    set (o' := Order.set_paymentResult (Some pr)
                 (Order.set_paidAt (Some (Date_now env)) (Order.set_isPaid true order))).
    set (w' := sendUserNotification (Order.user o') "payment_successful" (Order._id o')
                 (save o' w)).
    assert (Hrun : markCodOrderAsPaid env id w
                   = (ApiResponse 200 o' "COD order marked as paid", w')).
    { unfold markCodOrderAsPaid. rewrite Hfind, Hcod, Hunpaid. reflexivity. }
    assert (Hback : findById id w' = Some o').
    { unfold w', sendUserNotification, findById. simpl.
      apply (find_has_id_map_save id (orders w) order o' Hfind Hid). }
    exists o', pr, "COD order marked as paid", w'.
    split; [exact Hrun|]. split; [exact Hback|].
    repeat (split; [reflexivity || exact Hcod|]).
    unfold markCodOrderAsPaid. rewrite Hback.
    change (Order.paymentMethod o') with (Order.paymentMethod order). rewrite Hcod.
    change (Order.isPaid o') with true. simpl. eauto.
Qed.

End CashOnDelivery.

(** Witness of C10: an unpaid cash-on-delivery order that was shipped. *)
Lemma markCodOrderAsPaid_at_most_once_witness :
  exists order' pr msg w',
    OrderController.markCodOrderAsPaid (Scenario.env_at 2000) "o1"
      (Scenario.shop (Scenario.unpaid_order cod shipped))
    = (ApiResponse 200 order' msg, w')
    /\ findById "o1" w' = Some order'
    /\ Order.isPaid order' = true
    /\ Order.paidAt order' = Some 2000
    /\ Order.paymentResult order' = Some pr
    /\ PaymentResult.id pr = Some "COD"
    /\ Order.paymentMethod order' = cod
    /\ exists msg', OrderController.markCodOrderAsPaid (Scenario.env_at 3000) "o1" w'
                    = (ApiError 400 msg', w').
Proof.
  exact (proj2 (markCodOrderAsPaid_at_most_once (Scenario.env_at 2000) (Scenario.env_at 3000)
                  "o1" (Scenario.shop (Scenario.unpaid_order cod shipped))
                  (Scenario.unpaid_order cod shipped) eq_refl)
               eq_refl eq_refl).
Defined.

(** ** Client confirmation: [verifyPayment] *)

Section PaymentVerification.

Import PaymentController.

Variable hmac_sha256_hex : string -> string -> string.

Lemma signature_check_never_accepts (env : Env) (req : VerifyReq) (pid : string) r :
  signature_check hmac_sha256_hex env req pid = Some r -> is_rejected r = true.
Proof.
  unfold signature_check. intros H.
  destruct (razorpay_order_id req) as [rid|]; [|discriminate].
  destruct (razorpay_signature req) as [sig|]; [|discriminate].
  destruct (truthy (Some rid) && truthy (Some sig)); [|discriminate].
  destruct (RAZORPAY_KEY_SECRET env) as [secret|].
  - destruct (negb _); [|discriminate]. now injection H as <-.
  - now injection H as <-.
Qed.

(** The success path, run forwards: once the order is resolved, owned by
    the caller, the signature (if any) checks and the gateway reports the
    payment as captured, the call answers 200 with the rewritten order. *)
Lemma verifyPayment_captured
    (env : Env) (req : VerifyReq) (w : World) pid oid order payment :
  razorpay_payment_id req = Some pid ->
  truthy (Some pid) = true ->
  actualOrderId req w = Some oid ->
  findById oid w = Some order ->
  Order.user order = ReqUser.id (user req) ->
  signature_check hmac_sha256_hex env req pid = None ->
  Gateway.payments_fetch (razorpay_client env) pid = Some payment ->
  Gateway.status payment = "captured" ->
  verifyPayment hmac_sha256_hex env req w
  = (ApiResponse 200 (paid_order env req pid payment order)
       "Payment verified and order updated successfully",
     sendUserNotification (Order.user order) "payment_successful" (Order._id order)
       (save (paid_order env req pid payment order) w)).
Proof.
  intros Hpid Htruthy Hres Hfind Huser Hsig Hfetch Hstatus.
  apply String.eqb_eq in Huser.
  unfold verifyPayment.
  rewrite Hpid, Htruthy, Hres, Hfind, Huser, Hsig, Hfetch, Hstatus.
  reflexivity.
Qed.

(** The gateway's word is required: a fetched status other than captured,
    or a failed fetch, rejects the call and changes nothing. *)
Lemma verifyPayment_not_captured (env : Env) (req : VerifyReq) (w : World) pid :
  razorpay_payment_id req = Some pid ->
  match Gateway.payments_fetch (razorpay_client env) pid with
  | Some payment => Gateway.status payment <> "captured"
  | None => True
  end ->
  is_rejected (fst (verifyPayment hmac_sha256_hex env req w)) = true
  /\ snd (verifyPayment hmac_sha256_hex env req w) = w.
Proof.
  intros Hpid Hnot. unfold verifyPayment. rewrite Hpid.
  destruct (negb (truthy (Some pid))); [now split|].
  destruct (actualOrderId req w) as [oid|]; [|now split].
  destruct (findById oid w) as [order|]; [|now split].
  destruct (negb _); [now split|].
  destruct (signature_check hmac_sha256_hex env req pid) as [r|] eqn:Hsig.
  { split; [|reflexivity]. simpl. eapply signature_check_never_accepts; eauto. }
  destruct (Gateway.payments_fetch (razorpay_client env) pid) as [payment|]; [|now split].
  destruct (Gateway.status payment =? "captured")%string eqn:Heq; [|now split].
  apply String.eqb_eq in Heq. now elim Hnot.
Qed.

(** Nothing on this path reads the paid state: for an order that is
    already paid, with the very payment id on record, the success path is
    taken all the same, paidAt becomes the current time and one more
    notification is appended. *)
Lemma verifyPayment_reapplies_on_paid_order
    (env : Env) (req : VerifyReq) (w : World) pid oid order payment :
  razorpay_payment_id req = Some pid ->
  truthy (Some pid) = true ->
  actualOrderId req w = Some oid ->
  findById oid w = Some order ->
  Order.user order = ReqUser.id (user req) ->
  signature_check hmac_sha256_hex env req pid = None ->
  Gateway.payments_fetch (razorpay_client env) pid = Some payment ->
  Gateway.status payment = "captured" ->
  Order.isPaid order = true ->
  order_razorpay_payment_id order = Some pid ->
  exists order' msg w',
    verifyPayment hmac_sha256_hex env req w = (ApiResponse 200 order' msg, w')
    /\ Order.paidAt order' = Some (Date_now env)
    /\ notifications w'
       = (notifications w
          ++ [Notification.mk (Order.user order) "payment_successful" (Order._id order)])%list.
Proof.
  intros Hpid Htruthy Hres Hfind Huser Hsig Hfetch Hstatus _ _.
  do 3 eexists. split.
  - apply (verifyPayment_captured env req w pid oid order payment); assumption.
  - split; reflexivity.
Qed.

(** C3 (amended).  Whenever [verifyPayment] answers with success, the
    payment fetched from the gateway under the request's payment id has
    status captured; the order it resolved is stored with isPaid = true,
    paidAt = the current time, a paymentResult holding the gateway payment
    id, the gateway order id and the status captured, and status =
    processing, whatever the status was before; and exactly one
    payment_successful notification for the order's user is appended. *)
Theorem verifyPayment_success_effects
    (env : Env) (req : VerifyReq) (w : World) code order' msg w' :
  verifyPayment hmac_sha256_hex env req w = (ApiResponse code order' msg, w') ->
  exists pid payment order pr,
    razorpay_payment_id req = Some pid
    /\ Gateway.payments_fetch (razorpay_client env) pid = Some payment
    /\ Gateway.status payment = "captured"
    /\ In order (orders w)
    /\ Order._id order' = Order._id order
    /\ Order.isPaid order' = true
    /\ Order.paidAt order' = Some (Date_now env)
    /\ Order.paymentResult order' = Some pr
    /\ PaymentResult.id pr = Some pid
    /\ PaymentResult.razorpay_payment_id pr = Some pid
    /\ PaymentResult.razorpay_order_id pr
       = or_else (razorpay_order_id req) (Some (Gateway.order_id_of payment))
    /\ PaymentResult.status pr = Some "captured"
    /\ Order.status order' = processing
    /\ findById (Order._id order) w' = Some order'
    /\ notifications w'
       = (notifications w
          ++ [Notification.mk (Order.user order) "payment_successful" (Order._id order)])%list.
Proof.
  unfold verifyPayment. intros Hrun.
  destruct (razorpay_payment_id req) as [pid|]; [|discriminate].
  destruct (negb (truthy (Some pid))); [discriminate|].
  destruct (actualOrderId req w) as [oid|]; [|discriminate].
  destruct (findById oid w) as [order|] eqn:Hfind; [|discriminate].
  destruct (negb _); [discriminate|].
  destruct (signature_check hmac_sha256_hex env req pid) as [r|] eqn:Hsig.
  { apply signature_check_never_accepts in Hsig.
    injection Hrun as -> _. discriminate. }
  destruct (Gateway.payments_fetch (razorpay_client env) pid) as [payment|] eqn:Hfetch;
    [|discriminate].
  destruct (Gateway.status payment =? "captured")%string eqn:Hcap; [|discriminate].
  apply String.eqb_eq in Hcap. simpl in Hrun.
  injection Hrun as _ <- _ <-.
  pose proof (find_has_id_In _ _ _ Hfind) as [Hin Hid].
  exists pid, payment, order. eexists.
  repeat (split; [reflexivity || eassumption|]).
  split.
  - unfold sendUserNotification, findById, save. cbn [orders].
    apply (find_has_id_map_save (Order._id order) (orders w) order
             (paid_order env req pid payment order)).
    + rewrite Hid. exact Hfind.
    + reflexivity.
  - reflexivity.
Qed.

End PaymentVerification.

(** Witness of C3: the client confirms payment [pay_1] for a pending order. *)
Lemma verifyPayment_success_effects_witness :
  exists pid payment order pr,
    PaymentController.razorpay_payment_id Scenario.verify_request = Some pid
    /\ Gateway.payments_fetch Scenario.client pid = Some payment
    /\ Gateway.status payment = "captured"
    /\ In order [Scenario.unpaid_order upi pending]
    /\ Order._id (PaymentController.paid_order (Scenario.env_at 2000) Scenario.verify_request
                    "pay_1" Scenario.captured_payment (Scenario.unpaid_order upi pending))
       = Order._id order
    /\ Order.isPaid (PaymentController.paid_order (Scenario.env_at 2000)
                       Scenario.verify_request "pay_1" Scenario.captured_payment
                       (Scenario.unpaid_order upi pending)) = true
    /\ Order.paidAt (PaymentController.paid_order (Scenario.env_at 2000)
                       Scenario.verify_request "pay_1" Scenario.captured_payment
                       (Scenario.unpaid_order upi pending)) = Some 2000
    /\ Order.paymentResult (PaymentController.paid_order (Scenario.env_at 2000)
                       Scenario.verify_request "pay_1" Scenario.captured_payment
                       (Scenario.unpaid_order upi pending)) = Some pr
    /\ PaymentResult.id pr = Some pid
    /\ PaymentResult.razorpay_payment_id pr = Some pid
    /\ PaymentResult.razorpay_order_id pr = or_else (Some "order_A") (Some "order_A")
    /\ PaymentResult.status pr = Some "captured"
    /\ Order.status (PaymentController.paid_order (Scenario.env_at 2000)
                       Scenario.verify_request "pay_1" Scenario.captured_payment
                       (Scenario.unpaid_order upi pending)) = processing
    /\ findById (Order._id order)
         (sendUserNotification "u1" "payment_successful" "o1"
            (save (PaymentController.paid_order (Scenario.env_at 2000)
                     Scenario.verify_request "pay_1" Scenario.captured_payment
                     (Scenario.unpaid_order upi pending))
                  (Scenario.shop (Scenario.unpaid_order upi pending))))
       = Some (PaymentController.paid_order (Scenario.env_at 2000)
                 Scenario.verify_request "pay_1" Scenario.captured_payment
                 (Scenario.unpaid_order upi pending))
    /\ notifications
         (sendUserNotification "u1" "payment_successful" "o1"
            (save (PaymentController.paid_order (Scenario.env_at 2000)
                     Scenario.verify_request "pay_1" Scenario.captured_payment
                     (Scenario.unpaid_order upi pending))
                  (Scenario.shop (Scenario.unpaid_order upi pending))))
       = ([] ++ [Notification.mk (Order.user order) "payment_successful" (Order._id order)])%list.
Proof.
  exact (verifyPayment_success_effects Scenario.digest (Scenario.env_at 2000)
           Scenario.verify_request (Scenario.shop (Scenario.unpaid_order upi pending))
           200 _ _ _ eq_refl).
Defined.

(** Counterexample to C3 as stated: an unpaid order that is already shipped
    (a cash-on-delivery order later paid online) does not keep its status;
    a successful confirmation moves it back to processing. *)
Lemma verifyPayment_resets_shipped_order :
  Order.isPaid (Scenario.unpaid_order cod shipped) = false
  /\ Order.status (Scenario.unpaid_order cod shipped) = shipped
  /\ PaymentController.verifyPayment Scenario.digest (Scenario.env_at 2000)
       Scenario.verify_request (Scenario.shop (Scenario.unpaid_order cod shipped))
     = (ApiResponse 200 (Scenario.confirmed 2000 (Scenario.unpaid_order cod shipped))
          "Payment verified and order updated successfully",
        mkWorld [Scenario.confirmed 2000 (Scenario.unpaid_order cod shipped)] ["a1"]
                [Scenario.payment_note])
  /\ Order.status (Scenario.confirmed 2000 (Scenario.unpaid_order cod shipped)) = processing
  /\ Order.status (Scenario.confirmed 2000 (Scenario.unpaid_order cod shipped))
     <> Order.status (Scenario.unpaid_order cod shipped).
Proof.
  repeat (split; [vm_compute; reflexivity|]). discriminate.
Qed.

(** C1 (the code departs from the claim).  Confirming payment [pay_1] for
    an order at time 1000 and confirming it again, with the same request, at
    time 2000: the second call is not a no-op.  It succeeds again, rewrites
    paidAt from 1000 to 2000 and appends a second payment_successful
    notification. *)
Theorem verifyPayment_twice_reapplies :
  PaymentController.verifyPayment Scenario.digest (Scenario.env_at 1000)
    Scenario.verify_request (Scenario.shop (Scenario.unpaid_order upi pending))
  = (ApiResponse 200 (Scenario.confirmed 1000 (Scenario.unpaid_order upi pending))
       "Payment verified and order updated successfully",
     mkWorld [Scenario.confirmed 1000 (Scenario.unpaid_order upi pending)] ["a1"]
             [Scenario.payment_note])
  /\ PaymentController.verifyPayment Scenario.digest (Scenario.env_at 2000)
       Scenario.verify_request
       (mkWorld [Scenario.confirmed 1000 (Scenario.unpaid_order upi pending)] ["a1"]
                [Scenario.payment_note])
     = (ApiResponse 200
          (Scenario.confirmed 2000 (Scenario.confirmed 1000 (Scenario.unpaid_order upi pending)))
          "Payment verified and order updated successfully",
        mkWorld
          [Scenario.confirmed 2000 (Scenario.confirmed 1000 (Scenario.unpaid_order upi pending))]
          ["a1"] [Scenario.payment_note; Scenario.payment_note])
  /\ Order.isPaid (Scenario.confirmed 1000 (Scenario.unpaid_order upi pending)) = true
  /\ PaymentController.order_razorpay_payment_id
       (Scenario.confirmed 1000 (Scenario.unpaid_order upi pending)) = Some "pay_1"
  /\ Order.paidAt (Scenario.confirmed 1000 (Scenario.unpaid_order upi pending)) = Some 1000
  /\ Order.paidAt
       (Scenario.confirmed 2000 (Scenario.confirmed 1000 (Scenario.unpaid_order upi pending)))
     = Some 2000.
Proof.
  repeat (split; [vm_compute; reflexivity|]). vm_compute; reflexivity.
Qed.

(** ** Payment intents: [createRazorpayOrder] *)

Section PaymentIntent.

Import PaymentController.

(** C4 (amended).  For an unpaid, non-cancelled order of the caller,
    whether or not a gateway order id is already bound to it,
    [createRazorpayOrder] asks the gateway for a new order and, when the
    gateway returns one, answers 200 and stores its id as the order's
    razorpayOrderId, replacing whatever was bound before; nothing else in
    the order changes and no notification is sent.  The call is refused
    exactly when the request names no order, the order is unknown, belongs
    to another user, is paid or is cancelled, or the gateway call fails; a
    refused call binds nothing. *)
Theorem createRazorpayOrder_binds_latest (env : Env) (req : CreateOrderReq) (w : World) :
  (forall oid order razorpayOrder,
      co_orderId req = Some oid ->
      truthy (Some oid) = true ->
      findById oid w = Some order ->
      Order.user order = ReqUser.id (co_user req) ->
      Order.isPaid order = false ->
      Order.status order <> cancelled ->
      Gateway.orders_create (razorpay_client env)
        (Gateway.mkOrderRequest
           (RazorpayConfig.formatAmountForRazorpay (Order.totalPrice order))
           RazorpayConfig.currency (Order.orderNumber order)) = Some razorpayOrder ->
      exists w',
        createRazorpayOrder env req w
        = (ApiResponse 200 razorpayOrder "Razorpay order created successfully", w')
        /\ w' = save (Order.set_razorpayOrderId (Some (Gateway.order_id razorpayOrder))
                                               order) w
        /\ findById oid w'
           = Some (Order.set_razorpayOrderId (Some (Gateway.order_id razorpayOrder)) order)
        /\ notifications w' = notifications w)
  /\ (is_rejected (fst (createRazorpayOrder env req w)) = true
      <-> truthy (co_orderId req) = false
          \/ exists oid,
               co_orderId req = Some oid
               /\ (findById oid w = None
                   \/ exists order,
                        findById oid w = Some order
                        /\ (Order.user order <> ReqUser.id (co_user req)
                            \/ Order.isPaid order = true
                            \/ Order.status order = cancelled
                            \/ Gateway.orders_create (razorpay_client env)
                                 (Gateway.mkOrderRequest
                                    (RazorpayConfig.formatAmountForRazorpay
                                       (Order.totalPrice order))
                                    RazorpayConfig.currency (Order.orderNumber order))
                               = None)))
  /\ (is_rejected (fst (createRazorpayOrder env req w)) = true ->
      snd (createRazorpayOrder env req w) = w).
Proof.
  split; [|split].
  - intros oid order razorpayOrder Hoid Htruthy Hfind Huser Hunpaid Hstatus Hcreate.
    apply String.eqb_eq in Huser.
    assert (Hnc : OrderStatus_eqb (Order.status order) cancelled = false).
    { destruct (Order.status order); try reflexivity. now elim Hstatus. }
    unfold createRazorpayOrder.
    rewrite Hoid, Htruthy, Hfind, Huser, Hunpaid, Hnc, Hcreate. simpl negb. cbv iota.
    eexists. split; [reflexivity|]. split; [reflexivity|]. split; [|reflexivity].
    eapply findById_save; [exact Hfind|].
    exact (findById_id _ _ _ Hfind).
  - unfold createRazorpayOrder.
    destruct (co_orderId req) as [oid|] eqn:Hoid; [|cbn; tauto].
    destruct (truthy (Some oid)) eqn:Htruthy; cbn [negb]; [|cbn; tauto].
    destruct (findById oid w) as [order|] eqn:Hfind.
    2:{ split; [intros _|reflexivity]. right. exists oid. auto. }
    destruct (String.eqb_spec (Order.user order) (ReqUser.id (co_user req)))
      as [Huser|Huser]; cbn [negb].
    2:{ split; [intros _|reflexivity]. right. exists oid. split; [reflexivity|].
        right. exists order. auto. }
    destruct (Order.isPaid order) eqn:Hpaid.
    { split; [intros _|reflexivity]. right. exists oid. split; [reflexivity|].
      right. exists order. auto. }
    destruct (OrderStatus_eqb (Order.status order) cancelled) eqn:Hst.
    { split; [intros _|reflexivity]. right. exists oid. split; [reflexivity|].
      right. exists order. split; [exact Hfind|]. right. right. left.
      destruct (Order.status order); try discriminate. reflexivity. }
    destruct (Gateway.orders_create _ _) as [razorpayOrder|] eqn:Hcreate.
    2:{ split; [intros _|reflexivity]. right. exists oid. split; [reflexivity|].
        right. exists order. auto. }
    cbn [fst is_rejected]. split; [discriminate|].
    intros [Hno|(oid' & Hoid' & [Hnone|(order' & Hfind' & Hbad)])].
    + discriminate.
    + injection Hoid' as <-. congruence.
    + injection Hoid' as <-. rewrite Hfind in Hfind'. injection Hfind' as <-.
      destruct Hbad as [Hbad|[Hbad|[Hbad|Hbad]]]; try congruence.
      rewrite Hbad in Hst. discriminate.
  - unfold createRazorpayOrder.
    repeat match goal with
           | |- context [match ?x with _ => _ end] => destruct x
           end; cbn [fst snd is_rejected]; try reflexivity; discriminate.
Qed.

End PaymentIntent.

(** Witness of C4: a second intent for an order already bound to [order_A]. *)
Lemma createRazorpayOrder_binds_latest_witness :
  exists w',
    PaymentController.createRazorpayOrder (Scenario.env_at 2000)
      (PaymentController.mkCreateOrderReq (Some "o1") Scenario.customer)
      (Scenario.shop (Scenario.unpaid_order upi pending))
    = (ApiResponse 200
         (Gateway.mkRazorpayOrder "order_B"
            (RazorpayConfig.formatAmountForRazorpay Scenario.total_709_97) "INR")
         "Razorpay order created successfully", w')
    /\ findById "o1" w'
       = Some (Order.set_razorpayOrderId (Some "order_B") (Scenario.unpaid_order upi pending))
    /\ notifications w' = [].
Proof.
  destruct (proj1 (createRazorpayOrder_binds_latest (Scenario.env_at 2000)
                     (PaymentController.mkCreateOrderReq (Some "o1") Scenario.customer)
                     (Scenario.shop (Scenario.unpaid_order upi pending)))
                  "o1" (Scenario.unpaid_order upi pending)
                  (Gateway.mkRazorpayOrder "order_B"
                     (RazorpayConfig.formatAmountForRazorpay Scenario.total_709_97) "INR")
                  eq_refl eq_refl eq_refl eq_refl eq_refl)
    as (w' & Hrun & _ & Hfind & Hn); [discriminate | reflexivity |].
  exists w'. split; [exact Hrun|]. split; [exact Hfind|exact Hn].
Defined.

(** Counterexample to C4 as stated: the order is unpaid, not cancelled and
    bound to [order_A]; nothing says that intent expired, yet the second
    call is accepted and the order ends up bound to [order_B]. *)
Lemma createRazorpayOrder_accepts_second_intent :
  Order.razorpayOrderId (Scenario.unpaid_order upi pending) = Some "order_A"
  /\ Order.isPaid (Scenario.unpaid_order upi pending) = false
  /\ exists razorpayOrder msg w' order',
       PaymentController.createRazorpayOrder (Scenario.env_at 2000)
         (PaymentController.mkCreateOrderReq (Some "o1") Scenario.customer)
         (Scenario.shop (Scenario.unpaid_order upi pending))
       = (ApiResponse 200 razorpayOrder msg, w')
       /\ findById "o1" w' = Some order'
       /\ Order.razorpayOrderId order' = Some "order_B".
Proof.
  split; [reflexivity|]. split; [reflexivity|].
  do 4 eexists.
  split; [reflexivity|]. split; reflexivity.
Qed.

(** ** Cancellation *)

Section Cancellation.

Import OrderController.

(** The dedicated cancel operation refuses delivered and cancelled orders
    and leaves them as they are. *)
Lemma cancelOrder_rejects_delivered_and_cancelled
    (env : Env) (req : CancelReq) (w : World) (order : Order.t) :
  findById (cn_id req) w = Some order ->
  Order.status order = delivered \/ Order.status order = cancelled ->
  exists code msg, cancelOrder env req w = (ApiError code msg, w) /\ 400 <= code < 500.
Proof.
  intros Hfind Hst. unfold cancelOrder. rewrite Hfind.
  destruct (_ && _).
  - do 2 eexists. split; [reflexivity | lia].
  - destruct Hst as [-> | ->]; simpl; do 2 eexists; (split; [reflexivity | lia]).
Qed.

(** The status-transition operation has no such check: for any stored
    order it accepts the target cancelled. *)
Lemma updateOrderStatus_cancels_from_any_status
    (env : Env) (id : string) (w : World) (order : Order.t) :
  findById id w = Some order ->
  exists order' msg w',
    updateOrderStatus env (mkStatusReq id (Some "cancelled")) w = (ApiResponse 200 order' msg, w')
    /\ findById id w' = Some order'
    /\ Order.status order' = cancelled
    /\ notifications w'
       = (notifications w
          ++ [Notification.mk (Order.user order) "order_cancelled" (Order._id order)])%list.
Proof.
  intros Hfind. unfold updateOrderStatus. simpl. rewrite Hfind.
  pose proof (findById_id _ _ _ Hfind) as Hid.
  destruct (Order.isPaid order) eqn:Hpaid; simpl; rewrite ?Hpaid; simpl;
    do 3 eexists; (split; [reflexivity|]);
    (split; [unfold sendUserNotification, findById, save; cbn [orders];
             eapply find_has_id_map_save; [exact Hfind | exact Hid]|]);
    split; reflexivity.
Qed.

End Cancellation.

(** C6 (the code departs from the claim).  For a delivered, paid order the
    dedicated cancel operation answers 400 and changes nothing, but the
    status-transition operation with target cancelled answers 200: the order
    is stored as cancelled with a pending refund and the user is notified.
    An order that is already cancelled is accepted for cancellation again by
    the same operation. *)
Theorem updateOrderStatus_cancels_delivered_order :
  OrderController.cancelOrder (Scenario.env_at 2000)
    (OrderController.mkCancelReq "o1" None Scenario.customer)
    (Scenario.shop (Scenario.paid_order razorpay Scenario.gateway_result delivered None))
  = (ApiError 400 "Cannot cancel a delivered order",
     Scenario.shop (Scenario.paid_order razorpay Scenario.gateway_result delivered None))
  /\ (exists order' w',
        OrderController.updateOrderStatus (Scenario.env_at 2000)
          (OrderController.mkStatusReq "o1" (Some "cancelled"))
          (Scenario.shop (Scenario.paid_order razorpay Scenario.gateway_result delivered None))
        = (ApiResponse 200 order' "Order status updated to cancelled", w')
        /\ findById "o1" w' = Some order'
        /\ Order.status order' = cancelled
        /\ Order.refundStatus order' = Some refund_pending
        /\ notifications w' = [Notification.mk "u1" "order_cancelled" "o1"])
  /\ (exists order' w',
        OrderController.updateOrderStatus (Scenario.env_at 2000)
          (OrderController.mkStatusReq "o1" (Some "cancelled"))
          (Scenario.shop (Scenario.unpaid_order upi cancelled))
        = (ApiResponse 200 order' "Order status updated to cancelled", w')
        /\ notifications w' = [Notification.mk "u1" "order_cancelled" "o1"]).
Proof.
  split; [reflexivity|]. split.
  - do 2 eexists. split; [reflexivity|].
    repeat (split; [reflexivity|]). reflexivity.
  - do 2 eexists. split; reflexivity.
Qed.

(** ** Refunds *)

Section Refunds.

(** C7 (amended).  The gateway-backed refund is rejected, with nothing
    changed, whenever the order is not paid or its paymentResult carries no
    gateway payment id.  The admin refund is rejected, with nothing changed,
    whenever the order is not cancelled, not paid, or already has a
    completed refund.  It does not look at the gateway payment id: for a
    cancelled, paid order whose refund is not completed it succeeds, with or
    without a payment id on record, and stores the order with refundStatus
    completed, so a second admin refund of the same order is rejected. *)
Theorem processRefund_rejections (env env' : Env) (w : World) (order : Order.t) :
  (forall req oid,
      PaymentController.rf_orderId req = Some oid ->
      findById oid w = Some order ->
      Order.isPaid order = false
      \/ truthy (PaymentController.order_razorpay_payment_id order) = false ->
      exists msg, PaymentController.processRefund env req w = (ApiError 400 msg, w))
  /\ (forall req,
      findById (OrderController.rf_id req) w = Some order ->
      Order.status order <> cancelled
      \/ Order.isPaid order = false
      \/ Order.refundStatus order = Some refund_completed ->
      exists msg, OrderController.processRefund env req w = (ApiError 400 msg, w))
  /\ (forall req req',
      findById (OrderController.rf_id req) w = Some order ->
      Order.status order = cancelled ->
      Order.isPaid order = true ->
      Order.refundStatus order <> Some refund_completed ->
      OrderController.rf_id req' = OrderController.rf_id req ->
      exists order' msg w',
        OrderController.processRefund env req w = (ApiResponse 200 order' msg, w')
        /\ findById (OrderController.rf_id req) w' = Some order'
        /\ Order.refundStatus order' = Some refund_completed
        /\ exists msg', OrderController.processRefund env' req' w' = (ApiError 400 msg', w')).
Proof.
  split; [|split].
  - intros req oid Hoid Hfind Hbad.
    unfold PaymentController.processRefund. rewrite Hoid.
    destruct (negb (truthy (Some oid))); [eauto|].
    rewrite Hfind.
    destruct (Order.isPaid order); cbn [negb]; [|eauto].
    destruct Hbad as [Hbad|Hbad]; [discriminate|].
    destruct (PaymentController.order_razorpay_payment_id order) as [pid|]; [|eauto].
    rewrite Hbad. cbn [negb]. eauto.
  - intros req Hfind Hbad.
    unfold OrderController.processRefund. rewrite Hfind.
    destruct (OrderStatus_eqb (Order.status order) cancelled) eqn:Hst; simpl; [|eauto].
    destruct Hbad as [Hbad|[Hbad|Hbad]].
    + destruct (Order.status order); try discriminate. now elim Hbad.
    + rewrite Hbad. simpl. eauto.
    + destruct (Order.isPaid order); simpl; [|eauto].
      rewrite Hbad. simpl. eauto.
  - intros req req' Hfind Hst Hpaid Hnot Hsame.
    pose proof (findById_id _ _ _ Hfind) as Hid.
    set (rd := RefundDetails.mk (Some (OrderController.refund_amount req
                  (Order.set_refundStatus (Some refund_completed) order)))
                 None None (Some (Date_now env))
                 (Some (ReqUser.id (OrderController.rf_user req))) None None).
    set (o' := Order.set_refundDetails (Some rd)
                 (Order.set_refundStatus (Some refund_completed) order)).
    set (w' := pushNotification (Order.user o') "refund_processed" (Order._id o')
                 (save o' w)).
    assert (Hrun : OrderController.processRefund env req w
                   = (ApiResponse 200 o' "Refund processed successfully", w')).
    { unfold OrderController.processRefund. rewrite Hfind, Hst, Hpaid. simpl.
      destruct (Order.refundStatus order) as [[]|]; try reflexivity. now elim Hnot. }
    assert (Hback : findById (OrderController.rf_id req) w' = Some o').
    { unfold w', pushNotification, findById, save. cbn [orders].
      apply (find_has_id_map_save _ (orders w) order o' Hfind Hid). }
    exists o', "Refund processed successfully", w'.
    split; [exact Hrun|]. split; [exact Hback|]. split; [reflexivity|].
    unfold OrderController.processRefund. rewrite Hsame, Hback.
    change (Order.status o') with (Order.status order). rewrite Hst.
    change (Order.isPaid o') with (Order.isPaid order). rewrite Hpaid.
    simpl. eauto.
Qed.

End Refunds.

(** Witness of C7: the gateway-backed refund of an unpaid order, and an
    admin refund followed by a second one. *)
Lemma processRefund_rejections_witness :
  (exists msg,
      PaymentController.processRefund (Scenario.env_at 2000)
        (PaymentController.mkRefundReq (Some "o1") None None Scenario.staff)
        (Scenario.shop (Scenario.unpaid_order upi pending))
      = (ApiError 400 msg, Scenario.shop (Scenario.unpaid_order upi pending)))
  /\ (exists order' msg w',
        OrderController.processRefund (Scenario.env_at 2000)
          (OrderController.mkRefundReq "o1" None (Some "bank") (Some "txn_1") None Scenario.staff)
          (Scenario.shop (Scenario.paid_order razorpay Scenario.gateway_result cancelled
                            (Some refund_pending)))
        = (ApiResponse 200 order' msg, w')
        /\ findById "o1" w' = Some order'
        /\ Order.refundStatus order' = Some refund_completed
        /\ exists msg',
             OrderController.processRefund (Scenario.env_at 3000)
               (OrderController.mkRefundReq "o1" None (Some "bank") (Some "txn_2") None
                                            Scenario.staff) w'
             = (ApiError 400 msg', w')).
Proof.
  split.
  - exact (proj1 (processRefund_rejections (Scenario.env_at 2000) (Scenario.env_at 3000)
                    (Scenario.shop (Scenario.unpaid_order upi pending))
                    (Scenario.unpaid_order upi pending))
                 (PaymentController.mkRefundReq (Some "o1") None None Scenario.staff)
                 "o1" eq_refl eq_refl (or_introl eq_refl)).
  - refine (proj2 (proj2 (processRefund_rejections (Scenario.env_at 2000) (Scenario.env_at 3000)
                    (Scenario.shop (Scenario.paid_order razorpay Scenario.gateway_result
                                      cancelled (Some refund_pending)))
                    (Scenario.paid_order razorpay Scenario.gateway_result cancelled
                                         (Some refund_pending))))
                 (OrderController.mkRefundReq "o1" None (Some "bank") (Some "txn_1") None
                                              Scenario.staff)
                 (OrderController.mkRefundReq "o1" None (Some "bank") (Some "txn_2") None
                                              Scenario.staff)
                 eq_refl eq_refl eq_refl _ eq_refl).
    discriminate.
Defined.

(** Counterexample to C7 as stated: a cancelled cash-on-delivery order that
    was paid in cash carries no gateway payment id, yet the admin refund
    operation accepts it and records a completed refund. *)
Lemma admin_refund_without_gateway_payment_id :
  Order.isPaid (Scenario.paid_order cod Scenario.cod_result cancelled (Some refund_pending))
  = true
  /\ PaymentController.order_razorpay_payment_id
       (Scenario.paid_order cod Scenario.cod_result cancelled (Some refund_pending)) = None
  /\ exists order' w',
       OrderController.processRefund (Scenario.env_at 2000)
         (OrderController.mkRefundReq "o1" None (Some "cash") None None Scenario.staff)
         (Scenario.shop (Scenario.paid_order cod Scenario.cod_result cancelled
                           (Some refund_pending)))
       = (ApiResponse 200 order' "Refund processed successfully", w')
       /\ findById "o1" w' = Some order'
       /\ Order.refundStatus order' = Some refund_completed.
Proof.
  split; [reflexivity|]. split; [reflexivity|].
  do 2 eexists.
  split; [vm_compute; reflexivity|]. split; vm_compute; reflexivity.
Qed.

(** The gateway-backed refund does not read refundStatus, unlike the admin
    refund: the same request sent again is sent to the gateway again and
    answered with success again. *)
Example gateway_refund_twice_is_sent_twice :
  let order := Scenario.paid_order razorpay Scenario.gateway_result processing None in
  let req := PaymentController.mkRefundReq (Some "o1") None None Scenario.staff in
  exists order1 w1 order2 w2,
    PaymentController.processRefund (Scenario.env_at 2000) req (Scenario.shop order)
    = (ApiResponse 200 order1 "Refund processed successfully", w1)
    /\ Order.refundStatus order1 = Some refund_completed
    /\ PaymentController.processRefund (Scenario.env_at 3000) req w1
       = (ApiResponse 200 order2 "Refund processed successfully", w2)
    /\ notifications w2
       = [Notification.mk "u1" "refund_processed" "o1";
          Notification.mk "u1" "refund_processed" "o1"].
Proof.
  cbv zeta. do 4 eexists.
  split; [vm_compute; reflexivity|]. split; [reflexivity|].
  split; [vm_compute; reflexivity|]. reflexivity.
Qed.

(** ** Money: rounding in binary64 *)

Section Rounding.

Lemma iter_pos_invariant {A : Type} (f : A -> A) (P : Z -> A -> Prop) :
  (forall i x, 0 <= i -> P i x -> P (i + 1) (f x)) ->
  forall n i x, 0 <= i -> P i x -> P (i + Z.pos n) (iter_pos f n x).
Proof.
  intros Hstep. induction n as [n IH|n IH|]; intros i x Hi Hx; simpl.
  - replace (i + Z.pos n~1) with (i + 1 + Z.pos n + Z.pos n) by lia.
    apply IH; [lia|]. apply IH; [lia|]. now apply Hstep.
  - replace (i + Z.pos n~0) with (i + Z.pos n + Z.pos n) by lia.
    apply IH; [lia|]. now apply IH.
  - now apply Hstep.
Qed.

Lemma shr_1_located (T N : Z) (mrs : shr_record) :
  0 < T -> 0 <= shr_m mrs ->
  located T N (shr_m mrs) (shr_r mrs) (shr_s mrs) ->
  located (2 * T) N (shr_m (shr_1 mrs)) (shr_r (shr_1 mrs)) (shr_s (shr_1 mrs))
  /\ 0 <= shr_m (shr_1 mrs)
  /\ shr_m (shr_1 mrs) = shr_m mrs / 2.
Proof.
  intros HT Hm Hloc. destruct mrs as [m r s]. simpl in Hm, Hloc.
  assert (Hdiv : forall q b, 0 <= b < 2 -> (2 * q + b) / 2 = q).
  { intros q b Hb. symmetry. apply (Z.div_unique _ 2 _ b); lia. }
  assert (Hshape : exists q b, 0 <= q /\ 0 <= b < 2 /\ m = 2 * q + b
            /\ shr_1 (Build_shr_record m r s)
               = Build_shr_record q (Z.eqb b 1) (r || s)).
  { destruct m as [|[p|p|]|]; try lia.
    - exists 0, 0. repeat split; lia.
    - exists (Z.pos p), 1. repeat split; lia.
    - exists (Z.pos p), 0. repeat split; lia.
    - exists 0, 1. repeat split; lia. }
  destruct Hshape as (q & b & Hq & Hb & -> & ->). cbn [shr_m shr_r shr_s].
  rewrite Hdiv by lia. split; [|split; [lia|reflexivity]].
  unfold located in *. destruct Hloc as (Hrange & Hr & Hs).
  set (x := T * q) in *.
  replace (T * (2 * q + b)) with (2 * x + T * b) in * by (unfold x; ring).
  replace (T * (2 * q + b + 1)) with (2 * x + T * b + T) in * by (unfold x; ring).
  replace (2 * T * q) with (2 * x) by (unfold x; ring).
  replace (2 * T * (q + 1)) with (2 * x + 2 * T) by (unfold x; ring).
  assert (Hb' : b = 0 \/ b = 1) by lia.
  destruct Hb' as [-> | ->]; rewrite ?Z.mul_0_r, ?Z.mul_1_r in *;
    cbn [Z.eqb Pos.eqb]; destruct r, s; cbn [orb];
    intuition (first [lia | discriminate | congruence]).
Qed.

Lemma shr_iter_located (T N : Z) (mrs : shr_record) (n : positive) :
  0 < T -> 0 <= shr_m mrs ->
  located T N (shr_m mrs) (shr_r mrs) (shr_s mrs) ->
  located (T * 2 ^ Z.pos n) N (shr_m (iter_pos shr_1 n mrs))
          (shr_r (iter_pos shr_1 n mrs)) (shr_s (iter_pos shr_1 n mrs))
  /\ 0 <= shr_m (iter_pos shr_1 n mrs)
  /\ shr_m (iter_pos shr_1 n mrs) = shr_m mrs / 2 ^ Z.pos n.
Proof.
  intros HT Hm Hloc.
  pose (P := fun (i : Z) (x : shr_record) =>
               located (T * 2 ^ i) N (shr_m x) (shr_r x) (shr_s x)
               /\ 0 <= shr_m x /\ shr_m x = shr_m mrs / 2 ^ i).
  change (P (Z.pos n) (iter_pos shr_1 n mrs)).
  change (Z.pos n) with (0 + Z.pos n).
  apply iter_pos_invariant; [|lia|].
  - intros i x Hi (Hx & Hx0 & Hxm). unfold P.
    assert (Hpow : 0 < 2 ^ i) by (apply Z.pow_pos_nonneg; lia).
    destruct (shr_1_located (T * 2 ^ i) N x) as (H1 & H2 & H3); [nia|assumption|assumption|].
    replace (2 ^ (i + 1)) with (2 * 2 ^ i)
      by (rewrite Z.pow_add_r by lia; change (2 ^ 1) with 2; ring).
    replace (T * (2 * 2 ^ i)) with (2 * (T * 2 ^ i)) by ring.
    split; [exact H1|]. split; [exact H2|].
    rewrite H3, Hxm, Z.div_div by lia. f_equal. ring.
  - unfold P. rewrite Z.pow_0_r, Z.mul_1_r, Z.div_1_r. auto.
Qed.

Lemma shr_located (T N : Z) (mrs : shr_record) (e n : Z) :
  0 < T -> 0 <= shr_m mrs -> 0 <= n ->
  located T N (shr_m mrs) (shr_r mrs) (shr_s mrs) ->
  snd (shr mrs e n) = e + n
  /\ located (T * 2 ^ n) N (shr_m (fst (shr mrs e n)))
             (shr_r (fst (shr mrs e n))) (shr_s (fst (shr mrs e n)))
  /\ shr_m (fst (shr mrs e n)) = shr_m mrs / 2 ^ n.
Proof.
  intros HT Hm Hn Hloc. destruct n as [|n|n]; [| |lia]; cbn [shr fst snd].
  - rewrite Z.pow_0_r, Z.mul_1_r, Z.div_1_r, Z.add_0_r. auto.
  - destruct (shr_iter_located T N mrs n HT Hm Hloc) as (H1 & _ & H3). auto.
Qed.

Lemma round_nearest_even_close (T N : Z) (mrs : shr_record) :
  0 < T ->
  located T N (shr_m mrs) (shr_r mrs) (shr_s mrs) ->
  (round_nearest_even (shr_m mrs) (loc_of_shr_record mrs) = shr_m mrs
   \/ round_nearest_even (shr_m mrs) (loc_of_shr_record mrs) = shr_m mrs + 1)
  /\ 2 * Z.abs (T * round_nearest_even (shr_m mrs) (loc_of_shr_record mrs) - N) <= T.
Proof.
  intros HT (Hrange & Hr & Hs). destruct mrs as [m r s]. cbn [shr_m shr_r shr_s] in *.
  set (x := T * m) in *.
  replace (T * (m + 1)) with (x + T) in Hrange by (unfold x; ring).
  destruct r, s; cbn [loc_of_shr_record round_nearest_even];
    try destruct (Z.even m);
    (split; [auto|]);
    try replace (T * (m + 1)) with (x + T) by (unfold x; ring); fold x;
    intuition (first [lia | discriminate | congruence]).
Qed.

Lemma digits2_pos_bounds (p : positive) :
  2 ^ (Z.pos (digits2_pos p) - 1) <= Z.pos p < 2 ^ Z.pos (digits2_pos p).
Proof.
  induction p as [p IH|p IH|]; cbn [digits2_pos].
  - rewrite Pos2Z.inj_succ. change (Z.pos p~1) with (2 * Z.pos p + 1).
    replace (Z.succ (Z.pos (digits2_pos p)) - 1) with (Z.succ (Z.pos (digits2_pos p) - 1)) by lia.
    rewrite !Z.pow_succ_r by lia. lia.
  - rewrite Pos2Z.inj_succ. change (Z.pos p~0) with (2 * Z.pos p).
    replace (Z.succ (Z.pos (digits2_pos p)) - 1) with (Z.succ (Z.pos (digits2_pos p) - 1)) by lia.
    rewrite !Z.pow_succ_r by lia. lia.
  - simpl. lia.
Qed.

Lemma Zdigits2_bounds (m : Z) :
  0 < m -> 0 < Zdigits2 m /\ 2 ^ (Zdigits2 m - 1) <= m < 2 ^ Zdigits2 m.
Proof.
  destruct m as [|p|p]; try lia. intros _. cbn [Zdigits2].
  split; [lia | apply digits2_pos_bounds].
Qed.

Lemma Zdigits2_unique (m d : Z) :
  0 < m -> 2 ^ (d - 1) <= m < 2 ^ d -> Zdigits2 m = d.
Proof.
  intros Hm Hd. destruct (Zdigits2_bounds m Hm) as (Hpos & Hb).
  assert (0 < d).
  { destruct (Z.le_gt_cases d 0) as [Hle|]; [|assumption].
    assert (2 ^ d <= 2 ^ 0) by (destruct (Z.lt_ge_cases d 0); 
       [rewrite Z.pow_neg_r by lia; simpl; lia | apply Z.pow_le_mono_r; lia]).
    simpl in *. lia. }
  destruct (Z.lt_trichotomy (Zdigits2 m) d) as [Hlt|[Heq|Hgt]]; [|assumption|].
  - assert (2 ^ Zdigits2 m <= 2 ^ (d - 1)) by (apply Z.pow_le_mono_r; lia). lia.
  - assert (2 ^ d <= 2 ^ (Zdigits2 m - 1)) by (apply Z.pow_le_mono_r; lia). lia.
Qed.

Lemma shr_m_record_of_loc (m : Z) (l : location) :
  shr_m (shr_record_of_loc m l) = m.
Proof. destruct l as [|[]]; reflexivity. Qed.

Lemma binary_round_aux_close (s : bool) (m e : Z) (l : location) (T N : Z) :
  0 < m -> 0 < T ->
  located T N m (shr_r (shr_record_of_loc m l)) (shr_s (shr_record_of_loc m l)) ->
  53 <= Zdigits2 m ->
  -1074 <= e + Zdigits2 m - 53 < 971 ->
  exists m' e',
    binary_round_aux prec emax s m e l = S754_finite s m' e'
    /\ 2 ^ 52 <= Z.pos m' < 2 ^ 53
    /\ (e' = e + (Zdigits2 m - 53) \/ e' = e + (Zdigits2 m - 53) + 1)
    /\ 2 * Z.abs (T * (Z.pos m' * 2 ^ (e' - e)) - N) <= T * 2 ^ (Zdigits2 m - 53).
Proof.
  intros Hm HT Hloc Hd He.
  destruct (Zdigits2_bounds m Hm) as (_ & Hmb).
  set (d := Zdigits2 m) in *. set (n := d - 53).
  assert (Hn : 0 <= n) by (unfold n; lia).
  assert (Hpn : 0 < 2 ^ n) by (apply Z.pow_pos_nonneg; lia).
  unfold binary_round_aux, shr_fexp.
  assert (Hfexp : fexp prec emax (Zdigits2 m + e) - e = n).
  { unfold fexp, SpecFloat.emin, prec, emax. fold d. unfold n. lia. }
  rewrite Hfexp.
  pose proof (shr_m_record_of_loc m l) as Hm0.
  destruct (shr_located T N (shr_record_of_loc m l) e n) as (He1 & Hloc1 & Hm1);
    [assumption| rewrite Hm0; lia | assumption | rewrite Hm0; assumption |].
  destruct (shr (shr_record_of_loc m l) e n) as [mrs1 e1]. cbn [fst snd] in *.
  rewrite Hm0 in Hm1.
  (* the shifted mantissa has 53 digits *)
  assert (Hm1b : 2 ^ 52 <= shr_m mrs1 < 2 ^ 53).
  { rewrite Hm1.
    assert (Hd1 : 2 ^ (d - 1) = 2 ^ 52 * 2 ^ n)
      by (rewrite <- Z.pow_add_r by lia; f_equal; unfold n; lia).
    assert (Hd2 : 2 ^ d = 2 ^ 53 * 2 ^ n)
      by (rewrite <- Z.pow_add_r by lia; f_equal; unfold n; lia).
    split.
    - apply Z.div_le_lower_bound; lia.
    - apply Z.div_lt_upper_bound; lia. }
  destruct (round_nearest_even_close (T * 2 ^ n) N mrs1) as (Hm2 & Hclose); [nia|assumption|].
  set (m2 := round_nearest_even (shr_m mrs1) (loc_of_shr_record mrs1)) in *.
  assert (Hm2b : 2 ^ 52 <= m2 <= 2 ^ 53) by lia.
  destruct (Z.eq_dec m2 (2 ^ 53)) as [Hcarry|Hnocarry].
  - (* the rounding carried into a 54th digit *)
    rewrite Hcarry in *. subst e1.
    assert (Hdig : Zdigits2 (2 ^ 53) = 54) by reflexivity.
    rewrite Hdig.
    assert (Hfexp2 : fexp prec emax (54 + (e + n)) - (e + n) = 1).
    { unfold fexp, SpecFloat.emin, prec, emax. unfold n. lia. }
    rewrite Hfexp2.
    exists (Pos.pow 2 52), (e + n + 1).
    split.
    { cbn -[Z.add Z.leb]. 
      replace (e + n + 1 <=? emax - prec) with true
        by (symmetry; apply Z.leb_le; unfold emax, prec, n; lia).
      reflexivity. }
    split; [simpl; lia|]. split; [right; reflexivity|].
    replace (e + n + 1 - e) with (n + 1) by lia.
    rewrite Z.pow_add_r by lia. change (2 ^ 1) with 2.
    replace (T * (Z.pos (2 ^ 52) * (2 ^ n * 2))) with (T * 2 ^ n * 2 ^ 53)
      by (change (Z.pos (2 ^ 52)) with (2 ^ 52); change (2 ^ 53) with (2 ^ 52 * 2); ring).
    exact Hclose.
  - assert (Hdig : Zdigits2 m2 = 53) by (apply Zdigits2_unique; change (53 - 1) with 52; lia).
    rewrite Hdig. subst e1.
    assert (Hfexp2 : fexp prec emax (53 + (e + n)) - (e + n) = 0).
    { unfold fexp, SpecFloat.emin, prec, emax. unfold n. lia. }
    rewrite Hfexp2. cbn [shr shr_record_of_loc shr_m].
    destruct m2 as [|p|p] eqn:Hp; [lia| |lia].
    exists p, (e + n).
    split.
    { replace (e + n <=? emax - prec) with true
        by (symmetry; apply Z.leb_le; unfold emax, prec, n; lia).
      reflexivity. }
    split; [lia|]. split; [left; reflexivity|].
    replace (e + n - e) with n by lia.
    replace (T * (Z.pos p * 2 ^ n)) with (T * 2 ^ n * Z.pos p) by ring.
    exact Hclose.
Qed.

Lemma Pos_iter_xO (p d : positive) :
  Z.pos (Pos.iter xO p d) = Z.pos p * 2 ^ Z.pos d.
Proof.
  induction d as [|d IH] using Pos.peano_ind.
  - simpl. lia.
  - rewrite Pos.iter_succ, Pos2Z.inj_succ, Z.pow_succ_r by lia.
    change (Z.pos (Pos.iter xO p d)~0) with (2 * Z.pos (Pos.iter xO p d)).
    rewrite IH. ring.
Qed.

(** An integer below [2^53] is a Number, exactly. *)
Lemma binary_normalize_exact (k : positive) :
  Z.pos k < 2 ^ 53 ->
  exists m E,
    binary_normalize prec emax (Z.pos k) 0 false = S754_finite false m (- E)
    /\ 0 <= E <= 52
    /\ Z.pos m = Z.pos k * 2 ^ E
    /\ 2 ^ 52 <= Z.pos m < 2 ^ 53.
Proof.
  intros Hk.
  destruct (digits2_pos_bounds k) as (Hlo & Hhi).
  set (d := Z.pos (digits2_pos k)) in *.
  assert (Hd : 1 <= d <= 53).
  { split; [unfold d; lia|].
    destruct (Z.le_gt_cases d 53) as [|Hgt]; [assumption|].
    assert (2 ^ 53 <= 2 ^ (d - 1)) by (apply Z.pow_le_mono_r; lia). lia. }
  set (E := 53 - d).
  assert (HE : 0 <= E <= 52) by (unfold E; lia).
  assert (HpE : 0 < 2 ^ E) by (apply Z.pow_pos_nonneg; lia).
  assert (Halign : exists mz, shl_align k 0 (fexp prec emax (Z.pos (digits2_pos k) + 0))
                              = (mz, - E) /\ Z.pos mz = Z.pos k * 2 ^ E).
  { unfold shl_align, fexp, SpecFloat.emin, prec, emax. fold d.
    replace (Z.max (d + 0 - 53) (3 - 1024 - 53) - 0) with (- E) by (unfold E; lia).
    replace (Z.max (d + 0 - 53) (3 - 1024 - 53)) with (- E) by (unfold E; lia).
    destruct E as [|pE|pE] eqn:HEq; [| |lia].
    - exists k. split; [reflexivity | simpl; lia].
    - exists (Pos.iter xO k pE). split; [reflexivity | apply Pos_iter_xO]. }
  destruct Halign as (mz & Halign & Hmz).
  assert (Hmzb : 2 ^ 52 <= Z.pos mz < 2 ^ 53).
  { rewrite Hmz.
    assert (H1 : 2 ^ 52 = 2 ^ (d - 1) * 2 ^ E)
      by (rewrite <- Z.pow_add_r by lia; f_equal; unfold E; lia).
    assert (H2 : 2 ^ 53 = 2 ^ d * 2 ^ E)
      by (rewrite <- Z.pow_add_r by lia; f_equal; unfold E; lia).
    rewrite H1, H2. nia. }
  assert (Hdig : Zdigits2 (Z.pos mz) = 53)
    by (apply Zdigits2_unique; change (53 - 1) with 52; lia).
  destruct (binary_round_aux_close false (Z.pos mz) (- E) loc_Exact 1 (Z.pos mz))
    as (m' & e' & Hround & Hm' & He' & Hclose).
  { lia. } { lia. }
  { cbn [shr_record_of_loc shr_r shr_s]. unfold located.
    intuition (first [lia | discriminate | congruence]). }
  { lia. } { lia. }
  rewrite Hdig in *. change (53 - 53) with 0 in *. rewrite Z.pow_0_r in Hclose.
  assert (He'' : e' = - E).
  { destruct He' as [He'|He']; [lia|]. exfalso.
    replace (e' - - E) with 1 in Hclose by lia. change (2 ^ 1) with 2 in Hclose. lia. }
  subst e'. replace (- E - - E) with 0 in Hclose by lia. rewrite Z.pow_0_r in Hclose.
  assert (m' = mz) by lia. subst m'.
  exists mz, E. split; [|auto].
  cbn [binary_normalize]. unfold binary_round. rewrite Halign. exact Hround.
Qed.

Lemma hundred_value : Z.pos 7036874417766400 = 25 * 2 ^ 48.
Proof. reflexivity. Qed.

(** Dividing a 53-bit mantissa by 100: the quotient is within half a unit
    in the last place. *)
Lemma SFdiv_hundred_close (s : bool) (mk : positive) (E : Z) :
  0 <= E <= 52 ->
  2 ^ 52 <= Z.pos mk < 2 ^ 53 ->
  exists ma j,
    SF64div (S754_finite s mk (- E)) hundred = S754_finite s ma (- E - 7 + j)
    /\ 0 <= j <= 2
    /\ 2 ^ 52 <= Z.pos ma < 2 ^ 53
    /\ Z.abs (100 * Z.pos ma * 2 ^ j - Z.pos mk * 2 ^ 7) <= 50 * 2 ^ j.
Proof.
  intros HE Hmk.
  unfold SF64div, SFdiv, hundred, SFdiv_core_binary. rewrite xorb_false_r.
  assert (Hd1 : Zdigits2 (Z.pos mk) = 53)
    by (apply Zdigits2_unique; change (53 - 1) with 52; lia).
  assert (Hd2 : Zdigits2 (Z.pos 7036874417766400) = 53) by reflexivity.
  rewrite Hd1, Hd2.
  assert (He' : Z.min (fexp prec emax (53 + - E - (53 + -46))) (- E - -46) = - E - 7).
  { unfold fexp, SpecFloat.emin, prec, emax. lia. }
  rewrite He'.
  replace (- E - -46 - (- E - 7)) with 53 by lia.
  rewrite Z.shiftl_mul_pow2 by lia.
  pose proof (Z_div_mod (Z.pos mk * 2 ^ 53) (Z.pos 7036874417766400) eq_refl) as Hdm.
  destruct (Z.div_eucl (Z.pos mk * 2 ^ 53) (Z.pos 7036874417766400)) as [q r].
  destruct Hdm as (Hq & Hr).
  rewrite hundred_value in *.
  set (T := 25 * 2 ^ 48) in *.
  assert (HT : T = 7036874417766400) by reflexivity.
  assert (Hqb : 2 ^ 52 <= q < 2 ^ 54).
  { change (2 ^ 53) with 9007199254740992 in *. change (2 ^ 52) with 4503599627370496 in *.
    change (2 ^ 54) with 18014398509481984. rewrite HT in *. lia. }
  assert (Hq0 : 0 < q) by (change (2 ^ 52) with 4503599627370496 in Hqb; lia).
  assert (Hdq : Zdigits2 q = 53 \/ Zdigits2 q = 54).
  { destruct (Z.lt_ge_cases q (2 ^ 53)).
    - left. apply Zdigits2_unique; change (53 - 1) with 52; lia.
    - right. apply Zdigits2_unique; change (54 - 1) with 53; lia. }
  destruct (binary_round_aux_close s q (- E - 7) (new_location T r) T
              (Z.pos mk * 2 ^ 53))
    as (ma & ea & Hround & Hma & Hea & Hclose).
  { exact Hq0. } { rewrite HT; lia. }
  { unfold new_location. replace (Z.even T) with true by reflexivity.
    unfold new_location_even, located.
    destruct (Z.eqb_spec r 0) as [Hr0|Hr0].
    - cbn [shr_record_of_loc shr_r shr_s].
      intuition (first [lia | discriminate | congruence]).
    - destruct (Z.compare_spec (2 * r) T); cbn [shr_record_of_loc shr_r shr_s];
        intuition (first [lia | discriminate | congruence]). }
  { lia. } { lia. }
  exists ma, (ea - (- E - 7)).
  replace (- E - 7 + (ea - (- E - 7))) with ea by lia.
  split; [exact Hround|]. split; [lia|]. split; [exact Hma|].
  change (2 ^ 53) with (2 ^ 46 * 2 ^ 7) in Hclose.
  rewrite HT in *. change (2 ^ 7) with 128 in *.
  change (2 ^ 46) with 70368744177664 in Hclose.
  destruct Hdq as [Hdq|Hdq]; rewrite Hdq in *; destruct Hea as [Hea|Hea]; subst ea;
    match goal with
    | |- context [2 ^ ?x] => ring_simplify x; ring_simplify x in Hclose
    end.
  all: try change (2 ^ (53 - 53)) with 1 in Hclose; try change (2 ^ (54 - 53)) with 2 in Hclose.
  all: try change (2 ^ 0) with 1 in *; try change (2 ^ 1) with 2 in *;
       try change (2 ^ 2) with 4 in *.
  all: lia.
Qed.

(** Multiplying a 53-bit mantissa by 100: the product is within half a
    unit in the last place. *)
Lemma SFmul_hundred_close (s : bool) (ma : positive) (ea : Z) :
  2 ^ 52 <= Z.pos ma < 2 ^ 53 ->
  -1000 <= ea <= 800 ->
  exists mp i,
    SF64mul (S754_finite s ma ea) hundred = S754_finite s mp (ea - 46 + i)
    /\ 52 <= i <= 54
    /\ 2 ^ 52 <= Z.pos mp < 2 ^ 53
    /\ 2 * Z.abs (Z.pos mp * 2 ^ (i - 46) - 100 * Z.pos ma) <= 2 ^ (i - 46).
Proof.
  intros Hma Hea.
  unfold SF64mul, SFmul, hundred. rewrite xorb_false_r.
  set (M := Z.pos (ma * 7036874417766400)).
  assert (HM : M = 100 * Z.pos ma * 2 ^ 46) by (unfold M; rewrite Pos2Z.inj_mul; change (2 ^ 46) with 70368744177664; lia).
  assert (HMb : 2 ^ 104 <= M < 2 ^ 106).
  { rewrite HM. change (2 ^ 52) with 4503599627370496 in Hma.
    change (2 ^ 53) with 9007199254740992 in Hma.
    change (2 ^ 46) with 70368744177664.
    change (2 ^ 104) with 20282409603651670423947251286016.
    change (2 ^ 106) with 81129638414606681695789005144064. lia. }
  assert (HM0 : 0 < M) by (unfold M; lia).
  assert (HdM : Zdigits2 M = 105 \/ Zdigits2 M = 106).
  { destruct (Z.lt_ge_cases M (2 ^ 105)).
    - left. apply Zdigits2_unique; change (105 - 1) with 104; lia.
    - right. apply Zdigits2_unique; change (106 - 1) with 105; lia. }
  destruct (binary_round_aux_close s M (ea + -46) loc_Exact 1 M)
    as (mp & ep & Hround & Hmp & Hep & Hclose).
  { exact HM0. } { lia. }
  { cbn [shr_record_of_loc shr_r shr_s]. unfold located.
    intuition (first [lia | discriminate | congruence]). }
  { lia. } { lia. }
  exists mp, (ep - (ea + -46)).
  replace (ea - 46 + (ep - (ea + -46))) with ep by lia.
  split; [exact Hround|]. split; [lia|]. split; [exact Hmp|].
  assert (Hsplit : forall x, 46 <= x -> 2 ^ x = 2 ^ (x - 46) * 2 ^ 46).
  { intros x Hx. rewrite <- Z.pow_add_r by lia. f_equal. lia. }
  assert (Hi : Zdigits2 M - 53 <= ep - (ea + -46) <= Zdigits2 M - 53 + 1) by lia.
  set (i := ep - (ea + -46)) in *.
  set (n := Zdigits2 M - 53) in *.
  rewrite HM in Hclose.
  assert (Hn : 52 <= n <= 53) by lia.
  assert (Hpow : 2 ^ n <= 2 ^ i) by (apply Z.pow_le_mono_r; lia).
  rewrite (Hsplit i) in Hclose, Hpow by lia.
  assert (Hc : 0 < 2 ^ (i - 46)) by (apply Z.pow_pos_nonneg; lia).
  set (c := 2 ^ (i - 46)) in *.
  change (2 ^ 46) with 70368744177664 in *.
  lia.
Qed.

(** A Number of magnitude [k < 2^51], an integer, divided by 100 and
    multiplied by 100 again in binary64: the result [mp * 2^(-y)] keeps the
    sign, its last place weighs at most a quarter, and it is within one
    unit in the last place of [k]. *)
Lemma times_hundred_after_div (s : bool) (k mk : positive) (E : Z) :
  Z.pos k < 2 ^ 51 ->
  0 <= E <= 52 ->
  Z.pos mk = Z.pos k * 2 ^ E ->
  2 ^ 52 <= Z.pos mk < 2 ^ 53 ->
  exists mp y,
    SF64mul (SF64div (S754_finite s mk (- E)) hundred) hundred = S754_finite s mp (- y)
    /\ 2 <= y
    /\ Z.abs (Z.pos mp - Z.pos k * 2 ^ y) <= 1.
Proof.
  intros Hk HE Hmk Hmkb.
  destruct (SFdiv_hundred_close s mk E HE Hmkb) as (ma & j & -> & Hj & Hma & Hdiv).
  destruct (SFmul_hundred_close s ma (- E - 7 + j) Hma) as (mp & i & -> & Hi & Hmp & Hmul);
    [lia|].
  (* X = 2^x is the weight of one unit of [ma]'s last place *)
  set (x := E + 7 - j).
  assert (Hx : 5 <= x) by (unfold x; lia).
  assert (HX : Z.pos mk * 2 ^ 7 = Z.pos k * 2 ^ x * 2 ^ j).
  { rewrite Hmk, <- !Z.mul_assoc, <- !Z.pow_add_r by lia. do 2 f_equal. unfold x. lia. }
  rewrite HX in Hdiv.
  assert (HpX : 0 < 2 ^ x) by (apply Z.pow_pos_nonneg; lia).
  set (X := 2 ^ x) in *.
  assert (HA : Z.abs (100 * Z.pos ma - Z.pos k * X) <= 50).
  { assert (Hj' : j = 0 \/ j = 1 \/ j = 2) by lia.
    destruct Hj' as [-> | [-> | ->]];
      [change (2 ^ 0) with 1 in Hdiv | change (2 ^ 1) with 2 in Hdiv
       | change (2 ^ 2) with 4 in Hdiv]; lia. }
  clear Hdiv HX.
  change (2 ^ 52) with 4503599627370496 in *. change (2 ^ 53) with 9007199254740992 in *.
  change (2 ^ 51) with 2251799813685248 in Hk.
  assert (HkX : 0 < Z.pos k * X) by lia.
  (* the product lies below 2^51, so its last place weighs at most 1/4 *)
  assert (Hep : i - 44 <= x).
  { destruct (Z.le_gt_cases (i - 44) x) as [|Hgt]; [assumption|exfalso].
    assert (HXc : X <= 2 * 2 ^ (i - 46)).
    { replace (2 * 2 ^ (i - 46)) with (2 ^ (i - 45))
        by (replace (i - 45) with (i - 46 + 1) by lia;
            rewrite Z.pow_add_r by lia; change (2 ^ 1) with 2; ring).
      apply Z.pow_le_mono_r; lia. }
    assert (Hc : 64 <= 2 ^ (i - 46))
      by (change 64 with (2 ^ 6); apply Z.pow_le_mono_r; lia).
    set (c := 2 ^ (i - 46)) in *.
    assert (Z.pos k * X <= 2251799813685247 * (2 * c))
      by (apply Z.mul_le_mono_nonneg; lia).
    assert (4503599627370496 * c <= Z.pos mp * c)
      by (apply Z.mul_le_mono_nonneg_r; lia).
    lia. }
  set (y := x - (i - 46)).
  assert (Hy : 2 <= y) by (unfold y; lia).
  assert (HXY : X = 2 ^ (i - 46) * 2 ^ y).
  { unfold X, y. rewrite <- Z.pow_add_r by lia. f_equal. lia. }
  exists mp, y.
  replace (- E - 7 + j - 46 + i) with (- y) by (unfold y, x; lia).
  split; [reflexivity|]. split; [exact Hy|].
  assert (HY : 0 < 2 ^ y) by (apply Z.pow_pos_nonneg; lia).
  set (Y := 2 ^ y) in *.
  rewrite HXY in HA.
  assert (Hi' : i = 52 \/ i = 53 \/ i = 54) by lia.
  destruct Hi' as [-> | [-> | ->]];
    [change (2 ^ (52 - 46)) with 64 in * | change (2 ^ (53 - 46)) with 128 in *
     | change (2 ^ (54 - 46)) with 256 in *]; lia.
Qed.

End Rounding.

(** ** Money: the round trip through paise *)

Section Money.

Import RazorpayConfig.

Lemma Prim2SF_hundred : Prim2SF 100%float = hundred.
Proof. reflexivity. Qed.

Lemma Prim2SF_Number_of_Z (k : positive) :
  Z.pos k < 2 ^ 53 ->
  exists mk E,
    Prim2SF (Number_of_Z (Z.pos k)) = S754_finite false mk (- E)
    /\ Prim2SF (Number_of_Z (Z.neg k)) = S754_finite true mk (- E)
    /\ 0 <= E <= 52
    /\ Z.pos mk = Z.pos k * 2 ^ E
    /\ 2 ^ 52 <= Z.pos mk < 2 ^ 53.
Proof.
  intros Hk.
  destruct (binary_normalize_exact k Hk) as (mk & E & Hnorm & HE & Hmk & Hmkb).
  assert (Hpos : Prim2SF (PrimFloat.of_uint63 (Uint63.of_Z (Z.pos k)))
                 = S754_finite false mk (- E)).
  { rewrite of_uint63_spec, Uint63.of_Z_spec, Z.mod_small; [exact Hnorm|].
    split; [lia|]. eapply Z.lt_trans; [exact Hk | reflexivity]. }
  exists mk, E. unfold Number_of_Z. cbn [Z.ltb Z.compare Z.opp].
  rewrite opp_spec, Hpos. auto.
Qed.

(** [Math.round] of a Number whose last place weighs at most a quarter and
    which lies within one unit in the last place of the integer [k]. *)
Lemma Math_round_near_integer (x : Number) (s : bool) (mp k : positive) (y : Z) :
  Prim2SF x = S754_finite s mp (- y) ->
  2 <= y ->
  Z.abs (Z.pos mp - Z.pos k * 2 ^ y) <= 1 ->
  Math_round x = Number_of_Z (if s then Z.neg k else Z.pos k).
Proof.
  intros Hx Hy Hclose. unfold Math_round. rewrite Hx.
  replace (0 <=? - y) with false by (symmetry; apply Z.leb_gt; lia).
  change (Z.pow_pos 2 (Z.to_pos (- - y))) with (2 ^ Z.pos (Z.to_pos (- - y))).
  change (Z.pow_pos 2 (Z.to_pos (- - y) + 1)) with (2 ^ Z.pos (Z.to_pos (- - y) + 1)).
  rewrite Pos2Z.inj_add, Z2Pos.id, Z.opp_involutive by lia.
  rewrite Z.pow_add_r by lia. change (2 ^ 1) with 2.
  assert (HY : 4 <= 2 ^ y) by (change 4 with (2 ^ 2); apply Z.pow_le_mono_r; lia).
  set (Y := 2 ^ y) in *.
  destruct s.
  - replace ((2 * Z.neg mp + Y) / (Y * 2)) with (Z.neg k).
    + reflexivity.
    + apply (Z.div_unique _ (Y * 2) _ (2 * Z.neg mp + Y - Y * 2 * Z.neg k)); lia.
  - replace ((2 * Z.pos mp + Y) / (Y * 2)) with (Z.pos k).
    + reflexivity.
    + apply (Z.div_unique _ (Y * 2) _ (2 * Z.pos mp + Y - Y * 2 * Z.pos k)); lia.
Qed.

(** C9 (amended).  For every amount of [k] paise with [|k| < 2^51] (two
    decimal places, magnitude below 22,517,998,136,852.48), taken as the
    Number its decimal denotes: [formatAmountForRazorpay] yields exactly the
    integer [k], and [formatAmountFromRazorpay] of that yields the original
    Number again. *)
Theorem money_round_trip (k : Z) :
  - 2 ^ 51 < k < 2 ^ 51 ->
  formatAmountForRazorpay (amount_of_paise k) = Number_of_Z k
  /\ formatAmountFromRazorpay (formatAmountForRazorpay (amount_of_paise k))
     = amount_of_paise k.
Proof.
  intros Hk.
  assert (Hfor : formatAmountForRazorpay (amount_of_paise k) = Number_of_Z k).
  { assert (Hcase : forall (s : bool) (p : positive),
               Z.pos p < 2 ^ 51 ->
               formatAmountForRazorpay (amount_of_paise (if s then Z.neg p else Z.pos p))
               = Number_of_Z (if s then Z.neg p else Z.pos p)).
    { intros s p Hp.
      destruct (Prim2SF_Number_of_Z p) as (mk & E & Hpos & Hneg & HE & Hmk & Hmkb).
      { eapply Z.lt_trans; [exact Hp | reflexivity]. }
      destruct (times_hundred_after_div s p mk E Hp HE Hmk Hmkb)
        as (mp & y & Hsf & Hy & Hclose).
      unfold formatAmountForRazorpay, amount_of_paise.
      apply (Math_round_near_integer _ s mp p y); [|exact Hy|exact Hclose].
      rewrite mul_spec, div_spec, Prim2SF_hundred.
      destruct s; [rewrite Hneg | rewrite Hpos]; exact Hsf. }
    destruct k as [|p|p].
    - vm_compute; reflexivity.
    - apply (Hcase false p). lia.
    - apply (Hcase true p). lia. }
  split; [exact Hfor|]. rewrite Hfor. reflexivity.
Qed.

End Money.

(** Witness of C9, the spec's own example: 709.97 -> 70997 -> 709.97. *)
Lemma money_round_trip_witness :
  RazorpayConfig.formatAmountForRazorpay (RazorpayConfig.amount_of_paise 70997)
  = RazorpayConfig.Number_of_Z 70997
  /\ RazorpayConfig.formatAmountFromRazorpay
       (RazorpayConfig.formatAmountForRazorpay (RazorpayConfig.amount_of_paise 70997))
     = RazorpayConfig.amount_of_paise 70997.
Proof.
  apply (money_round_trip 70997). split; reflexivity.
Defined.

(** The same example on the literals: the double nearest to 709.97 is
    [0x1.62fc28f5c28f6p+9]. *)
Example money_round_trip_709_97 :
  RazorpayConfig.amount_of_paise 70997 = Scenario.total_709_97
  /\ RazorpayConfig.formatAmountForRazorpay Scenario.total_709_97 = 70997%float
  /\ RazorpayConfig.formatAmountFromRazorpay 70997%float = Scenario.total_709_97.
Proof. repeat split; vm_compute; reflexivity. Qed.

(** Counterexample to C9 as stated: 35,996,586,805,556.02 has two decimal
    places and is a Number to the paisa (doubles are 1/128 apart there), yet
    it converts to 3599658680555603 paise and from there to another Number,
    the one for 35,996,586,805,556.03. *)
Lemma money_round_trip_fails_for_huge_amount :
  RazorpayConfig.formatAmountForRazorpay (RazorpayConfig.amount_of_paise 3599658680555602)
  = RazorpayConfig.Number_of_Z 3599658680555603
  /\ RazorpayConfig.formatAmountFromRazorpay
       (RazorpayConfig.formatAmountForRazorpay
          (RazorpayConfig.amount_of_paise 3599658680555602))
     <> RazorpayConfig.amount_of_paise 3599658680555602.
Proof.
  split; [vm_compute; reflexivity|].
  intros H. apply (f_equal Prim2SF) in H. vm_compute in H. discriminate.
Qed.

(** * Further properties *)

(** ** One request, one document *)

Section Shapes.

Variable hmac_sha256_hex : string -> string -> string.
Variable JSON_stringify : WebhookController.Event -> string.

Lemma findOne_razorpay_payment_id_In (pid : string) (w : World) (o : Order.t) :
  findOne_razorpay_payment_id pid w = Some o -> In o (orders w).
Proof. unfold findOne_razorpay_payment_id. intros H. now apply find_some in H. Qed.

Lemma push_all_shape (i : string) (l : list string) (w : World) :
  orders (fold_left (fun w a => pushNotification a "order_cancelled" i w) l w) = orders w
  /\ admins (fold_left (fun w a => pushNotification a "order_cancelled" i w) l w) = admins w
  /\ exists l', notifications (fold_left (fun w a => pushNotification a "order_cancelled" i w) l w)
               = (notifications w ++ l')%list.
Proof.
  revert w. induction l as [|a l IH]; intros w; simpl.
  - repeat split. exists []. now rewrite app_nil_r.
  - destruct (IH (pushNotification a "order_cancelled" i w)) as (Ho & Ha & l' & Hn).
    rewrite Ho, Ha, Hn. simpl. repeat split.
    eexists. rewrite <- app_assoc. reflexivity.
Qed.

Lemma notify_admins_shape (order : Order.t) (w : World) :
  orders (OrderController.notify_admins order w) = orders w
  /\ admins (OrderController.notify_admins order w) = admins w
  /\ exists l, notifications (OrderController.notify_admins order w)
               = (notifications w ++ l)%list.
Proof. apply push_all_shape. Qed.

Lemma valid_status_not_pending (name : string) (s : OrderStatus) :
  OrderController.includes OrderController.validStatuses name = true ->
  status_of_name name = Some s -> s <> pending.
Proof.
  unfold OrderController.includes, OrderController.validStatuses, existsb.
  intros H Hs.
  repeat (apply orb_prop in H; destruct H as [H|H]);
    try discriminate; apply String.eqb_eq in H; subst name;
    vm_compute in Hs; inversion Hs; discriminate.
Qed.

Ltac identity :=
  unfold keeps_identity; cbn;
  repeat (split; [solve [auto]|]);
  first [ solve [auto] | discriminate
        | intros _; eapply valid_status_not_pending; [|eassumption];
          match goal with
          | H : negb ?b = false |- ?b = true => now apply negb_false_iff in H
          end ].

Ltac break_match :=
  match goal with
  | |- context [match ?x with _ => _ end] => destruct x eqn:?
  end.

Ltac one_rewrite :=
  right;
  match goal with
  | H : _ = Some ?o |- _ =>
      exists o; eexists;
      first
        [ eexists;
          (split; [|split; [|split; [|split; [reflexivity|]]]]);
          [ | | | split; [reflexivity | cbn; reflexivity] ]
        | exists (@nil Notification.t);
          (split; [|split; [|split; [|split; [reflexivity|]]]]);
          [ | | | split; [reflexivity | cbn; rewrite app_nil_r; reflexivity] ] ];
      [ first [ exact (proj1 (find_has_id_In _ _ _ H))
              | exact (proj1 (findOne_razorpayOrderId_In _ _ _ H))
              | exact (findOne_razorpay_payment_id_In _ _ _ H) ]
      | identity
      | unfold paidAt_consistent; cbn; intros; try discriminate; auto ]
  end.

Ltac shape :=
  repeat break_match; cbn [fst snd is_rejected];
  (split; [first [left; reflexivity | one_rewrite]
          | first [reflexivity | discriminate]]).

Lemma createRazorpayOrder_shape env req w :
  rewrites_one w (snd (PaymentController.createRazorpayOrder env req w))
  /\ (is_rejected (fst (PaymentController.createRazorpayOrder env req w)) = true ->
      snd (PaymentController.createRazorpayOrder env req w) = w).
Proof. unfold PaymentController.createRazorpayOrder. shape. Qed.

Lemma verifyPayment_shape env req w :
  rewrites_one w (snd (PaymentController.verifyPayment hmac_sha256_hex env req w))
  /\ (is_rejected (fst (PaymentController.verifyPayment hmac_sha256_hex env req w)) = true ->
      snd (PaymentController.verifyPayment hmac_sha256_hex env req w) = w).
Proof. unfold PaymentController.verifyPayment. shape. Qed.

Lemma gateway_refund_shape env req w :
  rewrites_one w (snd (PaymentController.processRefund env req w))
  /\ (is_rejected (fst (PaymentController.processRefund env req w)) = true ->
      snd (PaymentController.processRefund env req w) = w).
Proof. unfold PaymentController.processRefund. shape. Qed.

Ltac shape_world :=
  repeat break_match; first [left; reflexivity | one_rewrite].

Lemma handlePaymentCaptured_shape env p w :
  rewrites_one w (WebhookController.handlePaymentCaptured env p w).
Proof. unfold WebhookController.handlePaymentCaptured. shape_world. Qed.

Lemma handlePaymentFailed_shape env p w :
  rewrites_one w (WebhookController.handlePaymentFailed env p w).
Proof. unfold WebhookController.handlePaymentFailed. shape_world. Qed.

Lemma handleRefundProcessed_shape env r w :
  rewrites_one w (WebhookController.handleRefundProcessed env r w).
Proof. unfold WebhookController.handleRefundProcessed. shape_world. Qed.

Lemma handleOrderPaid_shape env i w :
  rewrites_one w (WebhookController.handleOrderPaid env i w).
Proof. unfold WebhookController.handleOrderPaid. shape_world. Qed.

Lemma dispatch_shape env ev w w' :
  WebhookController.dispatch env ev w = Some w' -> rewrites_one w w'.
Proof.
  unfold WebhookController.dispatch, WebhookController.on_entity.
  repeat break_match; intros H; inversion H; subst;
    auto using handlePaymentCaptured_shape, handlePaymentFailed_shape,
      handleRefundProcessed_shape, handleOrderPaid_shape; left; reflexivity.
Qed.

Lemma webhook_shape env req w :
  rewrites_one w
    (snd (WebhookController.handleRazorpayWebhook hmac_sha256_hex JSON_stringify env req w))
  /\ (is_rejected (fst (WebhookController.handleRazorpayWebhook
                          hmac_sha256_hex JSON_stringify env req w)) = true ->
      snd (WebhookController.handleRazorpayWebhook
             hmac_sha256_hex JSON_stringify env req w) = w).
Proof.
  unfold WebhookController.handleRazorpayWebhook.
  repeat break_match; cbn [fst snd is_rejected];
    (split; [try (left; reflexivity) | first [reflexivity | discriminate]]).
  eapply dispatch_shape; eassumption.
Qed.

Lemma updateOrderStatus_shape env req w :
  rewrites_one w (snd (OrderController.updateOrderStatus env req w))
  /\ (is_rejected (fst (OrderController.updateOrderStatus env req w)) = true ->
      snd (OrderController.updateOrderStatus env req w) = w).
Proof. unfold OrderController.updateOrderStatus. shape. Qed.

Lemma admin_refund_shape env req w :
  rewrites_one w (snd (OrderController.processRefund env req w))
  /\ (is_rejected (fst (OrderController.processRefund env req w)) = true ->
      snd (OrderController.processRefund env req w) = w).
Proof. unfold OrderController.processRefund. shape. Qed.

Lemma markCodOrderAsPaid_shape env id w :
  rewrites_one w (snd (OrderController.markCodOrderAsPaid env id w))
  /\ (is_rejected (fst (OrderController.markCodOrderAsPaid env id w)) = true ->
      snd (OrderController.markCodOrderAsPaid env id w) = w).
Proof. unfold OrderController.markCodOrderAsPaid. shape. Qed.

Lemma cancelOrder_shape env req w :
  rewrites_one w (snd (OrderController.cancelOrder env req w))
  /\ (is_rejected (fst (OrderController.cancelOrder env req w)) = true ->
      snd (OrderController.cancelOrder env req w) = w).
Proof.
  unfold OrderController.cancelOrder.
  destruct (findById (OrderController.cn_id req) w) as [order|] eqn:Hfind;
    [|split; [left|]; reflexivity].
  repeat break_match; cbn [fst snd is_rejected];
    (split; [try (left; reflexivity) | first [reflexivity | discriminate]]).
  all: match goal with
       | |- rewrites_one _ (OrderController.notify_admins ?o ?w1) =>
           destruct (notify_admins_shape o w1) as (Ho & Ha & l & Hn);
           right; exists order, o,
             (Notification.mk (Order.user o) "order_cancelled" (Order._id o) :: l)%list;
           rewrite Ho, Ha, Hn
       end.
  all: split; [exact (proj1 (find_has_id_In _ _ _ Hfind))|].
  all: split; [identity|].
  all: split; [unfold paidAt_consistent; cbn; intros; try discriminate; auto|].
  all: cbn [orders admins notifications sendUserNotification save].
  all: split; [reflexivity|split; [reflexivity|]].
  all: rewrite <- app_assoc; reflexivity.
Qed.

Lemma run_shape env op w :
  rewrites_one w (Api.run hmac_sha256_hex JSON_stringify env op w)
  /\ (Api.rejected hmac_sha256_hex JSON_stringify env op w = true ->
      Api.run hmac_sha256_hex JSON_stringify env op w = w).
Proof.
  destruct op; cbn [Api.run Api.rejected];
    auto using createRazorpayOrder_shape, verifyPayment_shape, gateway_refund_shape,
      webhook_shape, updateOrderStatus_shape, cancelOrder_shape, admin_refund_shape,
      markCodOrderAsPaid_shape.
Qed.

End Shapes.

Section Invariants.

Lemma keeps_identity_refl (o : Order.t) : keeps_identity o o.
Proof. unfold keeps_identity. tauto. Qed.

Lemma keeps_identity_trans (a b c : Order.t) :
  keeps_identity a b -> keeps_identity b c -> keeps_identity a c.
Proof.
  unfold keeps_identity.
  intros (H1 & H2 & H3 & H4 & H5 & H6) (K1 & K2 & K3 & K4 & K5 & K6).
  repeat split; try congruence; auto.
Qed.

Lemma Forall2_keeps_identity_refl (l : list Order.t) : Forall2 keeps_identity l l.
Proof. induction l; constructor; auto using keeps_identity_refl. Qed.

Lemma Forall2_keeps_identity_trans (l1 l2 l3 : list Order.t) :
  Forall2 keeps_identity l1 l2 -> Forall2 keeps_identity l2 l3 ->
  Forall2 keeps_identity l1 l3.
Proof.
  intros H. revert l3. induction H; intros l3 K; inversion K; subst; constructor.
  - eapply keeps_identity_trans; eassumption.
  - auto.
Qed.

Lemma Forall2_keeps_identity_ids (l l' : list Order.t) :
  Forall2 keeps_identity l l' -> map Order._id l' = map Order._id l.
Proof.
  induction 1 as [|a b l l' Hab _ IH]; [reflexivity|].
  cbn. rewrite IH. now destruct Hab as [-> _].
Qed.

(** Two stored documents with the same [_id] are the same document. *)
Lemma NoDup_ids_inj (l : list Order.t) (a b : Order.t) :
  NoDup (map Order._id l) -> In a l -> In b l -> Order._id a = Order._id b -> a = b.
Proof.
  induction l as [|x l IH]; cbn; [tauto|].
  intros Hnd. inversion Hnd as [|? ? Hnotin Hnd']; subst.
  intros [->|Ha] [->|Hb] Hid; auto.
  - exfalso. apply Hnotin. rewrite Hid. now apply in_map.
  - exfalso. apply Hnotin. rewrite <- Hid. now apply in_map.
Qed.

Lemma save_keeps_identity (w : World) (order o' : Order.t) :
  NoDup (order_ids w) -> In order (orders w) -> keeps_identity order o' ->
  Forall2 keeps_identity (orders w) (orders (save o' w)).
Proof.
  unfold order_ids, save. cbn [orders]. intros Hnd Hin Hk.
  assert (Hall : forall d, In d (orders w) ->
            keeps_identity d (if has_id (Order._id o') d then o' else d)).
  { intros d Hd. destruct (has_id (Order._id o') d) eqn:Hid;
      [|apply keeps_identity_refl].
    unfold has_id in Hid. apply String.eqb_eq in Hid.
    assert (d = order) as ->; [|exact Hk].
    apply (NoDup_ids_inj (orders w)); auto.
    destruct Hk as [Hk _]. congruence. }
  clear Hnd Hin Hk. induction (orders w) as [|x l IH]; cbn; constructor.
  - apply Hall. now left.
  - apply IH. intros d Hd. apply Hall. now right.
Qed.

Lemma stable_refl (w : World) : stable w w.
Proof.
  repeat split; [apply Forall2_keeps_identity_refl|].
  exists []. now rewrite app_nil_r.
Qed.

Lemma stable_trans (w1 w2 w3 : World) : stable w1 w2 -> stable w2 w3 -> stable w1 w3.
Proof.
  intros (H1 & H2 & l1 & H3) (K1 & K2 & l2 & K3). repeat split.
  - eapply Forall2_keeps_identity_trans; eassumption.
  - congruence.
  - exists (l1 ++ l2)%list. rewrite K3, H3. now rewrite app_assoc.
Qed.

Lemma stable_order_ids (w w' : World) : stable w w' -> order_ids w' = order_ids w.
Proof. intros (H & _). now apply Forall2_keeps_identity_ids. Qed.

Lemma rewrites_one_stable (w w' : World) :
  NoDup (order_ids w) -> rewrites_one w w' -> stable w w'.
Proof.
  intros Hnd [->|(order & o' & l & Hin & Hk & _ & Ho & Ha & Hn)];
    [apply stable_refl|].
  repeat split; [|exact Ha|exists l; exact Hn].
  rewrite Ho. now apply save_keeps_identity with (order := order).
Qed.

Lemma rewrites_one_paidAt (w w' : World) :
  rewrites_one w w' ->
  Forall paidAt_consistent (orders w) -> Forall paidAt_consistent (orders w').
Proof.
  intros [->|(order & o' & l & Hin & _ & Hp & Ho & _ & _)] Hall; [exact Hall|].
  rewrite Ho. unfold save. cbn [orders].
  assert (Ho' : paidAt_consistent o').
  { apply Hp. rewrite Forall_forall in Hall. auto. }
  clear Hin Ho Hp. induction Hall as [|x l' Hx _ IH]; cbn; constructor; auto.
  now destruct (has_id (Order._id o') x).
Qed.

Lemma rewrites_one_frame (w w' : World) :
  rewrites_one w w' ->
  exists i, Forall2 (fun d d' => Order._id d <> i -> d' = d) (orders w) (orders w').
Proof.
  intros [->|(order & o' & l & _ & _ & _ & Ho & _ & _)].
  - exists "". induction (orders w); constructor; auto.
  - exists (Order._id o'). rewrite Ho. unfold save. cbn [orders].
    induction (orders w) as [|x l' IH]; cbn; constructor; auto.
    intros Hne. unfold has_id. destruct (Order._id x =? Order._id o')%string eqn:E;
      [|reflexivity].
    apply String.eqb_eq in E. contradiction.
Qed.

End Invariants.

(** ** Invariants of the store under every mutating endpoint *)

Section Requests.

Variable hmac_sha256_hex : string -> string -> string.
Variable JSON_stringify : WebhookController.Event -> string.

(** X1.  A request that is answered with an error (an [ApiError] or an
    exception handed to [next]) leaves the orders, the administrators and
    the notification log exactly as they were, for each of the eight
    mutating endpoints. *)
Theorem rejected_request_changes_nothing (env : Env) (op : Api.Operation) (w : World) :
  Api.rejected hmac_sha256_hex JSON_stringify env op w = true ->
  Api.run hmac_sha256_hex JSON_stringify env op w = w.
Proof. apply run_shape. Qed.

(** X2.  In a store whose [_id]s are distinct, whatever requests are served
    and in whatever order, every order keeps its place, [_id], owner, order
    number and total; an order that is paid stays paid; an order that has left
    [pending] never returns to it; the administrators are unchanged and the
    notification log only grows. *)
Theorem requests_keep_order_identity (reqs : list (Env * Api.Operation)) (w : World) :
  NoDup (order_ids w) ->
  stable w (Api.run_all hmac_sha256_hex JSON_stringify reqs w).
Proof.
  revert w. induction reqs as [|[env op] reqs IH]; intros w Hnd; cbn [Api.run_all].
  - apply stable_refl.
  - assert (Hstep : stable w (Api.run hmac_sha256_hex JSON_stringify env op w)).
    { apply rewrites_one_stable; [exact Hnd | apply run_shape]. }
    eapply stable_trans; [exact Hstep|].
    apply IH. now rewrite (stable_order_ids _ _ Hstep).
Qed.

(** X3.  If no unpaid order carries a payment date, none does after any
    sequence of requests. *)
Theorem requests_keep_paidAt_consistent (reqs : list (Env * Api.Operation)) (w : World) :
  Forall paidAt_consistent (orders w) ->
  Forall paidAt_consistent
         (orders (Api.run_all hmac_sha256_hex JSON_stringify reqs w)).
Proof.
  revert w. induction reqs as [|[env op] reqs IH]; intros w Hall; cbn [Api.run_all].
  - exact Hall.
  - apply IH. eapply rewrites_one_paidAt; [apply run_shape | exact Hall].
Qed.

(** X4.  One request rewrites the documents of at most one [_id]: there is
    an [_id] such that every stored order with another [_id] is, at the same
    place, the same document afterwards. *)
Theorem request_rewrites_one_order (env : Env) (op : Api.Operation) (w : World) :
  exists i,
    Forall2 (fun d d' => Order._id d <> i -> d' = d)
            (orders w) (orders (Api.run hmac_sha256_hex JSON_stringify env op w)).
Proof. apply rewrites_one_frame, run_shape. Qed.

End Requests.

Lemma rejected_request_changes_nothing_witness :
  let w := Scenario.shop (Scenario.unpaid_order cod delivered) in
  let op := Api.CancelOrder (OrderController.mkCancelReq "o1" None Scenario.customer) in
  Api.rejected Scenario.digest Scenario.stringify (Scenario.env_at 2000) op w = true
  /\ Api.run Scenario.digest Scenario.stringify (Scenario.env_at 2000) op w = w.
Proof.
  split; [vm_compute; reflexivity|].
  apply (rejected_request_changes_nothing Scenario.digest Scenario.stringify).
  vm_compute; reflexivity.
Defined.

Lemma requests_keep_order_identity_witness :
  let w := Scenario.shop (Scenario.unpaid_order cod pending) in
  let reqs :=
    [ (Scenario.env_at 2000, Api.MarkCodOrderAsPaid "o1");
      (Scenario.env_at 3000,
       Api.CancelOrder (OrderController.mkCancelReq "o1" None Scenario.customer));
      (Scenario.env_at 4000,
       Api.AdminRefund (OrderController.mkRefundReq "o1" None None None None
                                                    Scenario.staff)) ] in
  NoDup (order_ids w)
  /\ stable w (Api.run_all Scenario.digest Scenario.stringify reqs w).
Proof.
  assert (Hnd : NoDup (order_ids (Scenario.shop (Scenario.unpaid_order cod pending)))).
  { cbn. constructor; [intros []|constructor]. }
  split; [exact Hnd|].
  apply (requests_keep_order_identity Scenario.digest Scenario.stringify). exact Hnd.
Defined.

Lemma requests_keep_paidAt_consistent_witness :
  let w := Scenario.shop (Scenario.unpaid_order razorpay pending) in
  let reqs :=
    [ (Scenario.env_at 2000,
       Api.RazorpayWebhook (Scenario.signed "whsec" Scenario.failed_event));
      (Scenario.env_at 3000, Api.VerifyPayment Scenario.verify_request) ] in
  Forall paidAt_consistent (orders w)
  /\ Forall paidAt_consistent
            (orders (Api.run_all Scenario.digest Scenario.stringify reqs w)).
Proof.
  assert (H : Forall paidAt_consistent
                (orders (Scenario.shop (Scenario.unpaid_order razorpay pending)))).
  { cbn. constructor; [|constructor]. intros _. reflexivity. }
  split; [exact H|].
  apply (requests_keep_paidAt_consistent Scenario.digest Scenario.stringify). exact H.
Defined.

(** ** Webhook events *)

Section WebhookDelivery.

Import WebhookController.

(** After a save that keeps the [_id] and the gateway order id, the
    document a gateway order id resolves to is the saved one. *)
Lemma findOne_razorpayOrderId_save (rid : string) (w : World) (order o' : Order.t) :
  findOne_razorpayOrderId rid w = Some order ->
  Order._id o' = Order._id order ->
  Order.razorpayOrderId o' = Order.razorpayOrderId order ->
  findOne_razorpayOrderId rid (save o' w) = Some o'.
Proof.
  unfold findOne_razorpayOrderId, save. cbn [orders]. intros Hfind Hid Hrid.
  assert (Ho' : has_razorpayOrderId rid o' = true).
  { apply find_some in Hfind. unfold has_razorpayOrderId in *. rewrite Hrid. tauto. }
  induction (orders w) as [|x l IH]; cbn in *; [discriminate|].
  destruct (has_razorpayOrderId rid x) eqn:Hx.
  - inversion Hfind; subst x. unfold has_id. rewrite <- Hid, !String.eqb_refl.
    now rewrite Ho'.
  - destruct (has_id (Order._id o') x); [now rewrite Ho'|]. rewrite Hx. auto.
Qed.

(** Once either capture handler has run, the order its gateway order id
    resolves to, if any, is paid. *)
Lemma captured_then_paid (env : Env) (p : Gateway.Payment) (w : World) (o : Order.t) :
  findOne_razorpayOrderId (Gateway.order_id_of p) (handlePaymentCaptured env p w) = Some o ->
  Order.isPaid o = true.
Proof.
  unfold handlePaymentCaptured.
  destruct (findOne_razorpayOrderId (Gateway.order_id_of p) w) as [order|] eqn:Hfind;
    [|congruence].
  destruct (Order.isPaid order) eqn:Hpaid; cbn [negb].
  - rewrite Hfind. now intros [= <-].
  - erewrite findOne_razorpayOrderId_save; [|exact Hfind|reflexivity|reflexivity].
    now intros [= <-].
Qed.

Lemma order_paid_then_paid (env : Env) (rid : string) (w : World) (o : Order.t) :
  findOne_razorpayOrderId rid (handleOrderPaid env rid w) = Some o ->
  Order.isPaid o = true.
Proof.
  unfold handleOrderPaid.
  destruct (findOne_razorpayOrderId rid w) as [order|] eqn:Hfind; [|congruence].
  destruct (Order.isPaid order) eqn:Hpaid; cbn [negb].
  - rewrite Hfind. now intros [= <-].
  - erewrite findOne_razorpayOrderId_save; [|exact Hfind|reflexivity|reflexivity].
    now intros [= <-].
Qed.

Lemma handlePaymentCaptured_paid (env : Env) (p : Gateway.Payment) (w : World) :
  (forall o, findOne_razorpayOrderId (Gateway.order_id_of p) w = Some o ->
             Order.isPaid o = true) ->
  handlePaymentCaptured env p w = w.
Proof.
  intros H. unfold handlePaymentCaptured.
  destruct (findOne_razorpayOrderId (Gateway.order_id_of p) w) as [o|]; [|reflexivity].
  now rewrite (H o eq_refl).
Qed.

Lemma handleOrderPaid_paid (env : Env) (rid : string) (w : World) :
  (forall o, findOne_razorpayOrderId rid w = Some o -> Order.isPaid o = true) ->
  handleOrderPaid env rid w = w.
Proof.
  intros H. unfold handleOrderPaid.
  destruct (findOne_razorpayOrderId rid w) as [o|]; [|reflexivity].
  now rewrite (H o eq_refl).
Qed.

(** X5.  A [payment.captured] event delivered again, or a second payment
    entity for the same gateway order, changes nothing: the state after the
    first delivery is kept as it is, also when the clock has moved and the
    second entity carries another payment id. *)
Theorem payment_captured_twice_is_once (env1 env2 : Env) (p1 p2 : Gateway.Payment)
        (w : World) :
  Gateway.order_id_of p2 = Gateway.order_id_of p1 ->
  handlePaymentCaptured env2 p2 (handlePaymentCaptured env1 p1 w)
  = handlePaymentCaptured env1 p1 w.
Proof.
  intros Hsame. apply handlePaymentCaptured_paid. rewrite Hsame.
  intros o. apply captured_then_paid.
Qed.

(** X6.  Of [order.paid] and [payment.captured] for one gateway order, the
    event handled first decides: the other one, and a repeated [order.paid],
    leave the state as the first left it. *)
Theorem first_capture_event_wins (env1 env2 : Env) (p : Gateway.Payment) (w : World) :
  let rid := Gateway.order_id_of p in
  handleOrderPaid env2 rid (handlePaymentCaptured env1 p w) = handlePaymentCaptured env1 p w
  /\ handlePaymentCaptured env2 p (handleOrderPaid env1 rid w) = handleOrderPaid env1 rid w
  /\ handleOrderPaid env2 rid (handleOrderPaid env1 rid w) = handleOrderPaid env1 rid w.
Proof.
  cbv zeta. split; [|split].
  - apply handleOrderPaid_paid. intros o. apply captured_then_paid.
  - apply handlePaymentCaptured_paid. intros o. apply order_paid_then_paid.
  - apply handleOrderPaid_paid. intros o. apply order_paid_then_paid.
Qed.

(** X7.  [payment.captured] for an unpaid order marks the order paid at the
    time of handling, by [razorpay], with the payment id and the status of
    the event's payment entity (whatever that status is), and moves it to
    [processing]; the owner and the total stay, and no notification is
    added (the call that would send one fails inside the handler). *)
Theorem payment_captured_pays_unpaid_order (env : Env) (p : Gateway.Payment)
        (w : World) (order : Order.t) :
  findOne_razorpayOrderId (Gateway.order_id_of p) w = Some order ->
  Order.isPaid order = false ->
  exists o' pr,
    findById (Order._id order) (handlePaymentCaptured env p w) = Some o'
    /\ findOne_razorpayOrderId (Gateway.order_id_of p) (handlePaymentCaptured env p w)
       = Some o'
    /\ Order.isPaid o' = true
    /\ Order.paidAt o' = Some (Date_now env)
    /\ Order.paymentMethod o' = razorpay
    /\ Order.status o' = processing
    /\ Order.paymentResult o' = Some pr
    /\ PaymentResult.razorpay_payment_id pr = Some (Gateway.id p)
    /\ PaymentResult.status pr = Some (Gateway.status p)
    /\ Order.user o' = Order.user order
    /\ Order.totalPrice o' = Order.totalPrice order
    /\ notifications (handlePaymentCaptured env p w) = notifications w.
Proof.
  intros Hfind Hpaid. unfold handlePaymentCaptured. rewrite Hfind, Hpaid. cbn [negb].
  do 2 eexists.
  split; [apply findById_save_In;
          [exact (proj1 (findOne_razorpayOrderId_In _ _ _ Hfind)) | reflexivity]|].
  split; [apply (findOne_razorpayOrderId_save _ _ order); [exact Hfind|reflexivity..]|].
  cbn. repeat (split; [reflexivity|]). reflexivity.
Qed.

End WebhookDelivery.

Lemma payment_captured_twice_is_once_witness :
  let w := Scenario.shop (Scenario.unpaid_order razorpay pending) in
  let p2 := Gateway.mkPayment "pay_9" "captured" "order_A" 70997%float None None None in
  Gateway.order_id_of p2 = Gateway.order_id_of Scenario.captured_payment
  /\ WebhookController.handlePaymentCaptured (Scenario.env_at 3000) p2
       (WebhookController.handlePaymentCaptured (Scenario.env_at 2000)
          Scenario.captured_payment w)
     = WebhookController.handlePaymentCaptured (Scenario.env_at 2000)
         Scenario.captured_payment w.
Proof.
  split; [reflexivity|].
  apply payment_captured_twice_is_once. reflexivity.
Defined.

Lemma payment_captured_pays_unpaid_order_witness :
  let w := Scenario.shop (Scenario.unpaid_order razorpay pending) in
  let p := Scenario.captured_payment in
  let env := Scenario.env_at 2000 in
  findOne_razorpayOrderId (Gateway.order_id_of p) w
  = Some (Scenario.unpaid_order razorpay pending)
  /\ exists o', findById "o1" (WebhookController.handlePaymentCaptured env p w) = Some o'
                /\ Order.isPaid o' = true
                /\ notifications (WebhookController.handlePaymentCaptured env p w) = [].
Proof.
  split; [reflexivity|].
  destruct (payment_captured_pays_unpaid_order
              (Scenario.env_at 2000) Scenario.captured_payment
              (Scenario.shop (Scenario.unpaid_order razorpay pending))
              (Scenario.unpaid_order razorpay pending) eq_refl eq_refl)
    as (o' & pr & H1 & _ & H2 & _ & _ & _ & _ & _ & _ & _ & _ & H3).
  exists o'. split; [exact H1|]. split; [exact H2|exact H3].
Defined.

Section WebhookAcknowledgement.

Import WebhookController.

Variable hmac_sha256_hex : string -> string -> string.
Variable JSON_stringify : Event -> string.

(** X8.  A correctly signed webhook request that the handler cannot apply
    is still acknowledged with 200 and changes nothing: an event of a kind
    other than the four handled ones, and an event whose payment, refund or
    order entity resolves to no stored order. *)
Theorem webhook_acknowledges_inapplicable_event
        (env : Env) (req : Request) (w : World) (secret : string) :
  RAZORPAY_WEBHOOK_SECRET env = Some secret ->
  truthy (Some secret) = true ->
  truthy (x_razorpay_signature req) = true ->
  x_razorpay_signature req = Some (hmac_sha256_hex secret (JSON_stringify (body req))) ->
  (~ In (event (body req))
        ["payment.captured"; "payment.failed"; "refund.processed"; "order.paid"])
  \/ (exists p, payload_payment_entity (body req) = Some p
                /\ (event (body req) = "payment.captured"
                    \/ event (body req) = "payment.failed")
                /\ findOne_razorpayOrderId (Gateway.order_id_of p) w = None)
  \/ (exists r, payload_refund_entity (body req) = Some r
                /\ event (body req) = "refund.processed"
                /\ findOne_razorpay_payment_id (Gateway.refund_payment_id r) w = None)
  \/ (exists i, payload_order_entity (body req) = Some i
                /\ event (body req) = "order.paid"
                /\ findOne_razorpayOrderId i w = None) ->
  handleRazorpayWebhook hmac_sha256_hex JSON_stringify env req w
  = (ApiResponse 200 tt "Webhook processed successfully", w).
Proof.
  intros Hsecret Hs Htruthy Hsig Hcase.
  rewrite (webhook_accepts_matching_signature _ _ _ _ _ _ Hsecret Hs Htruthy Hsig).
  assert (Hd : dispatch env (body req) w = Some w); [|now rewrite Hd].
  unfold dispatch.
  destruct Hcase as [Hnot|[(p & Hp & Hev & Hnone)|[(r & Hr & Hev & Hnone)
                                                  |(i & Hi & Hev & Hnone)]]].
  - cbn [In] in Hnot.
    repeat match goal with
           | |- context [(event (body req) =? ?s)%string] =>
               destruct (String.eqb_spec (event (body req)) s) as [E|_];
               [exfalso; apply Hnot; rewrite E; tauto|]
           end.
    reflexivity.
  - apply entity_Some in Hp. rewrite Hp. cbn [on_entity].
    destruct Hev as [-> | ->]; cbn [String.eqb Ascii.eqb Bool.eqb];
      unfold handlePaymentCaptured, handlePaymentFailed; now rewrite Hnone.
  - apply entity_Some in Hr. rewrite Hr, Hev.
    cbn [on_entity String.eqb Ascii.eqb Bool.eqb].
    unfold handleRefundProcessed. now rewrite Hnone.
  - apply entity_Some in Hi. rewrite Hi, Hev.
    cbn [on_entity String.eqb Ascii.eqb Bool.eqb].
    unfold handleOrderPaid. now rewrite Hnone.
Qed.

End WebhookAcknowledgement.

Lemma webhook_acknowledges_inapplicable_event_witness :
  let ev := WebhookController.mkEvent "payment.authorized"
                                      (Some (Some Scenario.captured_payment)) None None in
  let w := Scenario.shop (Scenario.unpaid_order razorpay pending) in
  WebhookController.handleRazorpayWebhook Scenario.digest Scenario.stringify
    (Scenario.env_at 2000) (Scenario.signed "whsec" ev) w
  = (ApiResponse 200 tt "Webhook processed successfully", w).
Proof.
  apply (webhook_acknowledges_inapplicable_event Scenario.digest Scenario.stringify
           (Scenario.env_at 2000) _ _ "whsec"); try reflexivity.
  left. cbn. intros [H|[H|[H|[H|[]]]]]; discriminate H.
Defined.

Section RefundEvent.

Import WebhookController.

(** X9.  [refund.processed] marks the order that holds the refunded payment
    id as refunded: [refundStatus] becomes [completed], the refund details
    take the event's amount divided by 100, its id and status, the time of
    handling and the reason (or "Customer request"); the order's status, paid
    flag and total are as before, whatever they are, and the owner gets one
    [refund_processed] notification. *)
Theorem refund_processed_event_records_refund (env : Env) (r : Gateway.Refund)
        (w : World) (order : Order.t) :
  findOne_razorpay_payment_id (Gateway.refund_payment_id r) w = Some order ->
  exists o' rd,
    findById (Order._id order) (handleRefundProcessed env r w) = Some o'
    /\ Order.refundStatus o' = Some refund_completed
    /\ Order.refundDetails o' = Some rd
    /\ RefundDetails.amount rd
       = Some (RazorpayConfig.formatAmountFromRazorpay (Gateway.refund_amount r))
    /\ RefundDetails.razorpayRefundId rd = Some (Gateway.refund_id r)
    /\ RefundDetails.processedAt rd = Some (Date_now env)
    /\ RefundDetails.reason rd
       = or_else (Gateway.refund_notes_reason r) (Some "Customer request")
    /\ Order.status o' = Order.status order
    /\ Order.isPaid o' = Order.isPaid order
    /\ Order.totalPrice o' = Order.totalPrice order
    /\ Order.paymentResult o' = Order.paymentResult order
    /\ notifications (handleRefundProcessed env r w)
       = (notifications w
          ++ [Notification.mk (Order.user order) "refund_processed" (Order._id order)])%list.
Proof.
  intros Hfind. unfold handleRefundProcessed. rewrite Hfind.
  do 2 eexists.
  split; [apply findById_save_In;
          [exact (findOne_razorpay_payment_id_In _ _ _ Hfind) | reflexivity]|].
  cbn. repeat (split; [reflexivity|]). reflexivity.
Qed.

End RefundEvent.

Lemma refund_processed_event_records_refund_witness :
  let order := Scenario.paid_order razorpay Scenario.gateway_result cancelled None in
  let r := Gateway.mkRefund "rfnd_1" 70997%float "processed" "pay_1" None in
  let w' := WebhookController.handleRefundProcessed (Scenario.env_at 5000) r
              (Scenario.shop order) in
  findOne_razorpay_payment_id "pay_1" (Scenario.shop order) = Some order
  /\ exists o', findById "o1" w' = Some o'
                /\ Order.refundStatus o' = Some refund_completed.
Proof.
  split; [reflexivity|].
  destruct (refund_processed_event_records_refund
              (Scenario.env_at 5000)
              (Gateway.mkRefund "rfnd_1" 70997%float "processed" "pay_1" None)
              (Scenario.shop (Scenario.paid_order razorpay Scenario.gateway_result
                                                  cancelled None))
              (Scenario.paid_order razorpay Scenario.gateway_result cancelled None)
              eq_refl)
    as (o' & rd & H1 & H2 & _).
  exists o'. split; [exact H1|exact H2].
Defined.

(** ** Amounts sent to and received from the gateway *)

Section GatewayAmounts.

Import RazorpayConfig PaymentController.

(** The paise of an amount with two decimal places, as a helper for the
    handlers below. *)
Lemma formatAmountForRazorpay_paise (k : Z) :
  - 2 ^ 51 < k < 2 ^ 51 ->
  formatAmountForRazorpay (amount_of_paise k) = Number_of_Z k.
Proof.
  intros Hk.
  assert (Hcase : forall (s : bool) (p : positive),
             Z.pos p < 2 ^ 51 ->
             formatAmountForRazorpay (amount_of_paise (if s then Z.neg p else Z.pos p))
             = Number_of_Z (if s then Z.neg p else Z.pos p)).
  { intros s p Hp.
    destruct (Prim2SF_Number_of_Z p) as (mk & E & Hpos & Hneg & HE & Hmk & Hmkb).
    { eapply Z.lt_trans; [exact Hp | reflexivity]. }
    destruct (times_hundred_after_div s p mk E Hp HE Hmk Hmkb)
      as (mp & y & Hsf & Hy & Hclose).
    unfold formatAmountForRazorpay, amount_of_paise.
    apply (Math_round_near_integer _ s mp p y); [|exact Hy|exact Hclose].
    rewrite mul_spec, div_spec, Prim2SF_hundred.
    destruct s; [rewrite Hneg | rewrite Hpos]; exact Hsf. }
  destruct k as [|p|p].
  - vm_compute; reflexivity.
  - apply (Hcase false p). lia.
  - apply (Hcase true p). lia.
Qed.

(** X10.  For an unpaid, uncancelled order of the caller whose total is an
    amount of [k] paise ([|k| < 2^51]), [createRazorpayOrder] asks the
    gateway for exactly the integer [k], in INR, with the order number as
    receipt; when the gateway answers, its order id is bound to the order and
    its answer is returned, and when it throws nothing is bound. *)
Theorem createRazorpayOrder_asks_exact_paise
        (env : Env) (req : CreateOrderReq) (w : World) (oid : string)
        (order : Order.t) (k : Z) :
  co_orderId req = Some oid ->
  truthy (Some oid) = true ->
  findById oid w = Some order ->
  Order.user order = ReqUser.id (co_user req) ->
  Order.isPaid order = false ->
  Order.status order <> cancelled ->
  Order.totalPrice order = amount_of_paise k ->
  - 2 ^ 51 < k < 2 ^ 51 ->
  createRazorpayOrder env req w
  = match Gateway.orders_create (razorpay_client env)
            (Gateway.mkOrderRequest (Number_of_Z k) "INR" (Order.orderNumber order)) with
    | None => (Thrown "razorpay.orders.create", w)
    | Some razorpayOrder =>
        (ApiResponse 200 razorpayOrder "Razorpay order created successfully",
         save (Order.set_razorpayOrderId (Some (Gateway.order_id razorpayOrder)) order) w)
    end.
Proof.
  intros Hoid Htruthy Hfind Huser Hpaid Hstatus Htotal Hk.
  apply String.eqb_eq in Huser.
  unfold createRazorpayOrder.
  rewrite Hoid, Htruthy, Hfind, Huser, Hpaid, Htotal, (formatAmountForRazorpay_paise k Hk).
  cbn [negb].
  destruct (Order.status order); try reflexivity. now elim Hstatus.
Qed.

(** X11.  A full refund through the gateway (no [refundAmount] in the
    request) of a paid order whose total is an amount of [k] paise
    ([|k| < 2^51]) asks the gateway to refund exactly [k] on the payment on
    record; when the gateway reports that amount as refunded, the amount
    written to the order's refund details is the order's total again, and
    the refund status is [completed]. *)
Theorem full_gateway_refund_records_order_total
        (env : Env) (req : RefundReq) (w : World) (oid pid : string)
        (order : Order.t) (k : Z) (refund : Gateway.Refund) :
  rf_orderId req = Some oid ->
  truthy (Some oid) = true ->
  findById oid w = Some order ->
  Order.isPaid order = true ->
  order_razorpay_payment_id order = Some pid ->
  truthy (Some pid) = true ->
  truthy_num (rf_refundAmount req) = false ->
  Order.totalPrice order = amount_of_paise k ->
  - 2 ^ 51 < k < 2 ^ 51 ->
  Gateway.payments_refund (razorpay_client env) pid (Number_of_Z k) = Some refund ->
  Gateway.refund_amount refund = Number_of_Z k ->
  exists order' rd w',
    processRefund env req w = (ApiResponse 200 order' "Refund processed successfully", w')
    /\ findById oid w' = Some order'
    /\ Order.refundStatus order' = Some refund_completed
    /\ Order.refundDetails order' = Some rd
    /\ RefundDetails.amount rd = Some (Order.totalPrice order)
    /\ RefundDetails.razorpayRefundId rd = Some (Gateway.refund_id refund)
    /\ Order.totalPrice order' = Order.totalPrice order.
Proof.
  intros Hoid Htruthy Hfind Hpaid Hpid Hptruthy Hnone Htotal Hk Hrefund Hamount.
  unfold processRefund.
  rewrite Hoid, Htruthy, Hfind, Hpaid, Hpid, Hptruthy. cbn [negb].
  assert (Hasked :
            match rf_refundAmount req with
            | Some a =>
                if truthy_num (Some a) then formatAmountForRazorpay a
                else formatAmountForRazorpay (Order.totalPrice order)
            | None => formatAmountForRazorpay (Order.totalPrice order)
            end = Number_of_Z k).
  { rewrite Htotal, (formatAmountForRazorpay_paise k Hk).
    destruct (rf_refundAmount req) as [a|]; [|reflexivity].
    now rewrite Hnone. }
  rewrite Hasked, Hrefund.
  do 3 eexists. split; [reflexivity|].
  split.
  { cbn [sendUserNotification findById orders].
    apply (findById_save oid w order); [exact Hfind|].
    cbn. now apply findById_id in Hfind. }
  cbn. repeat (split; [reflexivity|]).
  split; [|split; reflexivity].
  unfold refund_details. cbn [RefundDetails.amount].
  rewrite Hamount, Htotal. reflexivity.
Qed.

End GatewayAmounts.

Lemma createRazorpayOrder_asks_exact_paise_witness :
  let w := Scenario.shop (Scenario.unpaid_order razorpay pending) in
  let req := PaymentController.mkCreateOrderReq (Some "o1") Scenario.customer in
  exists ro w',
    PaymentController.createRazorpayOrder (Scenario.env_at 2000) req w
    = (ApiResponse 200 ro "Razorpay order created successfully", w')
    /\ Gateway.order_amount ro = 70997%float.
Proof.
  do 2 eexists.
  rewrite (createRazorpayOrder_asks_exact_paise
             (Scenario.env_at 2000)
             (PaymentController.mkCreateOrderReq (Some "o1") Scenario.customer)
             (Scenario.shop (Scenario.unpaid_order razorpay pending))
             "o1" (Scenario.unpaid_order razorpay pending) 70997);
    try reflexivity.
  - cbn. split; reflexivity.
  - cbn. discriminate.
  - cbn. lia.
Defined.

Lemma full_gateway_refund_records_order_total_witness :
  let order := Scenario.paid_order razorpay Scenario.gateway_result processing None in
  let req := PaymentController.mkRefundReq (Some "o1") None None Scenario.customer in
  exists order' rd w',
    PaymentController.processRefund (Scenario.env_at 5000) req (Scenario.shop order)
    = (ApiResponse 200 order' "Refund processed successfully", w')
    /\ Order.refundDetails order' = Some rd
    /\ RefundDetails.amount rd = Some Scenario.total_709_97.
Proof.
  destruct (full_gateway_refund_records_order_total
              (Scenario.env_at 5000)
              (PaymentController.mkRefundReq (Some "o1") None None Scenario.customer)
              (Scenario.shop (Scenario.paid_order razorpay Scenario.gateway_result
                                                  processing None))
              "o1" "pay_1"
              (Scenario.paid_order razorpay Scenario.gateway_result processing None)
              70997
              (Gateway.mkRefund "rfnd_1" 70997%float "processed" "pay_1" None))
    as (order' & rd & w' & H1 & _ & _ & H2 & H3 & _); try reflexivity.
  - cbn. lia.
  - exists order', rd, w'. split; [exact H1|]. split; [exact H2|exact H3].
Defined.

(** ** Client confirmation: signature and order resolution *)

Section Confirmation.

Import PaymentController.

Variable hmac_sha256_hex : string -> string -> string.

(** X12.  When a [verifyPayment] request carries a gateway order id and a
    signature, and the signature is not the HMAC-SHA256 of
    [razorpay_order_id|razorpay_payment_id] under the configured key secret,
    the request is answered with an error and nothing is changed, whatever
    the gateway would report about the payment. *)
Theorem verifyPayment_rejects_forged_signature
        (env : Env) (req : VerifyReq) (w : World) (rid sig : string) :
  razorpay_order_id req = Some rid ->
  truthy (Some rid) = true ->
  razorpay_signature req = Some sig ->
  truthy (Some sig) = true ->
  (forall secret pid,
      RAZORPAY_KEY_SECRET env = Some secret ->
      razorpay_payment_id req = Some pid ->
      hmac_sha256_hex secret (rid ++ "|" ++ pid) <> sig) ->
  is_rejected (fst (verifyPayment hmac_sha256_hex env req w)) = true
  /\ snd (verifyPayment hmac_sha256_hex env req w) = w.
Proof.
  intros Hrid Hr Hsig Hs Hforged. unfold verifyPayment.
  destruct (razorpay_payment_id req) as [pid|] eqn:Hpid; [|now split].
  destruct (negb (truthy (Some pid))); [now split|].
  destruct (actualOrderId req w) as [oid|]; [|now split].
  destruct (findById oid w) as [order|]; [|now split].
  destruct (negb _); [now split|].
  unfold signature_check. rewrite Hrid, Hsig, Hr, Hs. cbn [andb].
  destruct (RAZORPAY_KEY_SECRET env) as [secret|] eqn:Hsecret; [|now split].
  destruct (String.eqb_spec (hmac_sha256_hex secret (rid ++ "|" ++ pid)) sig) as [E|_].
  - now elim (Hforged secret pid eq_refl eq_refl).
  - now split.
Qed.

(** The request with [orderId] filled in. *)
Lemma actualOrderId_by_gateway_order_id (req : VerifyReq) (w : World) (rid : string)
      (order : Order.t) (req' : VerifyReq) :
  truthy (orderId req) = false ->
  razorpay_order_id req = Some rid ->
  truthy (Some rid) = true ->
  findOne_razorpayOrderId rid w = Some order ->
  razorpay_order_id req' = Some rid ->
  orderId req' = Some (Order._id order) ->
  actualOrderId req w = Some (Order._id order)
  /\ actualOrderId req' w = Some (Order._id order).
Proof.
  intros Hnone Hrid Hr Hfind Hrid' Hoid'. unfold actualOrderId.
  rewrite Hnone, Hrid, Hrid', Hoid', Hr, Hfind. cbn [option_map].
  split; [reflexivity|]. now destruct (truthy (Some (Order._id order))).
Qed.

(** X13.  A [verifyPayment] request without [orderId] is applied to the
    order bound to its [razorpay_order_id]: the answer and the state are
    those of the same request sent with that order's [_id] as [orderId]. *)
Theorem verifyPayment_resolves_gateway_order_id
        (env : Env) (req : VerifyReq) (w : World) (rid : string) (order : Order.t) :
  truthy (orderId req) = false ->
  razorpay_order_id req = Some rid ->
  truthy (Some rid) = true ->
  findOne_razorpayOrderId rid w = Some order ->
  verifyPayment hmac_sha256_hex env req w
  = verifyPayment hmac_sha256_hex env
      (mkVerifyReq (razorpay_order_id req) (razorpay_payment_id req)
                   (razorpay_signature req) (Some (Order._id order)) (user req)) w.
Proof.
  intros Hnone Hrid Hr Hfind.
  destruct (actualOrderId_by_gateway_order_id
              req w rid order
              (mkVerifyReq (razorpay_order_id req) (razorpay_payment_id req)
                           (razorpay_signature req) (Some (Order._id order)) (user req))
              Hnone Hrid Hr Hfind Hrid eq_refl) as [H1 H2].
  unfold verifyPayment. rewrite H1, H2. reflexivity.
Qed.

End Confirmation.

Lemma verifyPayment_rejects_forged_signature_witness :
  let w := Scenario.shop (Scenario.unpaid_order razorpay pending) in
  let req := PaymentController.mkVerifyReq (Some "order_A") (Some "pay_1")
               (Some "0000") (Some "o1") Scenario.customer in
  is_rejected (fst (PaymentController.verifyPayment Scenario.digest
                      (Scenario.env_at 2000) req w)) = true
  /\ snd (PaymentController.verifyPayment Scenario.digest
            (Scenario.env_at 2000) req w) = w.
Proof.
  apply (verifyPayment_rejects_forged_signature Scenario.digest _ _ _ "order_A" "0000");
    try reflexivity.
  intros secret pid [= <-] [= <-]. discriminate.
Defined.

Lemma verifyPayment_resolves_gateway_order_id_witness :
  let w := Scenario.shop (Scenario.unpaid_order razorpay pending) in
  let req := PaymentController.mkVerifyReq (Some "order_A") (Some "pay_1")
               None None Scenario.customer in
  exists order' msg w',
    PaymentController.verifyPayment Scenario.digest (Scenario.env_at 2000) req w
    = (ApiResponse 200 order' msg, w')
    /\ Order._id order' = "o1" /\ Order.isPaid order' = true.
Proof.
  do 3 eexists.
  rewrite (verifyPayment_resolves_gateway_order_id Scenario.digest
             (Scenario.env_at 2000)
             (PaymentController.mkVerifyReq (Some "order_A") (Some "pay_1")
                                            None None Scenario.customer)
             (Scenario.shop (Scenario.unpaid_order razorpay pending))
             "order_A" (Scenario.unpaid_order razorpay pending));
    try reflexivity.
  cbn. split; [reflexivity|]. split; reflexivity.
Defined.

(** ** From payment intent to capture *)

Section IntentToCapture.

Import PaymentController WebhookController.

(** A gateway order id that no stored order carries resolves, after it is
    bound to an order, to that order. *)
Lemma findOne_razorpayOrderId_bound (rid : string) (w : World) (order o' : Order.t) :
  findOne_razorpayOrderId rid w = None ->
  In order (orders w) ->
  Order._id o' = Order._id order ->
  Order.razorpayOrderId o' = Some rid ->
  findOne_razorpayOrderId rid (save o' w) = Some o'.
Proof.
  unfold findOne_razorpayOrderId, save. cbn [orders]. intros Hnone Hin Hid Hrid.
  assert (Ho' : has_razorpayOrderId rid o' = true).
  { unfold has_razorpayOrderId. rewrite Hrid. apply String.eqb_refl. }
  induction (orders w) as [|x l IH]; cbn in *; [contradiction|].
  destruct (has_razorpayOrderId rid x) eqn:Hx; [discriminate|].
  destruct (has_id (Order._id o') x) eqn:Hidx.
  - now rewrite Ho'.
  - rewrite Hx. destruct Hin as [->|Hin]; [|auto].
    unfold has_id in Hidx. rewrite Hid, String.eqb_refl in Hidx. discriminate.
Qed.

(** X14.  From intent to capture: once [createRazorpayOrder] has succeeded
    with a gateway order id that no stored order carried before, a
    [payment.captured] event for that gateway order id marks the very order
    of the request paid and [processing], with the event's payment id on
    record, and leaves its owner and total as they were. *)
Theorem intent_then_capture_event_pays_order
        (env env' : Env) (req : CreateOrderReq) (w w1 : World) (oid : string)
        (code : Z) (ro : Gateway.RazorpayOrder) (msg : string) (p : Gateway.Payment) :
  co_orderId req = Some oid ->
  createRazorpayOrder env req w = (ApiResponse code ro msg, w1) ->
  findOne_razorpayOrderId (Gateway.order_id ro) w = None ->
  Gateway.order_id_of p = Gateway.order_id ro ->
  exists order o',
    findById oid w = Some order
    /\ findById oid (handlePaymentCaptured env' p w1) = Some o'
    /\ Order.isPaid o' = true
    /\ Order.paidAt o' = Some (Date_now env')
    /\ Order.status o' = processing
    /\ Order.razorpayOrderId o' = Some (Gateway.order_id ro)
    /\ order_razorpay_payment_id o' = Some (Gateway.id p)
    /\ Order.user o' = ReqUser.id (co_user req)
    /\ Order.totalPrice o' = Order.totalPrice order.
Proof.
  intros Hoid Hrun Hfresh Hp. unfold createRazorpayOrder in Hrun. rewrite Hoid in Hrun.
  destruct (negb (truthy (Some oid))); [discriminate|].
  destruct (findById oid w) as [order|] eqn:Hfind; [|discriminate].
  destruct (String.eqb_spec (Order.user order) (ReqUser.id (co_user req)))
    as [Huser|_]; [|discriminate].
  cbn [negb] in Hrun.
  destruct (Order.isPaid order) eqn:Hpaid; [discriminate|].
  destruct (OrderStatus_eqb (Order.status order) cancelled); [discriminate|].
  destruct (Gateway.orders_create _ _) as [ro'|]; [|discriminate].
  injection Hrun as _ -> _ <-.
  set (bound := Order.set_razorpayOrderId (Some (Gateway.order_id ro)) order).
  destruct (find_has_id_In _ _ _ Hfind) as [Hin Hid].
  assert (Hres : findOne_razorpayOrderId (Gateway.order_id_of p) (save bound w)
                 = Some bound).
  { rewrite Hp. apply (findOne_razorpayOrderId_bound _ _ order); auto. }
  exists order. eexists. split; [reflexivity|].
  unfold handlePaymentCaptured. rewrite Hres.
  replace (Order.isPaid bound) with false by (symmetry; exact Hpaid). cbn [negb].
  split.
  { rewrite <- Hid at 1.
    apply (findById_save_In (save bound w) bound);
      [exact (proj1 (findOne_razorpayOrderId_In _ _ _ Hres)) | reflexivity]. }
  cbn. repeat (split; [reflexivity|]). split; [exact Huser|reflexivity].
Qed.

End IntentToCapture.

Lemma intent_then_capture_event_pays_order_witness :
  let order := Order.mk "o1" "u1" "YT-20240101-0001" razorpay None Scenario.total_709_97
                        false None None pending None None None in
  let req := PaymentController.mkCreateOrderReq (Some "o1") Scenario.customer in
  let p := Gateway.mkPayment "pay_7" "captured" "order_B" 70997%float None None None in
  exists ro w1 o',
    PaymentController.createRazorpayOrder (Scenario.env_at 2000) req (Scenario.shop order)
    = (ApiResponse 200 ro "Razorpay order created successfully", w1)
    /\ findById "o1" (WebhookController.handlePaymentCaptured (Scenario.env_at 3000) p w1)
       = Some o'
    /\ Order.isPaid o' = true.
Proof.
  cbv zeta.
  destruct (intent_then_capture_event_pays_order
              (Scenario.env_at 2000) (Scenario.env_at 3000)
              (PaymentController.mkCreateOrderReq (Some "o1") Scenario.customer)
              (Scenario.shop
                 (Order.mk "o1" "u1" "YT-20240101-0001" razorpay None
                           Scenario.total_709_97
                           false None None pending None None None))
              _ "o1" _ _ _
              (Gateway.mkPayment "pay_7" "captured" "order_B" 70997%float None None None)
              eq_refl eq_refl eq_refl eq_refl)
    as (o0 & o' & _ & H1 & H2 & _).
  do 2 eexists. exists o'. split; [reflexivity|]. split; [exact H1|exact H2].
Defined.

(** ** Cancellation and manual refund *)

Section CancelAndRefund.

Import OrderController.

Lemma push_all_notifications (t i : string) (l : list string) (w : World) :
  fold_left (fun w a => pushNotification a t i w) l w
  = mkWorld (orders w) (admins w)
            (notifications w ++ map (fun a => Notification.mk a t i) l)%list.
Proof.
  revert w. induction l as [|a l IH]; intros w; cbn [fold_left map].
  - rewrite app_nil_r. now destruct w.
  - rewrite IH. cbn [pushNotification orders admins notifications].
    now rewrite <- app_assoc.
Qed.


(** What the refund path reads of a cancelled order. *)
Lemma cancelled_order_readback
      (env : Env) (req : CancelReq) (w w' : World) (code : Z) (order' : Order.t)
      (msg : string) :
  cancelOrder env req w = (ApiResponse code order' msg, w') ->
  findById (cn_id req) w' = Some order' /\ Order.status order' = cancelled.
Proof.
  intros Hrun. unfold cancelOrder in Hrun.
  destruct (findById (cn_id req) w) as [order|] eqn:Hfind; [|discriminate].
  destruct (_ && _); [discriminate|].
  destruct (OrderStatus_eqb (Order.status order) delivered); [discriminate|].
  destruct (OrderStatus_eqb (Order.status order) cancelled); [discriminate|].
  injection Hrun as _ <- _ <-. unfold notify_admins. rewrite push_all_notifications.
  unfold findById. cbn [orders sendUserNotification].
  split.
  - eapply findById_save; [exact Hfind|].
    apply findById_id in Hfind. now destruct (Order.isPaid _).
  - now destruct (Order.isPaid _).
Qed.

Lemma cancelOrder_paid_pending
      (env : Env) (req : CancelReq) (w w' : World) (code : Z) (order' : Order.t)
      (msg : string) :
  cancelOrder env req w = (ApiResponse code order' msg, w') ->
  Order.isPaid order' = true ->
  Order.refundStatus order' = Some refund_pending.
Proof.
  intros Hrun. unfold cancelOrder in Hrun.
  destruct (findById (cn_id req) w) as [order|] eqn:Hfind; [|discriminate].
  destruct (_ && _); [discriminate|].
  destruct (OrderStatus_eqb (Order.status order) delivered); [discriminate|].
  destruct (OrderStatus_eqb (Order.status order) cancelled); [discriminate|].
  injection Hrun as _ <- _ _.
  cbn [Order.isPaid Order.set_status].
  destruct (Order.isPaid order) eqn:Hpaid; cbn; [reflexivity|congruence].
Qed.

(** X16.  Cancellation followed by the manual refund: once [cancelOrder] has
    succeeded, an administrator's [processRefund] for the same order succeeds
    exactly when the order was paid; it then records the refund as
    [completed], and a further [processRefund] is rejected and changes
    nothing.  For an order that was not paid the refund is rejected. *)
Theorem cancel_then_refund
        (env env' env'' : Env) (creq : CancelReq) (rreq : RefundReq)
        (w w1 : World) (code : Z) (order1 : Order.t) (msg : string) :
  cancelOrder env creq w = (ApiResponse code order1 msg, w1) ->
  rf_id rreq = cn_id creq ->
  (Order.isPaid order1 = true ->
   exists order2 w2,
     processRefund env' rreq w1
     = (ApiResponse 200 order2 "Refund processed successfully", w2)
     /\ findById (cn_id creq) w2 = Some order2
     /\ Order.refundStatus order2 = Some refund_completed
     /\ Order.status order2 = cancelled
     /\ processRefund env'' rreq w2
        = (ApiError 400 "Refund has already been processed", w2))
  /\ (Order.isPaid order1 = false ->
      processRefund env' rreq w1
      = (ApiError 400 "Order was not paid, no refund needed", w1)).
Proof.
  intros Hrun Hid.
  destruct (cancelled_order_readback env creq w w1 code order1 msg Hrun)
    as (Hfind1 & Hst).
  split; intros Hpaid.
  - unfold processRefund at 1. rewrite Hid, Hfind1, Hst, Hpaid. cbn [OrderStatus_eqb negb].
    assert (Hrs : Order.refundStatus order1 = Some refund_pending).
    { apply (cancelOrder_paid_pending env creq w w1 code order1 msg Hrun Hpaid). }
    rewrite Hrs. cbn [RefundStatus_eqb].
    do 2 eexists. split; [reflexivity|].
    assert (Hfind2 : forall o, Order._id o = Order._id order1 ->
              findById (cn_id creq)
                (pushNotification (Order.user o) "refund_processed" (Order._id o)
                                  (save o w1)) = Some o).
    { intros o Ho. unfold findById. cbn [pushNotification orders].
      eapply findById_save; [exact Hfind1|]. rewrite Ho. now apply findById_id in Hfind1. }
    split; [apply Hfind2; reflexivity|].
    split; [reflexivity|]. split; [exact Hst|].
    unfold processRefund. rewrite Hid, Hfind2 by reflexivity.
    cbn [Order.status Order.set_refundDetails Order.set_refundStatus Order.isPaid
         Order.refundStatus].
    rewrite Hst, Hpaid. reflexivity.
  - unfold processRefund. rewrite Hid, Hfind1, Hst, Hpaid. reflexivity.
Qed.

End CancelAndRefund.


Lemma cancel_then_refund_witness :
  let order := Scenario.paid_order razorpay Scenario.gateway_result processing None in
  let creq := OrderController.mkCancelReq "o1" None Scenario.customer in
  let rreq := OrderController.mkRefundReq "o1" None None None None Scenario.staff in
  exists order1 w1 order2 w2,
    OrderController.cancelOrder (Scenario.env_at 3000) creq (Scenario.shop order)
    = (ApiResponse 200 order1 "Order cancelled successfully", w1)
    /\ OrderController.processRefund (Scenario.env_at 4000) rreq w1
       = (ApiResponse 200 order2 "Refund processed successfully", w2)
    /\ Order.refundStatus order2 = Some refund_completed
    /\ OrderController.processRefund (Scenario.env_at 5000) rreq w2
       = (ApiError 400 "Refund has already been processed", w2).
Proof.
  destruct (cancel_then_refund
              (Scenario.env_at 3000) (Scenario.env_at 4000) (Scenario.env_at 5000)
              (OrderController.mkCancelReq "o1" None Scenario.customer)
              (OrderController.mkRefundReq "o1" None None None None Scenario.staff)
              (Scenario.shop (Scenario.paid_order razorpay Scenario.gateway_result
                                                  processing None))
              _ _ _ _ eq_refl eq_refl) as [Hpaid _].
  destruct (Hpaid eq_refl) as (order2 & w2 & H1 & _ & H2 & _ & H3).
  do 2 eexists. exists order2, w2.
  split; [reflexivity|]. split; [exact H1|]. split; [exact H2|exact H3].
Defined.

(** ** Status updates by an administrator *)

Section StatusUpdate.

Import OrderController.

(** X17.  [updateOrderStatus] accepts exactly the status names
    [processing], [shipped], [delivered] and [cancelled].  With one of these,
    for an order that exists, it answers 200, stores the order under the
    named status, stamps [deliveredAt] exactly when the name is [delivered],
    sets the refund status to [pending] exactly when the name is [cancelled]
    and the order is paid, leaves the paid flag alone and notifies the owner
    with [order_<name>].  With any other name (so with [pending] and
    [refunded]), or without one, it answers 400 and changes nothing. *)
Theorem updateOrderStatus_accepts_valid_names (env : Env) (req : StatusReq) (w : World) :
  (forall name order,
      st_status req = Some name ->
      In name ["processing"; "shipped"; "delivered"; "cancelled"] ->
      findById (st_id req) w = Some order ->
      exists order' w',
        updateOrderStatus env req w
        = (ApiResponse 200 order' ("Order status updated to " ++ name), w')
        /\ findById (st_id req) w' = Some order'
        /\ status_name (Order.status order') = name
        /\ Order.deliveredAt order'
           = (if (name =? "delivered")%string then Some (Date_now env)
              else Order.deliveredAt order)
        /\ Order.refundStatus order'
           = (if (name =? "cancelled")%string && Order.isPaid order
              then Some refund_pending else Order.refundStatus order)
        /\ Order.isPaid order' = Order.isPaid order
        /\ notifications w'
           = (notifications w
              ++ [Notification.mk (Order.user order) ("order_" ++ name)
                                  (Order._id order)])%list)
  /\ (forall name,
        st_status req = Some name ->
        ~ In name ["processing"; "shipped"; "delivered"; "cancelled"] ->
        exists msg, updateOrderStatus env req w = (ApiError 400 msg, w))
  /\ (st_status req = None ->
      updateOrderStatus env req w = (ApiError 400 "Please provide order status", w)).
Proof.
  split; [|split].
  - intros name order Hname Hin Hfind.
    assert (Hid : Order._id order = st_id req) by now apply findById_id in Hfind.
    assert (Hback : forall o, Order._id o = Order._id order ->
              findById (st_id req)
                (sendUserNotification (Order.user o) ("order_" ++ name) (Order._id o)
                                      (save o w)) = Some o).
    { intros o Ho. unfold findById. cbn [sendUserNotification orders].
      eapply findById_save; [exact Hfind|]. congruence. }
    unfold updateOrderStatus. rewrite Hname, Hfind.
    cbn [In] in Hin. destruct Hin as [<-|[<-|[<-|[<-|[]]]]].
    all: cbn [truthy negb includes validStatuses existsb orb status_of_name
              String.eqb Ascii.eqb Bool.eqb OrderStatus_eqb andb
              Order.isPaid Order.set_status Order.set_deliveredAt].
    all: destruct (Order.isPaid order) eqn:Hpaid.
    all: do 2 eexists.
    all: (split; [reflexivity|]).
    all: (split; [apply Hback; reflexivity|]).
    all: cbn [Order.status Order.deliveredAt Order.refundStatus Order.isPaid Order.user
              Order._id Order.set_status Order.set_deliveredAt Order.set_refundStatus
              status_name sendUserNotification save notifications].
    all: rewrite ?Hpaid.
    all: repeat (split; [reflexivity|]); reflexivity.
  - intros name Hname Hnot. unfold updateOrderStatus. rewrite Hname.
    destruct (negb (truthy (Some name))); [eauto|].
    destruct (includes validStatuses name) eqn:Hin; cbn [negb]; [|eauto].
    exfalso. apply Hnot.
    unfold includes, validStatuses in Hin. cbn [existsb] in Hin.
    repeat (apply orb_prop in Hin; destruct Hin as [Hin|Hin]);
      try discriminate; apply String.eqb_eq in Hin; subst name; cbn; tauto.
  - intros Hnone. unfold updateOrderStatus. now rewrite Hnone.
Qed.

End StatusUpdate.

(** Witness of X17: [delivered] is accepted and stamps the delivery time;
    [pending] and [refunded] are refused. *)
Lemma updateOrderStatus_accepts_valid_names_witness :
  let w := Scenario.shop (Scenario.unpaid_order cod shipped) in
  (exists order' w',
      OrderController.updateOrderStatus (Scenario.env_at 4000)
        (OrderController.mkStatusReq "o1" (Some "delivered")) w
      = (ApiResponse 200 order' "Order status updated to delivered", w')
      /\ Order.status order' = delivered
      /\ Order.deliveredAt order' = Some 4000)
  /\ (exists msg,
        OrderController.updateOrderStatus (Scenario.env_at 4000)
          (OrderController.mkStatusReq "o1" (Some "pending")) w
        = (ApiError 400 msg, w))
  /\ (exists msg,
        OrderController.updateOrderStatus (Scenario.env_at 4000)
          (OrderController.mkStatusReq "o1" (Some "refunded")) w
        = (ApiError 400 msg, w)).
Proof.
  cbv zeta. split; [|split].
  - destruct (proj1 (updateOrderStatus_accepts_valid_names
                       (Scenario.env_at 4000)
                       (OrderController.mkStatusReq "o1" (Some "delivered"))
                       (Scenario.shop (Scenario.unpaid_order cod shipped)))
                    "delivered" (Scenario.unpaid_order cod shipped) eq_refl
                    (or_intror (or_intror (or_introl eq_refl))) eq_refl)
      as (order' & w' & Hrun & _ & Hst & Hd & _).
    exists order', w'. split; [exact Hrun|]. split; [|exact Hd].
    destruct (Order.status order'); try discriminate Hst. reflexivity.
  - apply (proj1 (proj2 (updateOrderStatus_accepts_valid_names
                           (Scenario.env_at 4000)
                           (OrderController.mkStatusReq "o1" (Some "pending"))
                           (Scenario.shop (Scenario.unpaid_order cod shipped))))
                 "pending" eq_refl).
    cbn. intros [H|[H|[H|[H|[]]]]]; discriminate H.
  - apply (proj1 (proj2 (updateOrderStatus_accepts_valid_names
                           (Scenario.env_at 4000)
                           (OrderController.mkStatusReq "o1" (Some "refunded"))
                           (Scenario.shop (Scenario.unpaid_order cod shipped))))
                 "refunded" eq_refl).
    cbn. intros [H|[H|[H|[H|[]]]]]; discriminate H.
Defined.

(** ** Who is served *)

Section Access.

Import PaymentController OrderController OrderReads.

Variable hmac_sha256_hex : string -> string -> string.

(** X18.  An order is read and cancelled only for its owner or an
    administrator, and a payment is opened and confirmed only for the owner:
    whenever [getOrderById], [cancelOrder], [createRazorpayOrder] or
    [verifyPayment] answers with success, the order concerned belongs to the
    authenticated user, or, for the first two, that user's role is [admin]. *)
Theorem customer_endpoints_serve_owner (env : Env) (w : World) :
  (forall req code order msg,
      getOrderById req w = ApiResponse code order msg ->
      Order._id order = g_id req
      /\ (Order.user order = ReqUser.id (g_user req)
          \/ ReqUser.role (g_user req) = "admin"))
  /\ (forall req code order' msg w',
         cancelOrder env req w = (ApiResponse code order' msg, w') ->
         Order.user order' = ReqUser.id (cn_user req)
         \/ ReqUser.role (cn_user req) = "admin")
  /\ (forall req code ro msg w',
         createRazorpayOrder env req w = (ApiResponse code ro msg, w') ->
         exists oid order,
           co_orderId req = Some oid /\ findById oid w = Some order
           /\ Order.user order = ReqUser.id (co_user req))
  /\ (forall req code order' msg w',
         verifyPayment hmac_sha256_hex env req w = (ApiResponse code order' msg, w') ->
         Order.user order' = ReqUser.id (user req)).
Proof.
  split; [|split; [|split]].
  - intros req code order msg. unfold getOrderById.
    destruct (findById (g_id req) w) as [o|] eqn:Hfind; [|discriminate].
    destruct (String.eqb_spec (Order.user o) (ReqUser.id (g_user req))) as [E|_];
      destruct (String.eqb_spec (ReqUser.role (g_user req)) "admin") as [E'|_];
      cbn [negb andb]; try discriminate; intros [= _ <- _];
      (split; [now apply findById_id in Hfind | tauto]).
  - intros req code order' msg w'. unfold cancelOrder.
    destruct (findById (cn_id req) w) as [o|]; [|discriminate].
    destruct (String.eqb_spec (Order.user o) (ReqUser.id (cn_user req))) as [E|_];
      destruct (String.eqb_spec (ReqUser.role (cn_user req)) "admin") as [E'|_];
      cbn [negb andb]; try discriminate;
      (destruct (OrderStatus_eqb (Order.status o) delivered); [discriminate|]);
      (destruct (OrderStatus_eqb (Order.status o) cancelled); [discriminate|]);
      intros [= _ <- _ _];
      cbn [Order.isPaid Order.set_status];
      destruct (Order.isPaid o); cbn; tauto.
  - intros req code ro msg w'. unfold createRazorpayOrder.
    destruct (co_orderId req) as [oid|]; [|discriminate].
    destruct (negb (truthy (Some oid))); [discriminate|].
    destruct (findById oid w) as [o|] eqn:Hfind; [|discriminate].
    destruct (String.eqb_spec (Order.user o) (ReqUser.id (co_user req))) as [E|_];
      [|discriminate].
    intros _. exists oid, o. auto.
  - intros req code order' msg w'. unfold verifyPayment.
    destruct (razorpay_payment_id req) as [pid|]; [|discriminate].
    destruct (negb (truthy (Some pid))); [discriminate|].
    destruct (actualOrderId req w) as [oid|]; [|discriminate].
    destruct (findById oid w) as [o|]; [|discriminate].
    destruct (String.eqb_spec (Order.user o) (ReqUser.id (user req))) as [E|_];
      [|discriminate].
    cbn [negb].
    destruct (signature_check hmac_sha256_hex env req pid) as [r|] eqn:Hsig.
    { intros [= Hr _]. apply signature_check_never_accepts in Hsig.
      rewrite Hr in Hsig. discriminate. }
    destruct (Gateway.payments_fetch (razorpay_client env) pid) as [payment|];
      [|discriminate].
    destruct (negb _); [discriminate|].
    intros [= _ <- _ _]. exact E.
Qed.

End Access.

(** ** The phone number sent to the shipping partner *)

Section Phone.

Import OrderReads.

Lemma remove_non_digits_all_digits (s : string) :
  all_digits (remove_non_digits s) = true.
Proof.
  induction s as [|c r IH]; cbn; [reflexivity|].
  destruct (is_digit c) eqn:Hc; cbn; [now rewrite Hc|exact IH].
Qed.

Lemma remove_non_digits_fixed (s : string) :
  all_digits s = true -> remove_non_digits s = s.
Proof.
  induction s as [|c r IH]; cbn; [reflexivity|].
  intros H. apply andb_prop in H. destruct H as [Hc Hr].
  now rewrite Hc, IH.
Qed.

Lemma drop_all_digits (n : nat) (s : string) :
  all_digits s = true -> all_digits (drop n s) = true.
Proof.
  revert s. induction n as [|n IH]; intros [|c r]; cbn; auto.
  intros H. apply andb_prop in H. now apply IH.
Qed.

Lemma drop_length (n : nat) (s : string) :
  String.length (drop n s) = (String.length s - n)%nat.
Proof. revert s. induction n as [|n IH]; intros [|c r]; cbn; auto. Qed.

Lemma slice_last_short (n : nat) (s : string) :
  (String.length s <= n)%nat -> slice_last n s = s.
Proof.
  intros H. unfold slice_last.
  replace (String.length s - n)%nat with 0%nat by lia. now destruct s.
Qed.

Lemma drop_suffix (n : nat) (s : string) :
  exists p, s = p ++ drop n s.
Proof.
  revert s. induction n as [|n IH]; intros s.
  - exists "". reflexivity.
  - destruct s as [|c r]; [exists ""; reflexivity|].
    destruct (IH r) as [p Hp]. exists (String c p). cbn. now rewrite <- Hp.
Qed.

(** X19.  [cleanPhone] returns at most ten characters, all of them decimal
    digits; they are the end of the digits of the input, the whole of them
    when there are at most ten; and cleaning a cleaned number changes nothing. *)
Theorem cleanPhone_is_last_ten_digits (phone : option string) :
  all_digits (cleanPhone phone) = true
  /\ (String.length (cleanPhone phone) <= 10)%nat
  /\ (forall s, phone = Some s ->
        (exists p, remove_non_digits s = p ++ cleanPhone phone)
        /\ ((String.length (remove_non_digits s) <= 10)%nat ->
            cleanPhone phone = remove_non_digits s))
  /\ cleanPhone (Some (cleanPhone phone)) = cleanPhone phone.
Proof.
  assert (Hdig : forall p, all_digits (cleanPhone p) = true).
  { intros p. unfold cleanPhone, slice_last.
    apply drop_all_digits, remove_non_digits_all_digits. }
  assert (Hlen : forall p, (String.length (cleanPhone p) <= 10)%nat).
  { intros p. unfold cleanPhone, slice_last. rewrite drop_length. lia. }
  assert (Hsome : forall s, cleanPhone (Some s) = slice_last 10 (remove_non_digits s)).
  { intros s. unfold cleanPhone, truthy.
    destruct (String.eqb_spec s "") as [->|_]; reflexivity. }
  split; [apply Hdig|]. split; [apply Hlen|]. split.
  - intros s ->. rewrite Hsome. split.
    + apply drop_suffix.
    + apply slice_last_short.
  - rewrite Hsome, remove_non_digits_fixed by apply Hdig.
    apply slice_last_short, Hlen.
Qed.

End Phone.

Example cleanPhone_strips_country_code :
  OrderReads.cleanPhone (Some "+91 98765-43210") = "9876543210"
  /\ OrderReads.cleanPhone (Some "98765 43210") = "9876543210"
  /\ OrderReads.cleanPhone None = "".
Proof. repeat split. Qed.

(** ** Paid orders, over time *)

Section PaidForGood.

Variable hmac_sha256_hex : string -> string -> string.
Variable JSON_stringify : WebhookController.Event -> string.

Lemma find_has_id_Forall2 (i : string) (l l' : list Order.t) (o : Order.t) :
  Forall2 keeps_identity l l' ->
  find (has_id i) l = Some o ->
  exists o', find (has_id i) l' = Some o' /\ keeps_identity o o'.
Proof.
  induction 1 as [|a b l l' Hab _ IH]; cbn; [discriminate|].
  assert (Hsame : has_id i b = has_id i a).
  { unfold has_id. now destruct Hab as [-> _]. }
  rewrite Hsame. destruct (has_id i a); [|exact IH].
  intros [= <-]. eauto.
Qed.

(** A paid order is found paid after any run of requests. *)
Lemma run_all_paid (reqs : list (Env * Api.Operation)) (w : World) (i : string)
      (o : Order.t) :
  NoDup (order_ids w) ->
  findById i w = Some o ->
  Order.isPaid o = true ->
  exists o',
    findById i (Api.run_all hmac_sha256_hex JSON_stringify reqs w) = Some o'
    /\ Order.isPaid o' = true.
Proof.
  revert w o. induction reqs as [|[env op] reqs IH]; intros w o Hnd Hfind Hpaid;
    cbn [Api.run_all]; [eauto|].
  assert (Hstep : stable w (Api.run hmac_sha256_hex JSON_stringify env op w)).
  { apply rewrites_one_stable; [exact Hnd | apply run_shape]. }
  destruct (find_has_id_Forall2 i _ _ o (proj1 Hstep) Hfind) as (o1 & Hfind1 & Hk).
  apply (IH _ o1); [now rewrite (stable_order_ids _ _ Hstep) | exact Hfind1 |].
  destruct Hk as (_ & _ & _ & _ & Hp & _). auto.
Qed.

(** X20.  Once an order is paid, no later request opens a payment for it:
    after any run of requests on a store with distinct [_id]s,
    [createRazorpayOrder] for that order is rejected and binds nothing. *)
Theorem paid_order_gets_no_new_intent
        (reqs : list (Env * Api.Operation)) (w : World) (oid : string) (order : Order.t)
        (env : Env) (req : PaymentController.CreateOrderReq) :
  NoDup (order_ids w) ->
  findById oid w = Some order ->
  Order.isPaid order = true ->
  PaymentController.co_orderId req = Some oid ->
  let w' := Api.run_all hmac_sha256_hex JSON_stringify reqs w in
  is_rejected (fst (PaymentController.createRazorpayOrder env req w')) = true
  /\ snd (PaymentController.createRazorpayOrder env req w') = w'.
Proof.
  intros Hnd Hfind Hpaid Hoid. cbv zeta.
  destruct (run_all_paid reqs w oid order Hnd Hfind Hpaid) as (o' & Hfind' & Hpaid').
  unfold PaymentController.createRazorpayOrder. rewrite Hoid.
  destruct (negb (truthy (Some oid))); [now split|].
  rewrite Hfind'. destruct (negb _); [now split|]. rewrite Hpaid'. now split.
Qed.

(** X21.  A cash-on-delivery payment is recorded once for good: after
    [markCodOrderAsPaid] has succeeded, every later [markCodOrderAsPaid] for
    the same order is rejected and changes nothing, whatever requests were
    served in between. *)
Theorem cod_payment_recorded_once
        (reqs : list (Env * Api.Operation)) (w w1 : World) (id : string)
        (env env' : Env) (code : Z) (order1 : Order.t) (msg : string) :
  NoDup (order_ids w) ->
  OrderController.markCodOrderAsPaid env id w = (ApiResponse code order1 msg, w1) ->
  let w' := Api.run_all hmac_sha256_hex JSON_stringify reqs w1 in
  is_rejected (fst (OrderController.markCodOrderAsPaid env' id w')) = true
  /\ snd (OrderController.markCodOrderAsPaid env' id w') = w'.
Proof.
  intros Hnd Hrun. cbv zeta.
  assert (H1 : NoDup (order_ids w1)
               /\ exists o1, findById id w1 = Some o1 /\ Order.isPaid o1 = true).
  { pose proof (markCodOrderAsPaid_shape env id w) as [Hshape _].
    rewrite Hrun in Hshape. cbn [snd] in Hshape.
    split.
    - rewrite (stable_order_ids _ _ (rewrites_one_stable _ _ Hnd Hshape)). exact Hnd.
    - unfold OrderController.markCodOrderAsPaid in Hrun.
      destruct (findById id w) as [o|] eqn:Hfind; [|discriminate].
      destruct (negb _); [discriminate|].
      destruct (Order.isPaid o); [discriminate|].
      injection Hrun as _ _ _ <-. eexists.
      split; [unfold findById; cbn [orders sendUserNotification];
              eapply findById_save; [exact Hfind|]; now apply findById_id in Hfind
             |reflexivity]. }
  destruct H1 as (Hnd1 & o1 & Hfind1 & Hpaid1).
  destruct (run_all_paid reqs w1 id o1 Hnd1 Hfind1 Hpaid1) as (o' & Hfind' & Hpaid').
  unfold OrderController.markCodOrderAsPaid. rewrite Hfind'.
  destruct (negb _); [now split|]. rewrite Hpaid'. now split.
Qed.

End PaidForGood.

Lemma paid_order_gets_no_new_intent_witness :
  let order := Scenario.paid_order razorpay Scenario.gateway_result processing None in
  let reqs :=
    [ (Scenario.env_at 3000,
       Api.CancelOrder (OrderController.mkCancelReq "o1" None Scenario.customer));
      (Scenario.env_at 4000,
       Api.UpdateOrderStatus (OrderController.mkStatusReq "o1" (Some "processing"))) ] in
  let w' := Api.run_all Scenario.digest Scenario.stringify reqs (Scenario.shop order) in
  let req := PaymentController.mkCreateOrderReq (Some "o1") Scenario.customer in
  is_rejected (fst (PaymentController.createRazorpayOrder (Scenario.env_at 5000) req w'))
  = true
  /\ snd (PaymentController.createRazorpayOrder (Scenario.env_at 5000) req w') = w'.
Proof.
  apply (paid_order_gets_no_new_intent Scenario.digest Scenario.stringify _
           (Scenario.shop (Scenario.paid_order razorpay Scenario.gateway_result
                                               processing None))
           "o1" (Scenario.paid_order razorpay Scenario.gateway_result processing None));
    try reflexivity.
  cbn. constructor; [intros []|constructor].
Defined.

Lemma cod_payment_recorded_once_witness :
  let w := Scenario.shop (Scenario.unpaid_order cod pending) in
  let reqs :=
    [ (Scenario.env_at 3000,
       Api.UpdateOrderStatus (OrderController.mkStatusReq "o1" (Some "delivered"))) ] in
  exists order1 w1,
    OrderController.markCodOrderAsPaid (Scenario.env_at 2000) "o1" w
    = (ApiResponse 200 order1 "COD order marked as paid", w1)
    /\ is_rejected
         (fst (OrderController.markCodOrderAsPaid (Scenario.env_at 4000) "o1"
                 (Api.run_all Scenario.digest Scenario.stringify reqs w1))) = true.
Proof.
  do 2 eexists. split; [vm_compute; reflexivity|].
  refine (proj1 (cod_payment_recorded_once Scenario.digest Scenario.stringify _
                   (Scenario.shop (Scenario.unpaid_order cod pending)) _ "o1"
                   (Scenario.env_at 2000) (Scenario.env_at 4000) 200 _
                   "COD order marked as paid" _ _)).
  - cbn. constructor; [intros []|constructor].
  - vm_compute; reflexivity.
Defined.
